(** * ETH-BOT: a shallow embedding of [src/bot.py]

    The arbitrage bot of [src/bot.py] is embedded function by function.
    Conventions of the embedding:

    - [Decimal] values are exact rationals ([Q]); Python compares them
      numerically, so equality of decimals is [Qeq] ([==]). The sums,
      differences and products of the profit arithmetic are taken exactly;
      the running total of profits and the deviation test of the
      validation guard, where the rounding of the decimal context (28
      significant digits, ties to even) shows, are followed by
      [round_context].
    - Python [int] is [Z]; the [uint256] words a router returns are [N].
    - A [dict] is a [gmap]; [self.dex_interfaces] is kept as the list of
      its keys in insertion order (the iteration order of the source).
    - Everything the bot reads from outside (clock, node, venues, signer,
      relay) is a field of a [World]; a read that can raise has an
      [outcome] type, and [try ... except Exception] is [catch].
    - The mutable fields of [ArbitrageBot] that the modelled methods touch
      form the record [Bot], threaded explicitly through the methods that
      write them.
    - [await e] is sequencing: one method call is one atomic step. *)

From Stdlib Require Import ZArith QArith Qabs Qround Qpower Lqa HexString.
From stdpp Require Import gmap strings list fin_maps.

Open Scope Z_scope.

(** ** Python values and exceptions *)

Module Py.

(** The result of evaluating an expression that may raise. *)
Inductive outcome (A : Type) : Type :=
| Returned (a : A)
| Raised.
Arguments Returned {A} a.
Arguments Raised {A}.

Definition bind {A B} (m : outcome A) (k : A -> outcome B) : outcome B :=
  match m with
  | Returned a => k a
  | Raised => Raised
  end.

(** [try: body except Exception: return d] *)
Definition catch {A} (body : outcome A) (d : A) : A :=
  match body with
  | Returned a => a
  | Raised => d
  end.

(** [d[k]]: [KeyError] when the key is absent. *)
Definition getitem {V} (d : gmap string V) (k : string) : outcome V :=
  match d !! k with
  | Some v => Returned v
  | None => Raised
  end.

(** [x / y] on [Decimal]: division by zero is trapped and raises. *)
Definition div (x y : Q) : outcome Q :=
  if Qeq_bool y 0 then Raised else Returned (x / y)%Q.

(** Truthiness of a [Decimal]: false exactly at zero. *)
Definition truthy (x : Q) : bool := negb (Qeq_bool x 0).

(** [x < y] and [x <= y] on [Decimal]. *)
Definition ltb (x y : Q) : bool := negb (Qle_bool y x).
Definition leb (x y : Q) : bool := Qle_bool x y.

(** [int(x)]: truncation toward zero. *)
Definition int (x : Q) : Z := Z.quot (Qnum x) (Z.pos (Qden x)).

(** [Decimal(str(n))] for an [int] [n]. *)
Definition Decimal (n : Z) : Q := inject_Z n.

(** The number of decimal digits of a positive integer. *)
Fixpoint digits_fuel (fuel : nat) (n : Z) : Z :=
  match fuel with
  | O => 0
  | S fuel' => if n <? 10 then 1 else 1 + digits_fuel fuel' (n / 10)
  end.

Definition digits (n : Z) : Z := digits_fuel (S (Z.to_nat (Z.log2 n))) n.

(** The integer nearest to [p / d], for [0 <= p] and [0 < d]; a tie goes
    to the even neighbour ([ROUND_HALF_EVEN]). *)
Definition half_even (p d : Z) : Z :=
  let f := p / d in
  let r := p mod d in
  if 2 * r <? d then f
  else if d <? 2 * r then f + 1
  else if Z.even f then f else f + 1.

(** The decimal order of magnitude of [p / q] for positive [p] and [q]:
    the [m] with [10 ^ m <= p / q < 10 ^ (m + 1)]. The digit counts place
    it at [g] or [g - 1]; the comparison decides. *)
Definition magnitude (p q : Z) : Z :=
  let g := digits p - digits q in
  if (if 0 <=? g then q * 10 ^ g <=? p else q <=? p * 10 ^ (- g))
  then g else g - 1.

(** The rounding the default [decimal] context applies to the result of
    an arithmetic operation: 28 significant digits, ties to even. A
    value of magnitude [m] is rounded to a multiple of [10 ^ (m - 27)]. *)
Definition round_context (x : Q) : Q :=
  let p := Z.abs (Qnum x) in
  let q := Z.pos (Qden x) in
  if p =? 0 then 0%Q
  else
    let e := magnitude p q - 27 in
    let n := if 0 <=? e then half_even p (q * 10 ^ e)
             else half_even (p * 10 ^ (- e)) q in
    (inject_Z (Z.sgn (Qnum x) * n) * 10 ^ e)%Q.

(** Half a unit in the 28th significant digit, relative to the value. *)
Definition half_ulp : Q := 1 # 2000000000000000000000000000.

(** [x + y], [x - y] and [x / y] on [Decimal] with the rounding of the
    context; they are used where a claim can observe the rounding. *)
Definition add_ctx (x y : Q) : Q := round_context (x + y).
Definition sub_ctx (x y : Q) : Q := round_context (x - y).
Definition div_ctx (x y : Q) : outcome Q :=
  if Qeq_bool y 0 then Raised else Returned (round_context (x / y)).

(** A value parsed from JSON. *)
#[local] Unset Elimination Schemes.
Inductive value : Type :=
| VNone
| VBool (b : bool)
| VNum (q : Q)
| VStr (s : string)
| VList (l : list value)
| VDict (d : list (string * value)).
#[local] Set Elimination Schemes.

(** [k in v] for a string [k]: key membership for a dict, element
    membership for a list, substring test for a string, [TypeError]
    otherwise. *)
Definition contains (k : string) (v : value) : outcome bool :=
  match v with
  | VDict d => Returned (existsb (fun kv => String.eqb (fst kv) k) d)
  | VList l =>
      Returned (existsb (fun x => match x with
                                  | VStr s => String.eqb s k
                                  | _ => false
                                  end) l)
  | VStr s => Returned (match String.index 0 k s with
                        | Some _ => true
                        | None => false
                        end)
  | _ => Raised
  end.

Fixpoint assoc (k : string) (d : list (string * value)) : option value :=
  match d with
  | [] => None
  | (k', v) :: d' => if String.eqb k' k then Some v else assoc k d'
  end.

(** [v[k]] for a string [k]: only a dict can be indexed by a string. *)
Definition subscript (v : value) (k : string) : outcome value :=
  match v with
  | VDict d => match assoc k d with
               | Some x => Returned x
               | None => Raised
               end
  | _ => Raised
  end.

Definition is_not_None (v : value) : bool :=
  match v with
  | VNone => false
  | _ => true
  end.

End Py.

Import Py.

Notation "x <- m ;; k" := (Py.bind m (fun x => k))
  (at level 100, m at next level, right associativity, only parsing).

(** ** Data model *)

Definition Address := string.

(** [Web3.toWei(x, 'ether')] for [x] given as a fraction [num/den]. *)
Definition toWei_ether (num den : Z) : Z := num * 10 ^ 18 / den.

(** [@dataclass class ArbitrageOpportunity] *)
Record ArbitrageOpportunity := {
  token0 : Address;
  token1 : Address;
  source_dex : string;
  target_dex : string;
  amount_in : Z;
  expected_profit : Q;
  execution_path : list string;
  gas_estimate : Z
}.

(** [self.stats] *)
Record Stats := {
  opportunities_found : Z;
  trades_executed : Z;
  total_profit : Q;
  failed_trades : Z
}.

(** The transaction built by [_prepare_flashbots_bundle]. *)
Record TxParams := {
  tx_from : Address;
  tx_to : Address;
  tx_nonce : Z;
  tx_gas : Z;
  tx_maxFeePerGas : Z;
  tx_maxPriorityFeePerGas : Z;
  tx_data : string
}.

(** The arguments of [executeArbitrage] handed to [encodeABI]. *)
Record CallArgs := {
  arg_token0 : Address;
  arg_token1 : Address;
  arg_amount_in : Z;
  arg_source_dex : string;
  arg_target_dex : string;
  arg_min_profit : Z
}.

(** One element of ['params'] of an [eth_sendBundle] request. *)
Record Bundle := {
  txs : list string;
  blockNumber : string;
  minTimestamp : Z;
  maxTimestamp : Z
}.

(** The JSON body posted to the relay. *)
Record RelayRequest := {
  jsonrpc : string;
  id : Z;
  method : string;
  params : list Bundle
}.

(** Everything outside the process, as seen during one method call. *)
Record World := {
  (** [time.time()] *)
  clock : Q;
  (** [self.w3.eth.gas_price], in wei *)
  eth_gas_price : outcome Z;
  (** [self.w3.eth.block_number] *)
  eth_block_number : outcome Z;
  (** [self.w3.eth.get_transaction_count(self.account.address)] *)
  eth_get_transaction_count : outcome Z;
  (** [dex_interface.functions.getAmountsOut(amount_in, path).call()] of
      the venue with the given name; the router returns [uint256[]] *)
  getAmountsOut : string -> Z -> list Address -> outcome (list N);
  (** [self.arbitrage_contract.encodeABI(fn_name='executeArbitrage', ...)] *)
  encodeABI : CallArgs -> outcome string;
  (** [sign_transaction(tx_params, key)] followed by
      [.rawTransaction.hex()] *)
  sign_transaction : TxParams -> outcome string;
  (** [session.post(endpoint, json=...)] followed by [response.json()] *)
  relay : RelayRequest -> outcome Py.value
}.

(** The fields of [ArbitrageBot] set by [__init__] and used below. *)
Record Bot := {
  dex_interfaces : list string;
  price_cache : gmap string (gmap string Q);
  last_cache_update : Q;
  CACHE_DURATION : Q;
  min_profit_threshold : Q;
  flash_loan_fee : Q;
  account_address : Address;
  contract_address : Address;
  stats : Stats
}.

(** The state [__init__] leaves behind, for the venues, account and
    contract named in the configuration. *)
Definition init (dexes : list string) (account contract : Address) : Bot := {|
  dex_interfaces := dexes;
  price_cache := ∅;
  last_cache_update := 0;
  CACHE_DURATION := 5;
  min_profit_threshold := 1 # 100;
  flash_loan_fee := 9 # 10000;
  account_address := account;
  contract_address := contract;
  stats := {| opportunities_found := 0;
              trades_executed := 0;
              total_profit := 0;
              failed_trades := 0 |}
|}.

Definition set_cache (b : Bot) (c : gmap string (gmap string Q)) (t : Q) : Bot := {|
  dex_interfaces := dex_interfaces b;
  price_cache := c;
  last_cache_update := t;
  CACHE_DURATION := CACHE_DURATION b;
  min_profit_threshold := min_profit_threshold b;
  flash_loan_fee := flash_loan_fee b;
  account_address := account_address b;
  contract_address := contract_address b;
  stats := stats b
|}.

Definition set_stats (b : Bot) (s : Stats) : Bot := {|
  dex_interfaces := dex_interfaces b;
  price_cache := price_cache b;
  last_cache_update := last_cache_update b;
  CACHE_DURATION := CACHE_DURATION b;
  min_profit_threshold := min_profit_threshold b;
  flash_loan_fee := flash_loan_fee b;
  account_address := account_address b;
  contract_address := contract_address b;
  stats := s
|}.

(** ** Price Aggregator *)

Section Aggregator.

Variable w : World.

(** [_get_curve_price]: [self.curve_registry] is assigned nowhere, so the
    first statement of the [try] raises [AttributeError]; the method's
    own handler logs it and returns [None]. *)
Definition _get_curve_price (token0 token1 : Address) : outcome (option Q) :=
  Returned (catch (Raised : outcome (option Q)) None).

(** [self._get_balancer_price] is defined nowhere: evaluating the
    attribute raises [AttributeError] inside [_get_dex_price]. *)
Definition _get_balancer_price (token0 token1 : Address) : outcome (option Q) :=
  Raised.

(** [_get_dex_price] *)
Definition _get_dex_price (dex_name : string) (token0 token1 : Address)
  : option Q :=
  catch
    (if String.eqb dex_name "curve" then _get_curve_price token0 token1
     else if String.eqb dex_name "balancer" then _get_balancer_price token0 token1
     else
       let amount_in := toWei_ether 1 1 in
       amounts <- getAmountsOut w dex_name amount_in [token0; token1] ;;
       match amounts with
       | a0 :: a1 :: _ =>
           p <- Py.div (Decimal (Z.of_N a1)) (Decimal (Z.of_N a0)) ;;
           Returned (Some p)
       | _ => Raised
       end)
    None.

(** The loop over [zip(self.dex_interfaces.keys(), results)]. *)
Fixpoint collect (names : list string) (results : list (option Q))
    (prices : gmap string Q) : gmap string Q :=
  match names, results with
  | dex_name :: names', price :: results' =>
      collect names' results'
        (match price with
         | Some p => if truthy p then <[dex_name := p]> prices else prices
         | None => prices
         end)
  | _, _ => prices
  end.

Definition cache_key (token0 token1 : Address) : string :=
  token0 +:+ "-" +:+ token1.

(** What one call of [_get_prices] does: the snapshot it returns, the
    bot it leaves, and the venues it queried, in order. *)
Record Fetched := {
  snapshot : gmap string Q;
  bot_after : Bot;
  venue_calls : list string
}.

(** The guard of the cached return,
    [cache_key in self.price_cache and
     current_time - self.last_cache_update < self.CACHE_DURATION],
    with the entry it selects. *)
Definition cached_prices (b : Bot) (key : string) : option (gmap string Q) :=
  match price_cache b !! key with
  | Some cached =>
      if ltb (clock w - last_cache_update b) (CACHE_DURATION b)
      then Some cached
      else None
  | None => None
  end.

(** [_get_prices] *)
Definition _get_prices (b : Bot) (token0 token1 : Address) : Fetched :=
  let current_time := clock w in
  let key := cache_key token0 token1 in
  match cached_prices b key with
  | Some cached => {| snapshot := cached; bot_after := b; venue_calls := [] |}
  | None =>
      let results :=
        map (fun dex_name => _get_dex_price dex_name token0 token1)
            (dex_interfaces b) in
      let prices := collect (dex_interfaces b) results ∅ in
      {| snapshot := prices;
         bot_after := set_cache b (<[key := prices]> (price_cache b)) current_time;
         venue_calls := dex_interfaces b |}
  end.

(** What a re-fetch records for a venue: its quote, unless the fetch
    failed or the quote is zero. *)
Definition recorded (token0 token1 : Address) (dex_name : string) : option Q :=
  match _get_dex_price dex_name token0 token1 with
  | Some p => if truthy p then Some p else None
  | None => None
  end.

End Aggregator.

(** ** Trade-Size Optimizer *)

Section Optimizer.

(** The simulated round-trip profit of an amount; in the bot this is
    [_simulate_trade_profit] for a fixed pair of venues. *)
Variable profit_at : Z -> Q.

(** The local variables of [_find_optimal_amount] that live across
    iterations. *)
Record Search := {
  min_amount : Z;
  max_amount : Z;
  best_amount : option Z;
  best_profit : Q
}.

Definition mid_amount (s : Search) : Z := (min_amount s + max_amount s) / 2.

(** The body of [for _ in range(20)]. *)
Definition iteration (s : Search) : Search :=
  let mid := mid_amount s in
  let profit := profit_at mid in
  let best_profit' := if ltb (best_profit s) profit then profit else best_profit s in
  let best_amount' := if ltb (best_profit s) profit then Some mid else best_amount s in
  let lower_profit := profit_at (mid - toWei_ether 1 10) in
  if ltb lower_profit profit
  then {| min_amount := mid; max_amount := max_amount s;
          best_amount := best_amount'; best_profit := best_profit' |}
  else {| min_amount := min_amount s; max_amount := mid;
          best_amount := best_amount'; best_profit := best_profit' |}.

Fixpoint iterate (n : nat) (s : Search) : Search :=
  match n with
  | O => s
  | S n' => iterate n' (iteration s)
  end.

Definition search_start : Search := {|
  min_amount := toWei_ether 1 10;
  max_amount := toWei_ether 100 1;
  best_amount := None;
  best_profit := 0
|}.

(** The value [_find_optimal_amount] returns for the profit function of
    its venues. *)
Definition find_optimal : option Z := best_amount (iterate 20 search_start).

(** The midpoints at which [n] iterations from [s] simulate the trade,
    in order. *)
Fixpoint midpoints (n : nat) (s : Search) : list Z :=
  match n with
  | O => []
  | S n' => mid_amount s :: midpoints n' (iteration s)
  end.

End Optimizer.

(** The search as the specification describes it, to be compared with
    the loop above: bisection of [lower, upper] for [n] iterations; each
    iteration probes the midpoint and the midpoint less a fixed
    decrement, and when the decremented point shows the lower profit the
    lower bound moves up to the midpoint, otherwise the upper bound moves
    down to it. The list holds the midpoints probed, in order. *)
Fixpoint bisection (profit : Z -> Q) (decrement : Z) (n : nat)
    (lower upper : Z) : list Z :=
  match n with
  | O => []
  | S n' =>
      let midpoint := (lower + upper) / 2 in
      midpoint ::
      (if ltb (profit (midpoint - decrement)) (profit midpoint)
       then bisection profit decrement n' midpoint upper
       else bisection profit decrement n' lower midpoint)
  end.

(** ** Opportunity Analyzer *)

Section Analyzer.

Variable w : World.
Variable b : Bot.

(** [_calculate_profit] *)
Definition _calculate_profit (amount : Z) (source_price target_price : Q) : Q :=
  ((target_price - source_price) * Decimal amount)%Q.

(** [_estimate_gas_cost]: [int(300000 * 1.2)], which is [360000] in
    double precision; nothing in the [try] raises. *)
Definition _estimate_gas_cost (token0 token1 : Address) (amount : Z)
    (source_dex target_dex : string) : Z := 360000.

(** [_get_dex_output] *)
Definition _get_dex_output (dex_name : string) (token_in token_out : Address)
    (amount_in : Z) : Z :=
  catch
    (if bool_decide (dex_name ∈ dex_interfaces b) then
       amounts <- getAmountsOut w dex_name amount_in [token_in; token_out] ;;
       match last amounts with
       | Some out => Returned (Z.of_N out)
       | None => Raised
       end
     else Raised)
    0.

(** [_simulate_trade_profit]; [_get_dex_output] handles its own errors, so
    the handler of this method is never entered. *)
Definition _simulate_trade_profit (token0 token1 : Address) (amount : Z)
    (source_dex target_dex : string) : Q :=
  let source_output := _get_dex_output source_dex token0 token1 amount in
  let target_output := _get_dex_output target_dex token1 token0 source_output in
  let profit := Decimal (target_output - amount) in
  let flash_loan_fee := (Decimal amount * flash_loan_fee b)%Q in
  (profit - flash_loan_fee)%Q.

(** [_find_optimal_amount]; the prices it is given are not used. *)
Definition _find_optimal_amount (token0 token1 : Address)
    (source_dex target_dex : string) (source_price target_price : Q)
    : option Z :=
  find_optimal
    (fun amount => _simulate_trade_profit token0 token1 amount source_dex target_dex).

(** The arithmetic of [_analyze_opportunity] between the optimizer and
    the threshold test. *)
Definition net_profit (optimal_amount : Z) (source_price target_price : Q)
    (gas_estimate gas_price : Z) : Q :=
  let profit := _calculate_profit optimal_amount source_price target_price in
  let flash_loan_cost := (Decimal optimal_amount * flash_loan_fee b)%Q in
  let gas_cost := Decimal (gas_estimate * gas_price) in
  (profit - flash_loan_cost - gas_cost)%Q.

(** The [try] block of [_analyze_opportunity]. *)
Definition analyze_body (token0 token1 : Address) (source_dex target_dex : string)
    (prices : gmap string Q) : outcome (option ArbitrageOpportunity) :=
  source_price <- getitem prices source_dex ;;
  target_price <- getitem prices target_dex ;;
  match _find_optimal_amount token0 token1 source_dex target_dex
          source_price target_price with
  | None => Returned None
  | Some optimal_amount =>
      if optimal_amount =? 0 then Returned None
      else
        let gas_estimate :=
          _estimate_gas_cost token0 token1 optimal_amount source_dex target_dex in
        gas_price <- eth_gas_price w ;;
        let net := net_profit optimal_amount source_price target_price
                     gas_estimate gas_price in
        if ltb (min_profit_threshold b) net
        then Returned (Some {| token0 := token0;
                               token1 := token1;
                               source_dex := source_dex;
                               target_dex := target_dex;
                               amount_in := optimal_amount;
                               expected_profit := net;
                               execution_path := [source_dex; target_dex];
                               gas_estimate := gas_estimate |})
        else Returned None
  end.

(** [_analyze_opportunity] *)
Definition _analyze_opportunity (token0 token1 : Address)
    (source_dex target_dex : string) (prices : gmap string Q)
    : option ArbitrageOpportunity :=
  catch (analyze_body token0 token1 source_dex target_dex prices) None.

(** The two nested loops of [_check_pair_opportunities], for the
    snapshot [_get_prices] returned. *)
Definition pair_opportunities (token0 token1 : Address) (prices : gmap string Q)
    : list ArbitrageOpportunity :=
  flat_map
    (fun source_dex =>
       flat_map
         (fun target_dex =>
            if String.eqb source_dex target_dex then []
            else match _analyze_opportunity token0 token1 source_dex target_dex prices with
                 | Some opportunity => [opportunity]
                 | None => []
                 end)
         (dex_interfaces b))
    (dex_interfaces b).

End Analyzer.

(** [_check_pair_opportunities] *)
Definition _check_pair_opportunities (w : World) (b : Bot) (token0 token1 : Address)
    : list ArbitrageOpportunity * Bot :=
  let fetched := _get_prices w b token0 token1 in
  (pair_opportunities w (bot_after fetched) token0 token1 (snapshot fetched),
   bot_after fetched).

(** ** Validation Guard *)

(** [MAX_PRICE_DEVIATION] of [_verify_prices] *)
Definition MAX_PRICE_DEVIATION : Q := 1 # 100.

(** The [try] block of [_verify_prices]. *)
Definition verify_body (b : Bot) (current_prices : gmap string Q)
    (opportunity : ArbitrageOpportunity) : outcome bool :=
  let key := cache_key (token0 opportunity) (token1 opportunity) in
  source_price <- getitem current_prices (source_dex opportunity) ;;
  target_price <- getitem current_prices (target_dex opportunity) ;;
  cached <- getitem (price_cache b) key ;;
  cached_source <- getitem cached (source_dex opportunity) ;;
  source_deviation <-
    Py.div_ctx (Qabs (Py.sub_ctx source_price cached_source)) source_price ;;
  cached' <- getitem (price_cache b) key ;;
  cached_target <- getitem cached' (target_dex opportunity) ;;
  target_deviation <-
    Py.div_ctx (Qabs (Py.sub_ctx target_price cached_target)) target_price ;;
  Returned (leb source_deviation MAX_PRICE_DEVIATION
            && leb target_deviation MAX_PRICE_DEVIATION).

(** [_verify_prices] *)
Definition _verify_prices (b : Bot) (current_prices : gmap string Q)
    (opportunity : ArbitrageOpportunity) : bool :=
  catch (verify_body b current_prices opportunity) false.

(** The [try] block of [_validate_opportunity], with the bot it leaves. *)
Definition validate_body (w : World) (b : Bot) (opportunity : ArbitrageOpportunity)
    : outcome (bool * Bot) :=
  if leb (expected_profit opportunity) (min_profit_threshold b)
  then Returned (false, b)
  else
    current_gas_price <- eth_gas_price w ;;
    let estimated_gas_cost :=
      Decimal (gas_estimate opportunity * current_gas_price) in
    if leb (expected_profit opportunity) estimated_gas_cost
    then Returned (false, b)
    else
      let fetched :=
        _get_prices w b (token0 opportunity) (token1 opportunity) in
      let current_prices := snapshot fetched in
      if negb (_verify_prices (bot_after fetched) current_prices opportunity)
      then Returned (false, bot_after fetched)
      else Returned (true, bot_after fetched).

(** [_validate_opportunity]; the only read that raises comes before the
    cache is touched, so the handler finds the bot as it was. *)
Definition _validate_opportunity (w : World) (b : Bot)
    (opportunity : ArbitrageOpportunity) : bool * Bot :=
  catch (validate_body w b opportunity) (false, b).

(** The [try] block of [_validate_opportunity] once more, keeping beside
    its result the venues queried on the way, in order: the two early
    returns come before any query, and the one call of [_get_prices]
    makes the only ones. *)
Definition validate_body_calls (w : World) (b : Bot)
    (opportunity : ArbitrageOpportunity) : outcome (bool * Bot * list string) :=
  if leb (expected_profit opportunity) (min_profit_threshold b)
  then Returned (false, b, [])
  else
    current_gas_price <- eth_gas_price w ;;
    let estimated_gas_cost :=
      Decimal (gas_estimate opportunity * current_gas_price) in
    if leb (expected_profit opportunity) estimated_gas_cost
    then Returned (false, b, [])
    else
      let fetched :=
        _get_prices w b (token0 opportunity) (token1 opportunity) in
      let current_prices := snapshot fetched in
      if negb (_verify_prices (bot_after fetched) current_prices opportunity)
      then Returned (false, bot_after fetched, venue_calls fetched)
      else Returned (true, bot_after fetched, venue_calls fetched).

(** [_validate_opportunity] with the venues it queried; the gas price,
    the only read that raises, is read before any venue is queried. *)
Definition _validate_opportunity_calls (w : World) (b : Bot)
    (opportunity : ArbitrageOpportunity) : bool * Bot * list string :=
  catch (validate_body_calls w b opportunity) (false, b, []).

(** The ways [_verify_prices] can fail internally. *)
Inductive verify_error (b : Bot) (prices : gmap string Q)
    (opp : ArbitrageOpportunity) : Prop :=
| current_source_missing :
    prices !! source_dex opp = None -> verify_error b prices opp
| current_target_missing :
    prices !! target_dex opp = None -> verify_error b prices opp
| cache_entry_missing :
    price_cache b !! cache_key (token0 opp) (token1 opp) = None ->
    verify_error b prices opp
| cached_source_missing cached :
    price_cache b !! cache_key (token0 opp) (token1 opp) = Some cached ->
    cached !! source_dex opp = None -> verify_error b prices opp
| cached_target_missing cached :
    price_cache b !! cache_key (token0 opp) (token1 opp) = Some cached ->
    cached !! target_dex opp = None -> verify_error b prices opp
| current_source_zero p :
    prices !! source_dex opp = Some p -> (p == 0)%Q -> verify_error b prices opp
| current_target_zero p :
    prices !! target_dex opp = Some p -> (p == 0)%Q -> verify_error b prices opp
| verify_raised :
    verify_body b prices opp = Raised -> verify_error b prices opp.

(** The ways [_validate_opportunity] can fail internally. *)
Inductive validation_error (w : World) (b : Bot)
    (opp : ArbitrageOpportunity) : Prop :=
| gas_price_unavailable :
    eth_gas_price w = Raised -> validation_error w b opp
| validate_raised :
    validate_body w b opp = Raised -> validation_error w b opp
| verification_error :
    verify_error (bot_after (_get_prices w b (token0 opp) (token1 opp)))
                 (snapshot (_get_prices w b (token0 opp) (token1 opp))) opp ->
    validation_error w b opp.

(** ** Execution Submitter *)

(** [_prepare_flashbots_bundle] *)
Definition _prepare_flashbots_bundle (w : World) (b : Bot)
    (opportunity : ArbitrageOpportunity) : outcome TxParams :=
  nonce <- eth_get_transaction_count w ;;
  max_fee <- eth_gas_price w ;;
  max_priority_fee <- eth_gas_price w ;;
  data <- encodeABI w {| arg_token0 := token0 opportunity;
                         arg_token1 := token1 opportunity;
                         arg_amount_in := amount_in opportunity;
                         arg_source_dex := source_dex opportunity;
                         arg_target_dex := target_dex opportunity;
                         arg_min_profit := Py.int (expected_profit opportunity) |} ;;
  Returned {| tx_from := account_address b;
              tx_to := contract_address b;
              tx_nonce := nonce;
              tx_gas := gas_estimate opportunity;
              tx_maxFeePerGas := max_fee;
              tx_maxPriorityFeePerGas := max_priority_fee;
              tx_data := data |}.

(** The request [_submit_to_flashbots] builds for a raw transaction, at
    the block number it read. *)
Definition bundle_request (w : World) (raw_tx : string) (block_number : Z)
    : RelayRequest := {|
  jsonrpc := "2.0";
  id := 1;
  method := "eth_sendBundle";
  params := [ {| txs := [raw_tx];
                 blockNumber := HexString.of_Z (block_number + 1);
                 minTimestamp := 0;
                 maxTimestamp := Py.int (clock w) + 120 |} ]
|}.

(** ['result' in result and result['result'] is not None] *)
Definition relay_accepted (result : Py.value) : outcome bool :=
  has_result <- contains "result" result ;;
  if has_result
  then v <- subscript result "result" ;; Returned (is_not_None v)
  else Returned false.

(** What one call of [_submit_to_flashbots] does: its return value and
    the requests it posted. *)
Record Submission := {
  accepted : bool;
  posted : list RelayRequest
}.

(** [_submit_to_flashbots] *)
Definition _submit_to_flashbots (w : World) (raw_tx : string) : Submission :=
  match eth_block_number w with
  | Raised => {| accepted := false; posted := [] |}
  | Returned block_number =>
      let request := bundle_request w raw_tx block_number in
      {| accepted := catch (result <- relay w request ;; relay_accepted result) false;
         posted := [request] |}
  end.

(** The [try] block of [_execute_arbitrage] up to the relay's verdict. *)
Definition execute_body (w : World) (b : Bot) (opportunity : ArbitrageOpportunity)
    : outcome Submission :=
  tx_params <- _prepare_flashbots_bundle w b opportunity ;;
  signed_tx <- sign_transaction w tx_params ;;
  Returned (_submit_to_flashbots w signed_tx).

Definition record_success (s : Stats) (opportunity : ArbitrageOpportunity) : Stats := {|
  opportunities_found := opportunities_found s;
  trades_executed := trades_executed s + 1;
  total_profit := add_ctx (total_profit s) (expected_profit opportunity);
  failed_trades := failed_trades s
|}.

Definition record_failure (s : Stats) : Stats := {|
  opportunities_found := opportunities_found s;
  trades_executed := trades_executed s;
  total_profit := total_profit s;
  failed_trades := failed_trades s + 1
|}.

(** [_execute_arbitrage] *)
Definition _execute_arbitrage (w : World) (b : Bot)
    (opportunity : ArbitrageOpportunity) : Bot :=
  match execute_body w b opportunity with
  | Returned submission =>
      if accepted submission
      then set_stats b (record_success (stats b) opportunity)
      else set_stats b (record_failure (stats b))
  | Raised => set_stats b (record_failure (stats b))
  end.

(** ** Reachable states *)

(** The bots a run can be in: [__init__], then any sequence of the
    methods that write [self], each in its own world. *)
Inductive reachable : Bot -> Prop :=
| reach_init dexes account contract :
    NoDup dexes -> reachable (init dexes account contract)
| reach_get_prices w b token0 token1 :
    reachable b -> reachable (bot_after (_get_prices w b token0 token1))
| reach_validate w b opportunity :
    reachable b -> reachable (snd (_validate_opportunity w b opportunity))
| reach_execute w b opportunity :
    reachable b -> reachable (_execute_arbitrage w b opportunity).

(** Every price of every cached snapshot is strictly positive. *)
Definition positive_cache (b : Bot) : Prop :=
  forall key snap d p,
    price_cache b !! key = Some snap -> snap !! d = Some p -> (0 < p)%Q.

(** The width of an interval after [n] halvings, each rounded up. *)
Fixpoint halvings (n : nat) (width : Z) : Z :=
  match n with
  | O => width
  | S n' => halvings n' ((width + 1) / 2)
  end.

(** Every venue of every cached snapshot is a configured venue other
    than curve and balancer. *)
Definition configured_cache (b : Bot) : Prop :=
  forall key snap d,
    price_cache b !! key = Some snap -> is_Some (snap !! d) ->
    d ∈ dex_interfaces b /\ d <> "curve" /\ d <> "balancer".

(** ** Start-up ([__init__] and the loaders it calls) *)

(** A contract object of the node client: what [w3.eth.contract] was
    given. *)
Record Contract := {
  address : Address;
  abi : Py.value
}.

(** What start-up reads from outside: the ABI files under [abis/], the
    checksum conversion, the node client's contract factory and HTTP
    provider, and the key-to-account derivation. Each can raise. *)
Record Env := {
  (** [open(os.path.join('abis', abi_file))] followed by [json.load] *)
  read_abi : string -> outcome Py.value;
  (** [Web3.to_checksum_address] *)
  to_checksum_address : Py.value -> outcome Address;
  (** [self.w3.eth.contract(address=..., abi=...)] *)
  eth_contract : Address -> Py.value -> outcome Contract;
  (** [Web3(Web3.HTTPProvider(url))] and the middleware injection *)
  http_provider : Py.value -> outcome unit;
  (** [Account.from_key(key).address] *)
  account_from_key : Py.value -> outcome Address
}.

(** [for x in v]: the elements of a list, the keys of a dict, the
    characters of a string; anything else is not iterable. *)
Definition iterate_value (v : Py.value) : outcome (list Py.value) :=
  match v with
  | VList l => Returned l
  | VDict d => Returned (map (fun kv => VStr (fst kv)) d)
  | VStr s => Returned (map (fun c => VStr (String.String c String.EmptyString))
                            (String.list_ascii_of_string s))
  | _ => Raised
  end.

(** [v.items()]: only a dict has the method. *)
Definition items (v : Py.value) : outcome (list (string * Py.value)) :=
  match v with
  | VDict d => Returned d
  | _ => Raised
  end.

(** A list comprehension whose element expression can raise. *)
Fixpoint comprehension {A B} (f : A -> outcome B) (l : list A)
    : outcome (list B) :=
  match l with
  | [] => Returned []
  | x :: rest =>
      y <- f x ;;
      ys <- comprehension f rest ;;
      Returned (y :: ys)
  end.

Section Startup.

Variable env : Env.

(** The [try] block of [_initialize_dex_interfaces] for one venue. *)
Definition load_interface (dex_config : Py.value) : outcome Contract :=
  abi_file <- Py.subscript dex_config "abi_file" ;;
  match abi_file with
  | VStr file =>
      abi <- read_abi env file ;;
      router <- Py.subscript dex_config "router" ;;
      checksummed <- to_checksum_address env router ;;
      eth_contract env checksummed abi
  | _ => Raised
  end.

(** The loop of [_initialize_dex_interfaces]: a venue that fails to load
    is logged and skipped. The names of a parsed JSON object are
    distinct, so every assignment adds a new key at the end. *)
Fixpoint load_interfaces (dexes : list (string * Py.value))
    : list (string * Contract) :=
  match dexes with
  | [] => []
  | (dex_name, dex_config) :: rest =>
      match load_interface dex_config with
      | Returned contract => (dex_name, contract) :: load_interfaces rest
      | Raised => load_interfaces rest
      end
  end.

(** [_initialize_dex_interfaces] *)
Definition _initialize_dex_interfaces (config : Py.value)
    : outcome (list (string * Contract)) :=
  dexes <- Py.subscript config "dexes" ;;
  entries <- items dexes ;;
  Returned (load_interfaces entries).

(** One element of the comprehension of [_load_token_pairs]. *)
Definition load_pair (pair : Py.value) : outcome (Address * Address) :=
  raw0 <- Py.subscript pair "token0" ;;
  checksummed0 <- to_checksum_address env raw0 ;;
  raw1 <- Py.subscript pair "token1" ;;
  checksummed1 <- to_checksum_address env raw1 ;;
  Returned (checksummed0, checksummed1).

(** [_load_token_pairs] *)
Definition _load_token_pairs (config : Py.value)
    : outcome (list (Address * Address)) :=
  pairs <- Py.subscript config "token_pairs" ;;
  elements <- iterate_value pairs ;;
  comprehension load_pair elements.

(** [_load_contract]: any failure is logged and raised again. *)
Definition _load_contract (contract_address : Py.value) (abi_file : string)
    : outcome Contract :=
  abi <- read_abi env abi_file ;;
  checksummed <- to_checksum_address env contract_address ;;
  eth_contract env checksummed abi.

(** What [__init__] leaves in [self]: the fields the other methods use,
    as a [Bot], and the rest. *)
Record Engine := {
  engine_bot : Bot;
  arbitrage_contract : Contract;
  interfaces : list (string * Contract);
  token_pairs : list (Address * Address);
  max_gas_price : Z;
  flashbots_endpoint : Py.value;
  private_key : Py.value
}.

(** [__init__] *)
Definition __init__ (config : Py.value) : outcome Engine :=
  node_url <- Py.subscript config "node_url" ;;
  _ <- http_provider env node_url ;;
  contract_address <- Py.subscript config "arbitrage_contract_address" ;;
  contract <- _load_contract contract_address "AdvancedMultiDexArbitrage.json" ;;
  loaded <- _initialize_dex_interfaces config ;;
  pairs <- _load_token_pairs config ;;
  endpoint <- Py.subscript config "flashbots_endpoint" ;;
  key <- Py.subscript config "private_key" ;;
  account <- account_from_key env key ;;
  Returned {| engine_bot := init (map fst loaded) account (address contract);
              arbitrage_contract := contract;
              interfaces := loaded;
              token_pairs := pairs;
              max_gas_price := 100 * 10 ^ 9;
              flashbots_endpoint := endpoint;
              private_key := key |}.

End Startup.

(** ** Configuration file ([src/config.py]) *)

Module Config.

(** [required_fields] of [validate_config] *)
Definition required_fields : list string :=
  ["node_url"; "arbitrage_contract_address"; "flashbots_endpoint";
   "private_key"; "dexes"; "token_pairs"; "gas_price_settings";
   "profit_settings"; "monitoring_settings"; "logging"].

(** How [validate_config] ends: it returns, it raises [ValueError] with
    a message, or the membership test itself raises [TypeError]. *)
Inductive validation : Type :=
| Valid
| ValueError (message : string)
| TypeError.

(** [[field for field in fields if field not in config]] *)
Fixpoint missing_fields (fields : list string) (config : Py.value)
    : outcome (list string) :=
  match fields with
  | [] => Returned []
  | field :: rest =>
      present <- Py.contains field config ;;
      others <- missing_fields rest config ;;
      Returned (if present then others else field :: others)
  end.

(** [validate_config] on the parsed file. *)
Definition validate_config (config : Py.value) : validation :=
  match missing_fields required_fields config with
  | Raised => TypeError
  | Returned [] => Valid
  | Returned missing =>
      ValueError ("Missing required configuration fields: "
                  +:+ String.concat ", " missing)
  end.

(** [_get_env_or_config]: [os.getenv(env_key) or self._config[config_key]],
    with the environment as it is after [load_dotenv]. *)
Definition _get_env_or_config (environ : gmap string string)
    (config : Py.value) (env_key config_key : string) : outcome Py.value :=
  match environ !! env_key with
  | Some v => if String.eqb v "" then Py.subscript config config_key
              else Returned (VStr v)
  | None => Py.subscript config config_key
  end.

(** Whether a field has no entry in a parsed JSON object. *)
Definition absent (d : list (string * Py.value)) (field : string) : bool :=
  match Py.assoc field d with
  | Some _ => false
  | None => true
  end.

End Config.

(** A series of executions, each in its own world, as the monitor loop
    runs them one after the other. *)
Fixpoint run_executions (jobs : list (World * ArbitrageOpportunity)) (b : Bot)
    : Bot :=
  match jobs with
  | [] => b
  | (w, opportunity) :: rest =>
      run_executions rest (_execute_arbitrage w b opportunity)
  end.

(** ** Example worlds *)

Module Examples.

Definition WETH : Address := "0xC02aaA39b223FE8D0A0e5C4F27eAD9083C756Cc2".
Definition DAI : Address := "0x6B175474E89094C44Da98b954EedeAC495271d0F".
Definition USDC : Address := "0xA0b86991c6218b36c1d19D4a2e9Eb0cE3606eB48".

(** A node that answers every read and a relay that accepts. *)
Definition calm (now : Q) (gas_price : Z)
    (quotes : string -> Z -> list Address -> outcome (list N)) : World := {|
  clock := now;
  eth_gas_price := Returned gas_price;
  eth_block_number := Returned 19000000;
  eth_get_transaction_count := Returned 7;
  getAmountsOut := quotes;
  encodeABI := fun _ => Returned "0xabcdef";
  sign_transaction := fun _ => Returned "0x02f8b1";
  relay := fun _ => Returned (VDict [("jsonrpc", VStr "2.0"); ("id", VNum 1);
                                      ("result", VDict [("bundleHash", VStr "0x5e")])])
|}.

(** uniswap gives 2 DAI per WETH, sushiswap gives 4 DAI per WETH and
    swaps DAI back to WETH one for one. *)
Definition spread (dex_name : string) (amount_in : Z) (path : list Address)
    : outcome (list N) :=
  if String.eqb dex_name "uniswap" then Returned [Z.to_N amount_in; Z.to_N (2 * amount_in)]
  else if String.eqb dex_name "sushiswap" then
    match path with
    | t :: _ => if String.eqb t WETH
                then Returned [Z.to_N amount_in; Z.to_N (4 * amount_in)]
                else Returned [Z.to_N amount_in; Z.to_N amount_in]
    | [] => Raised
    end
  else Raised.

Definition two_venues : Bot := init ["uniswap"; "sushiswap"] "0xbot" "0xarb".

(** The prices of [spread], as a snapshot. *)
Definition spread_prices : gmap string Q :=
  <["uniswap" := 2%Q]> (<["sushiswap" := 4%Q]> ∅).

(** The prices of [spread], doubled. *)
Definition repriced (dex_name : string) (amount_in : Z) (path : list Address)
    : outcome (list N) :=
  if String.eqb dex_name "uniswap" then Returned [Z.to_N amount_in; Z.to_N (4 * amount_in)]
  else if String.eqb dex_name "sushiswap" then
    match path with
    | t :: _ => if String.eqb t WETH
                then Returned [Z.to_N amount_in; Z.to_N (8 * amount_in)]
                else Returned [Z.to_N amount_in; Z.to_N amount_in]
    | [] => Raised
    end
  else Raised.

(** One venue down and a quote of four from the other. *)
Definition uniswap_down (dex_name : string) (amount_in : Z) (path : list Address)
    : outcome (list N) :=
  if String.eqb dex_name "uniswap" then Raised
  else Returned [Z.to_N amount_in; Z.to_N (4 * amount_in)].

(** One venue down and a quote of zero from the other. *)
Definition uniswap_down_dust (dex_name : string) (amount_in : Z)
    (path : list Address) : outcome (list N) :=
  if String.eqb dex_name "uniswap" then Raised
  else Returned [Z.to_N amount_in; 0%N].

(** sushiswap pays two for one up to 50.05 ether and nothing above. *)
Definition cliff (dex_name : string) (amount_in : Z) (path : list Address)
    : outcome (list N) :=
  if String.eqb dex_name "uniswap" then Returned [Z.to_N amount_in; Z.to_N amount_in]
  else if String.eqb dex_name "sushiswap" then
    if amount_in <=? 50050000000000000000
    then Returned [Z.to_N amount_in; Z.to_N (2 * amount_in)]
    else Returned [Z.to_N amount_in; 0%N]
  else Raised.

(** An opportunity between the venues of [two_venues], with a profit
    well above the threshold. *)
Definition sample_opportunity : ArbitrageOpportunity := {|
  token0 := WETH;
  token1 := DAI;
  source_dex := "uniswap";
  target_dex := "sushiswap";
  amount_in := 50050000000000000000;
  expected_profit := 100000000000000000000;
  execution_path := ["uniswap"; "sushiswap"];
  gas_estimate := 360000
|}.

(** A relay that answers with an error object. *)
Definition refusing (w : World) : World := {|
  clock := clock w;
  eth_gas_price := eth_gas_price w;
  eth_block_number := eth_block_number w;
  eth_get_transaction_count := eth_get_transaction_count w;
  getAmountsOut := getAmountsOut w;
  encodeABI := encodeABI w;
  sign_transaction := sign_transaction w;
  relay := fun _ => Returned (VDict [("error", VStr "simulation failed")])
|}.

(** A signer that raises. *)
Definition unsigned (w : World) : World := {|
  clock := clock w;
  eth_gas_price := eth_gas_price w;
  eth_block_number := eth_block_number w;
  eth_get_transaction_count := eth_get_transaction_count w;
  getAmountsOut := getAmountsOut w;
  encodeABI := encodeABI w;
  sign_transaction := fun _ => Raised;
  relay := relay w
|}.

(** The snapshot a fetch of WETH-DAI takes in [spread]. *)
Definition spread_snapshot : gmap string Q :=
  snapshot (_get_prices (calm 0 0 spread) two_venues WETH DAI).

(** uniswap quotes two for one; sushiswap does not answer. *)
Definition sushiswap_silent (dex_name : string) (amount_in : Z)
    (path : list Address) : outcome (list N) :=
  if String.eqb dex_name "uniswap"
  then Returned [Z.to_N amount_in; Z.to_N (2 * amount_in)]
  else Raised.

(** Current prices of 100 and 200, against a cache entry of 101 and
    199 for WETH-DAI. *)
Definition drifted_prices : gmap string Q :=
  <["uniswap" := 100%Q]> (<["sushiswap" := 200%Q]> ∅).

Definition stale_cache : Bot :=
  set_cache two_venues
    (<[cache_key WETH DAI :=
         <["uniswap" := 101%Q]> (<["sushiswap" := 199%Q]> ∅)]> ∅) 0.

(** Three venues; the ABI file of the second one does not exist. *)
Definition sample_dexes : list (string * Py.value) :=
  [("uniswap", VDict [("router", VStr "0x7a250d5630b4cf539739df2c5dacb4c659f2488d");
                      ("factory", VStr "0x5c69bee701ef814a2b6a3edd4b1652cb9cc5aa6f");
                      ("abi_file", VStr "uniswap.json")]);
   ("kyber", VDict [("router", VStr "0x1c87257f5e8609940bc751a07bb085bb7f8cdbe6");
                    ("abi_file", VStr "kyber.json")]);
   ("sushiswap", VDict [("router", VStr "0xd9e1ce17f2641f24ae83637ab66a2cca9c378b9f");
                        ("abi_file", VStr "sushiswap.json")])].

Definition sample_pairs : list Py.value :=
  [VDict [("token0", VStr "weth"); ("token1", VStr "dai")];
   VDict [("token0", VStr "weth"); ("token1", VStr "usdc")]].

(** A complete [config.json]. *)
Definition sample_fields : list (string * Py.value) :=
  [("node_url", VStr "http://localhost:8545");
   ("arbitrage_contract_address", VStr "0xarb");
   ("flashbots_endpoint", VStr "https://relay.flashbots.net");
   ("private_key", VStr "0xkey");
   ("dexes", VDict sample_dexes);
   ("token_pairs", VList sample_pairs);
   ("gas_price_settings", VDict []);
   ("profit_settings", VDict []);
   ("monitoring_settings", VDict []);
   ("logging", VDict [])].

Definition sample_config : Py.value := VDict sample_fields.

(** The same with a second token pair that lacks ["token1"]. *)
Definition bad_pair_config : Py.value :=
  VDict [("node_url", VStr "http://localhost:8545");
         ("arbitrage_contract_address", VStr "0xarb");
         ("flashbots_endpoint", VStr "https://relay.flashbots.net");
         ("private_key", VStr "0xkey");
         ("dexes", VDict sample_dexes);
         ("token_pairs", VList [VDict [("token0", VStr "weth"); ("token1", VStr "dai")];
                                VDict [("token0", VStr "weth")]])].

(** An environment where every file but [kyber.json] is there and the
    three token names convert. *)
Definition office : Env := {|
  read_abi := fun file =>
    if String.eqb file "kyber.json" then Raised else Returned (VList []);
  to_checksum_address := fun v =>
    match v with
    | VStr "weth" => Returned WETH
    | VStr "dai" => Returned DAI
    | VStr "usdc" => Returned USDC
    | VStr s => Returned s
    | _ => Raised
    end;
  eth_contract := fun a i => Returned {| address := a; abi := i |};
  http_provider := fun _ => Returned tt;
  account_from_key := fun _ => Returned "0xbot"
|}.

(** The same without the ABI file of the arbitrage contract. *)
Definition no_contract_abi : Env := {|
  read_abi := fun file =>
    if String.eqb file "AdvancedMultiDexArbitrage.json" then Raised
    else read_abi office file;
  to_checksum_address := to_checksum_address office;
  eth_contract := eth_contract office;
  http_provider := http_provider office;
  account_from_key := account_from_key office
|}.

(** An opportunity whose expected profit has 28 significant digits. *)
Definition long_profit : ArbitrageOpportunity := {|
  token0 := WETH;
  token1 := DAI;
  source_dex := "uniswap";
  target_dex := "sushiswap";
  amount_in := 50050000000000000000;
  expected_profit := 66666666666666666666.66666667;
  execution_path := ["uniswap"; "sushiswap"];
  gas_estimate := 360000
|}.

(** The venues of the scenario: uniswap gives 2000 DAI per WETH,
    sushiswap gives 2020 DAI per WETH and one WETH for 1990 DAI. *)
Definition scenario (dex_name : string) (amount_in : Z) (path : list Address)
    : outcome (list N) :=
  if String.eqb dex_name "uniswap"
  then Returned [Z.to_N amount_in; Z.to_N (2000 * amount_in)]
  else if String.eqb dex_name "sushiswap" then
    match path with
    | t :: _ => if String.eqb t WETH
                then Returned [Z.to_N amount_in; Z.to_N (2020 * amount_in)]
                else Returned [Z.to_N amount_in; Z.to_N (amount_in / 1990)]
    | [] => Raised
    end
  else Raised.

End Examples.

Import Examples.

(** * Properties *)

(** ** Comparisons and truthiness *)

Lemma ltb_lt (x y : Q) : ltb x y = true <-> (x < y)%Q.
Proof.
  unfold ltb. rewrite negb_true_iff.
  split; intros H.
  - apply Qnot_le_lt. intros Hle. apply Qle_bool_iff in Hle. congruence.
  - destruct (Qle_bool y x) eqn:E; [|reflexivity].
    apply Qle_bool_iff in E. exfalso. exact (Qlt_not_le _ _ H E).
Qed.

Lemma ltb_ge (x y : Q) : ltb x y = false <-> (y <= x)%Q.
Proof.
  unfold ltb. rewrite negb_false_iff. apply Qle_bool_iff.
Qed.

Lemma leb_le (x y : Q) : leb x y = true <-> (x <= y)%Q.
Proof. apply Qle_bool_iff. Qed.

Lemma truthy_nonzero (x : Q) : truthy x = true <-> ~ (x == 0)%Q.
Proof.
  unfold truthy. rewrite negb_true_iff. split; intros H.
  - intros E. apply Qeq_bool_iff in E. congruence.
  - destruct (Qeq_bool x 0) eqn:E; [|reflexivity].
    apply Qeq_bool_iff in E. contradiction.
Qed.

Lemma getitem_Returned {V} (d : gmap string V) (k : string) (v : V) :
  getitem d k = Returned v <-> d !! k = Some v.
Proof.
  unfold getitem. destruct (d !! k); split; intros H; congruence.
Qed.

(** ** The rounding of the decimal context *)

Lemma digits_fuel_spec (fuel : nat) (n : Z) :
  0 < n -> n < 10 ^ Z.of_nat fuel ->
  1 <= digits_fuel fuel n /\
  10 ^ (digits_fuel fuel n - 1) <= n < 10 ^ digits_fuel fuel n.
Proof.
  revert n. induction fuel as [|fuel IH]; intros n Hpos Hlt.
  - cbn in Hlt. lia.
  - cbn [digits_fuel]. destruct (n <? 10) eqn:E.
    + apply Z.ltb_lt in E. cbn. lia.
    + apply Z.ltb_ge in E.
      assert (H0 : 0 < n / 10) by (apply Z.div_str_pos; lia).
      assert (H1 : n / 10 < 10 ^ Z.of_nat fuel).
      { apply Z.div_lt_upper_bound; [lia|].
        rewrite Nat2Z.inj_succ, Z.pow_succ_r in Hlt by lia. lia. }
      destruct (IH _ H0 H1) as (Hd & Hlo & Hhi).
      set (d := digits_fuel fuel (n / 10)) in *.
      replace (1 + d - 1) with (Z.succ (d - 1)) by lia.
      replace (1 + d) with (Z.succ d) by lia.
      rewrite !Z.pow_succ_r by lia.
      pose proof (Z.div_mod n 10 ltac:(lia)) as Hdm.
      pose proof (Z.mod_pos_bound n 10 ltac:(lia)) as Hm.
      split; [lia|]. split; lia.
Qed.

Lemma digits_spec (n : Z) :
  0 < n -> 1 <= digits n /\ 10 ^ (digits n - 1) <= n < 10 ^ digits n.
Proof.
  intros Hpos. unfold digits. apply digits_fuel_spec; [exact Hpos|].
  rewrite Nat2Z.inj_succ, Z2Nat.id by apply Z.log2_nonneg.
  destruct (Z.log2_spec n Hpos) as (_ & H).
  eapply Z.lt_le_trans; [exact H|].
  apply Z.pow_le_mono_l. lia.
Qed.

(** The integer chosen is within one half of the quotient. *)
Lemma half_even_error (p d : Z) :
  0 < d -> 2 * Z.abs (half_even p d * d - p) <= d.
Proof.
  intros Hd. unfold half_even.
  pose proof (Z.div_mod p d ltac:(lia)) as Hdm.
  pose proof (Z.mod_pos_bound p d Hd) as Hm.
  destruct (2 * (p mod d) <? d) eqn:E1.
  - apply Z.ltb_lt in E1. nia.
  - apply Z.ltb_ge in E1. destruct (d <? 2 * (p mod d)) eqn:E2.
    + apply Z.ltb_lt in E2. nia.
    + apply Z.ltb_ge in E2. destruct (Z.even (p / d)); nia.
Qed.


(** The magnitude found is not above the true one. *)
Lemma magnitude_lower (p q : Z) :
  0 < p -> 0 < q ->
  let m := magnitude p q in
  if 0 <=? m then q * 10 ^ m <= p else q <= p * 10 ^ (- m).
Proof.
  intros Hp Hq. unfold magnitude.
  destruct (digits_spec p Hp) as (Hdp & Hplo & Hphi).
  destruct (digits_spec q Hq) as (Hdq & Hqlo & Hqhi).
  set (dp := digits p) in *. set (dq := digits q) in *.
  set (g := dp - dq).
  cbv zeta.
  destruct (if 0 <=? g then q * 10 ^ g <=? p else q <=? p * 10 ^ (- g)) eqn:T.
  - destruct (0 <=? g); [apply Z.leb_le in T | apply Z.leb_le in T]; exact T.
  - destruct (0 <=? g - 1) eqn:E.
    + apply Z.leb_le in E.
      assert (H : q * 10 ^ (g - 1) <= 10 ^ dq * 10 ^ (g - 1)).
      { apply Z.mul_le_mono_nonneg_r; [apply Z.pow_nonneg; lia | lia]. }
      rewrite <- Z.pow_add_r in H by lia.
      replace (dq + (g - 1)) with (dp - 1) in H by (unfold g; lia). lia.
    + apply Z.leb_gt in E.
      assert (H : 10 ^ (dp - 1) * 10 ^ (- (g - 1)) <= p * 10 ^ (- (g - 1))).
      { apply Z.mul_le_mono_nonneg_r; [apply Z.pow_nonneg; lia | lia]. }
      rewrite <- Z.pow_add_r in H by lia.
      replace (dp - 1 + - (g - 1)) with dq in H by (unfold g; lia). lia.
Qed.

Lemma bound_scaled_up (a : Z) (d : positive) (n K : Z) :
  0 < K ->
  2 * Z.abs (n * (Z.pos d * K) - Z.abs a) <= Z.pos d * K ->
  10 ^ 27 * (Z.pos d * K) <= Z.abs a ->
  (Qabs (inject_Z (Z.sgn a * n) * inject_Z K - (a # d))
   <= Qabs (a # d) * half_ulp)%Q.
Proof.
  intros HK Herr Hmag.
  unfold Qle, Qabs, Qminus, Qplus, Qopp, Qmult, inject_Z, half_ulp. cbn.
  change (10 ^ 27) with 1000000000000000000000000000 in Hmag.
  rewrite Pos2Z.inj_mul.
  destruct a as [|a|a]; cbn [Z.sgn Z.abs] in *; nia.
Qed.

Lemma bound_scaled_down (a : Z) (d : positive) (n : Z) (k : positive) :
  2 * Z.abs (n * Z.pos d - Z.abs a * Z.pos k) <= Z.pos d ->
  10 ^ 27 * Z.pos d <= Z.abs a * Z.pos k ->
  (Qabs (inject_Z (Z.sgn a * n) * / inject_Z (Z.pos k) - (a # d))
   <= Qabs (a # d) * half_ulp)%Q.
Proof.
  intros Herr Hmag.
  unfold Qle, Qabs, Qminus, Qplus, Qopp, Qmult, Qinv, inject_Z, half_ulp. cbn.
  change (10 ^ 27) with 1000000000000000000000000000 in Hmag.
  rewrite !Pos2Z.inj_mul.
  destruct a as [|a|a]; cbn [Z.sgn Z.abs] in *; nia.
Qed.

(** Rounding moves a value by at most half a unit in its 28th
    significant digit. *)
Lemma round_context_error (x : Q) :
  (Qabs (round_context x - x) <= Qabs x * half_ulp)%Q.
Proof.
  destruct x as [a d]. unfold round_context. cbn [Qnum Qden].
  destruct (Z.abs a =? 0) eqn:Ea.
  { apply Z.eqb_eq in Ea. assert (a = 0) as -> by lia.
    unfold Qle, Qabs, Qminus, Qplus, Qopp, Qmult, half_ulp. cbn. lia. }
  apply Z.eqb_neq in Ea.
  assert (Hp : 0 < Z.abs a) by lia.
  assert (Hq : 0 < Z.pos d) by lia.
  pose proof (magnitude_lower (Z.abs a) (Z.pos d) Hp Hq) as Hmag.
  cbv zeta in Hmag.
  set (m := magnitude (Z.abs a) (Z.pos d)) in *.
  destruct (0 <=? m - 27) eqn:Ee.
  - apply Z.leb_le in Ee.
    assert (Hm : (0 <=? m) = true) by (apply Z.leb_le; lia).
    rewrite Hm in Hmag.
    change (10%Q) with (inject_Z 10).
    rewrite <- Zpower_Qpower by lia.
    assert (HK : 0 < 10 ^ (m - 27)) by (apply Z.pow_pos_nonneg; lia).
    apply bound_scaled_up; [exact HK | |].
    + apply half_even_error. lia.
    + replace m with (27 + (m - 27)) in Hmag at 1 by lia.
      rewrite Z.pow_add_r in Hmag by lia. lia.
  - apply Z.leb_gt in Ee.
    destruct (m - 27) as [|k|k] eqn:Ek; [lia | lia |].
    change (- Z.neg k) with (Z.pos k).
    assert (HQ : ((10 ^ Z.neg k)%Q == / inject_Z (Z.pos (10 ^ k)))%Q).
    { change ((10 ^ Z.neg k)%Q) with (/ (inject_Z 10 ^ Z.pos k))%Q.
      rewrite <- Zpower_Qpower by lia.
      rewrite Pos2Z.inj_pow. reflexivity. }
    rewrite HQ.
    rewrite <- Pos2Z.inj_pow.
    apply bound_scaled_down.
    + apply half_even_error. lia.
    + rewrite Pos2Z.inj_pow.
      assert (Hk : Z.pos k = 27 - m) by lia.
      destruct (0 <=? m) eqn:Hm.
      * apply Z.leb_le in Hm.
        assert (H : Z.pos d * 10 ^ m * 10 ^ (27 - m)
                    <= Z.abs a * 10 ^ (27 - m)).
        { apply Z.mul_le_mono_nonneg_r; [apply Z.pow_nonneg; lia | exact Hmag]. }
        rewrite <- Z.mul_assoc, <- Z.pow_add_r in H by lia.
        replace (m + (27 - m)) with 27 in H by lia.
        rewrite Hk. lia.
      * apply Z.leb_gt in Hm.
        assert (H : Z.pos d * 10 ^ 27 <= Z.abs a * 10 ^ (- m) * 10 ^ 27).
        { apply Z.mul_le_mono_nonneg_r; [apply Z.pow_nonneg; lia | exact Hmag]. }
        rewrite <- Z.mul_assoc, <- Z.pow_add_r in H by lia.
        replace (- m + 27) with (27 - m) in H by lia.
        rewrite Hk. lia.
Qed.

(** ** Opportunity Analyzer *)

(** Everything [_analyze_opportunity] has checked when it returns an
    opportunity. *)
Lemma analyze_Some (w : World) (b : Bot) (t0 t1 : Address) (s t : string)
    (prices : gmap string Q) (opp : ArbitrageOpportunity) :
  _analyze_opportunity w b t0 t1 s t prices = Some opp ->
  exists p_s p_t a gp,
    prices !! s = Some p_s /\ prices !! t = Some p_t /\
    _find_optimal_amount w b t0 t1 s t p_s p_t = Some a /\ a <> 0 /\
    eth_gas_price w = Returned gp /\
    ltb (min_profit_threshold b) (net_profit b a p_s p_t 360000 gp) = true /\
    opp = {| token0 := t0; token1 := t1; source_dex := s; target_dex := t;
             amount_in := a;
             expected_profit := net_profit b a p_s p_t 360000 gp;
             execution_path := [s; t];
             gas_estimate := 360000 |}.
Proof.
  unfold _analyze_opportunity, analyze_body, getitem, _estimate_gas_cost.
  destruct (prices !! s) as [p_s|] eqn:Hs; [|discriminate].
  destruct (prices !! t) as [p_t|] eqn:Ht; [|discriminate].
  cbn [bind catch].
  destruct (_find_optimal_amount w b t0 t1 s t p_s p_t) as [a|] eqn:Ha;
    [|discriminate].
  destruct (a =? 0) eqn:Ez; [discriminate|].
  destruct (eth_gas_price w) as [gp|] eqn:Hg; [|discriminate].
  cbn [bind catch].
  destruct (ltb _ _) eqn:Hlt; [|discriminate].
  intros [= <-].
  exists p_s, p_t, a, gp.
  apply Z.eqb_neq in Ez. repeat split; auto.
Qed.

(** C1, as the code has it. Count amounts and the gas price in whole
    units, one unit being the 10^18 wei of [Web3.toWei(1, 'ether')], so
    that 50 gwei is 50e-9. The net profit [_analyze_opportunity] computes
    for an amount [a], prices [p_s] and [p_t], fee rate [f], gas estimate
    [g] and gas price [gp] is then [(p_t - p_s) * a - a * f - g * gp]:
    the gas term is in the unit of the profit, and the fee term is the
    rate times the amount, without the source price. Every opportunity
    returned carries this value as its expected profit, for its own
    amount, the two prices of the snapshot, the gas estimate 360000 and
    the gas price the node reports. *)
Theorem net_profit_as_computed (w : World) (b : Bot) :
  let ether := inject_Z (toWei_ether 1 1) in
  let units := fun x : Z => (inject_Z x / ether)%Q in
  (forall (a g gp : Z) (p_s p_t : Q),
     (net_profit b a p_s p_t g gp / ether ==
      (p_t - p_s) * units a - units a * flash_loan_fee b
      - inject_Z g * units gp)%Q) /\
  (forall (t0 t1 : Address) (s t : string) (prices : gmap string Q)
          (opp : ArbitrageOpportunity),
     _analyze_opportunity w b t0 t1 s t prices = Some opp ->
     exists p_s p_t gp,
       prices !! s = Some p_s /\ prices !! t = Some p_t /\
       eth_gas_price w = Returned gp /\
       gas_estimate opp = 360000 /\
       expected_profit opp =
         net_profit b (amount_in opp) p_s p_t (gas_estimate opp) gp /\
       (expected_profit opp / ether ==
        (p_t - p_s) * units (amount_in opp)
        - units (amount_in opp) * flash_loan_fee b
        - inject_Z (gas_estimate opp) * units gp)%Q).
Proof.
  intros ether units.
  assert (Hnet : forall (a g gp : Z) (p_s p_t : Q),
            (net_profit b a p_s p_t g gp / ether ==
             (p_t - p_s) * units a - units a * flash_loan_fee b
             - inject_Z g * units gp)%Q).
  { intros a g gp p_s p_t.
    unfold net_profit, _calculate_profit, Decimal, units.
    rewrite inject_Z_mult. field. discriminate. }
  split; [exact Hnet|].
  intros t0 t1 s t prices opp H. apply analyze_Some in H.
  destruct H as (p_s & p_t & a & gp & Hs & Ht & _ & _ & Hg & _ & ->).
  exists p_s, p_t, gp. cbn [gas_estimate expected_profit amount_in].
  repeat split; try assumption. apply Hnet.
Qed.

(** C2: an opportunity is returned only when its net profit, which is
    the gross profit minus the flash-loan cost minus the gas cost, is
    strictly above the minimum profit threshold, and that net profit is
    the [expected_profit] it is built with. *)
Theorem opportunity_clears_threshold (w : World) (b : Bot) (t0 t1 : Address)
    (s t : string) (prices : gmap string Q) (opp : ArbitrageOpportunity) :
  _analyze_opportunity w b t0 t1 s t prices = Some opp ->
  (min_profit_threshold b < expected_profit opp)%Q /\
  exists p_s p_t gp,
    prices !! s = Some p_s /\ prices !! t = Some p_t /\
    eth_gas_price w = Returned gp /\
    expected_profit opp =
      (_calculate_profit (amount_in opp) p_s p_t
       - Decimal (amount_in opp) * flash_loan_fee b
       - Decimal (gas_estimate opp * gp))%Q.
Proof.
  intros H. apply analyze_Some in H.
  destruct H as (p_s & p_t & a & gp & Hs & Ht & _ & _ & Hg & Hlt & ->).
  cbn. split.
  - apply ltb_lt. exact Hlt.
  - exists p_s, p_t, gp. repeat split; auto.
Qed.

Lemma net_profit_as_computed_witness :
  (net_profit two_venues (toWei_ether 10 1) 2000 2020 360000 (50 * 10 ^ 9)
   / inject_Z (toWei_ether 1 1)
   == (2020 - 2000) * 10 - 10 * (9 # 10000) - 360000 * (50 # 1000000000))%Q /\
  exists opp,
    _analyze_opportunity (calm 0 50000000000 spread) two_venues WETH DAI
      "uniswap" "sushiswap" spread_prices = Some opp /\
    exists p_s p_t gp,
      spread_prices !! "uniswap" = Some p_s /\
      spread_prices !! "sushiswap" = Some p_t /\
      eth_gas_price (calm 0 50000000000 spread) = Returned gp /\
      gas_estimate opp = 360000 /\
      expected_profit opp =
        net_profit two_venues (amount_in opp) p_s p_t (gas_estimate opp) gp /\
      (expected_profit opp / inject_Z (toWei_ether 1 1) ==
       (p_t - p_s) * (inject_Z (amount_in opp) / inject_Z (toWei_ether 1 1))
       - inject_Z (amount_in opp) / inject_Z (toWei_ether 1 1)
         * flash_loan_fee two_venues
       - inject_Z (gas_estimate opp)
         * (inject_Z gp / inject_Z (toWei_ether 1 1)))%Q.
Proof.
  pose proof (net_profit_as_computed (calm 0 50000000000 spread) two_venues)
    as H.
  cbv beta zeta in H. destruct H as [Hnet Hopp].
  split.
  - rewrite Hnet. vm_compute. reflexivity.
  - eexists. split; [vm_compute; reflexivity|].
    apply (Hopp WETH DAI "uniswap" "sushiswap" spread_prices).
    vm_compute. reflexivity.
Defined.

(** C1 as stated fails in its own scenario. With the prices 2000 and
    2020 fetched from the venues and a gas price of 50 gwei, the analyzer
    returns an opportunity whose expected profit is not
    [(p_t - p_s) * a - a * f * p_s - g * gp]; and at the amount 10 the
    arithmetic of the analyzer gives [200 - 0.009 - 0.018], not
    [200 - 18 - 0.018]. Only the fee term differs. *)
Lemma scenario_net_profit :
  let ether := inject_Z (toWei_ether 1 1) in
  let w := calm 0 (50 * 10 ^ 9) scenario in
  let fetched := _get_prices w two_venues WETH DAI in
  (exists p_s p_t opp,
     snapshot fetched !! "uniswap" = Some p_s /\ (p_s == 2000)%Q /\
     snapshot fetched !! "sushiswap" = Some p_t /\ (p_t == 2020)%Q /\
     _analyze_opportunity w (bot_after fetched) WETH DAI
       "uniswap" "sushiswap" (snapshot fetched) = Some opp /\
     toWei_ether 1 10 <= amount_in opp <= toWei_ether 100 1 /\
     ~ (expected_profit opp / ether ==
        (p_t - p_s) * (inject_Z (amount_in opp) / ether)
        - (inject_Z (amount_in opp) / ether) * flash_loan_fee two_venues * p_s
        - 360000 * (50 # 1000000000))%Q) /\
  (net_profit two_venues (toWei_ether 10 1) 2000 2020 360000 (50 * 10 ^ 9)
   / ether == 200 - (9 # 1000) - (18 # 1000))%Q /\
  ~ (net_profit two_venues (toWei_ether 10 1) 2000 2020 360000 (50 * 10 ^ 9)
     / ether
     == (2020 - 2000) * 10 - 10 * (9 # 10000) * 2000
        - 360000 * (50 # 1000000000))%Q.
Proof.
  cbv zeta. split; [|split].
  - eexists _, _, _.
    split; [vm_compute; reflexivity|]. split; [vm_compute; reflexivity|].
    split; [vm_compute; reflexivity|]. split; [vm_compute; reflexivity|].
    split; [vm_compute; reflexivity|].
    split; [vm_compute; split; discriminate|].
    intros H. vm_compute in H. discriminate H.
  - vm_compute. reflexivity.
  - intros H. vm_compute in H. discriminate H.
Qed.

(** The fee term differs from the source-price-weighted one whatever the
    unit of the gas term: with a gas price of zero the opportunity found
    in [spread] has an expected profit other than
    [(p_t - p_s) * a - a * f * p_s]. *)
Example fee_ignores_source_price :
  exists opp,
    _analyze_opportunity (calm 0 0 spread) two_venues WETH DAI
      "uniswap" "sushiswap" spread_prices = Some opp /\
    ~ (expected_profit opp ==
         (4 - 2) * inject_Z (amount_in opp)
         - inject_Z (amount_in opp) * flash_loan_fee two_venues * 2)%Q.
Proof.
  eexists. split.
  - vm_compute. reflexivity.
  - intros H. vm_compute in H. discriminate H.
Qed.

Lemma opportunity_clears_threshold_witness :
  exists opp,
    _analyze_opportunity (calm 0 50000000000 spread) two_venues WETH DAI
      "uniswap" "sushiswap" spread_prices = Some opp /\
    (min_profit_threshold two_venues < expected_profit opp)%Q /\
    exists p_s p_t gp,
      spread_prices !! "uniswap" = Some p_s /\
      spread_prices !! "sushiswap" = Some p_t /\
      eth_gas_price (calm 0 50000000000 spread) = Returned gp /\
      expected_profit opp =
        (_calculate_profit (amount_in opp) p_s p_t
         - Decimal (amount_in opp) * flash_loan_fee two_venues
         - Decimal (gas_estimate opp * gp))%Q.
Proof.
  eexists. split.
  - vm_compute. reflexivity.
  - apply (opportunity_clears_threshold (calm 0 50000000000 spread) two_venues
             WETH DAI "uniswap" "sushiswap" spread_prices).
    vm_compute. reflexivity.
Defined.

(** The threshold is a strict bound: a net profit equal to it is not an
    opportunity. *)
Example threshold_is_strict (w : World) (b : Bot) (t0 t1 : Address)
    (s t : string) (prices : gmap string Q) (opp : ArbitrageOpportunity) :
  (expected_profit opp == min_profit_threshold b)%Q ->
  _analyze_opportunity w b t0 t1 s t prices <> Some opp.
Proof.
  intros E H. apply analyze_Some in H.
  destruct H as (p_s & p_t & a & gp & _ & _ & _ & _ & _ & Hlt & ->).
  apply ltb_lt in Hlt. cbn in E. rewrite E in Hlt.
  exact (Qlt_irrefl _ Hlt).
Qed.

(** ** Price Aggregator *)

Section AggregatorFacts.

Variable w : World.

Lemma collect_lookup (f : string -> option Q) (names : list string)
    (prices : gmap string Q) (k : string) :
  collect names (map f names) prices !! k =
    if decide (k ∈ names)
    then match f k with
         | Some p => if truthy p then Some p else prices !! k
         | None => prices !! k
         end
    else prices !! k.
Proof.
  revert prices. induction names as [|a names IH]; intros prices.
  - cbn. case_decide; [set_solver | reflexivity].
  - cbn [map collect]. rewrite IH. clear IH.
    destruct (decide (a = k)) as [->|Hne].
    + rewrite (decide_True (P := k ∈ k :: names)) by (apply elem_of_cons; by left).
      destruct (f k) as [p|]; [destruct (truthy p)|];
        case_decide; try reflexivity.
      apply lookup_insert_eq.
    + assert (Hk : forall m : gmap string Q,
                 (match f a with
                  | Some p => if truthy p then <[a:=p]> m else m
                  | None => m
                  end) !! k = m !! k).
      { intros m. destruct (f a) as [p|]; [destruct (truthy p)|];
          try reflexivity. by apply lookup_insert_ne. }
      rewrite Hk.
      destruct (decide (k ∈ names)) as [Hin|Hnin].
      * rewrite (decide_True (P := k ∈ a :: names)); [reflexivity|].
        apply elem_of_cons. by right.
      * rewrite (decide_False (P := k ∈ a :: names)); [reflexivity|].
        intros Hin. apply elem_of_cons in Hin. destruct Hin; congruence.
Qed.

(** A call that finds a valid entry returns it, queries no venue and
    leaves the bot alone. *)
Lemma get_prices_hit (b : Bot) (t0 t1 : Address) (cached : gmap string Q) :
  price_cache b !! cache_key t0 t1 = Some cached ->
  (clock w - last_cache_update b < CACHE_DURATION b)%Q ->
  _get_prices w b t0 t1 =
    {| snapshot := cached; bot_after := b; venue_calls := [] |}.
Proof.
  intros Hc Ht. unfold _get_prices, cached_prices. rewrite Hc.
  apply ltb_lt in Ht. rewrite Ht. reflexivity.
Qed.

(** A call that finds no valid entry queries every venue, stores the
    snapshot under the pair's key and stamps the cache with its time. *)
Lemma get_prices_miss (b : Bot) (t0 t1 : Address) :
  cached_prices w b (cache_key t0 t1) = None ->
  let f := _get_prices w b t0 t1 in
  venue_calls f = dex_interfaces b /\
  price_cache (bot_after f) = <[cache_key t0 t1 := snapshot f]> (price_cache b) /\
  last_cache_update (bot_after f) = clock w /\
  forall d, snapshot f !! d =
            if decide (d ∈ dex_interfaces b) then recorded w t0 t1 d else None.
Proof.
  intros Hc. unfold _get_prices. rewrite Hc. cbn.
  repeat split; try reflexivity.
  intros d. rewrite collect_lookup. unfold recorded.
  case_decide; [|apply lookup_empty].
  destruct (_get_dex_price w d t0 t1) as [p|]; [destruct (truthy p)|];
    try reflexivity; apply lookup_empty.
Qed.

(** The entry is stale exactly when the pair has none or the shared time
    stamp is too old. *)
Lemma cached_prices_None (b : Bot) (key : string) :
  cached_prices w b key = None <->
  price_cache b !! key = None \/
  (CACHE_DURATION b <= clock w - last_cache_update b)%Q.
Proof.
  unfold cached_prices.
  destruct (price_cache b !! key) as [c|].
  - destruct (ltb _ _) eqn:E.
    + apply ltb_lt in E. split; [discriminate|].
      intros [H|H]; [discriminate|].
      exfalso. exact (Qlt_not_le _ _ E H).
    + apply ltb_ge in E. split; auto.
  - split; auto.
Qed.

(** After any call the pair's cache entry is the snapshot returned. *)
Lemma get_prices_cached (b : Bot) (t0 t1 : Address) :
  let f := _get_prices w b t0 t1 in
  price_cache (bot_after f) !! cache_key t0 t1 = Some (snapshot f).
Proof.
  unfold _get_prices, cached_prices.
  destruct (price_cache b !! cache_key t0 t1) as [c|] eqn:Hc.
  - destruct (ltb _ _); cbn.
    + exact Hc.
    + apply lookup_insert_eq.
  - cbn. apply lookup_insert_eq.
Qed.

(** A call changes nothing of the bot but the cache and its stamp. *)
Lemma get_prices_frame (b : Bot) (t0 t1 : Address) :
  let b' := bot_after (_get_prices w b t0 t1) in
  dex_interfaces b' = dex_interfaces b /\
  CACHE_DURATION b' = CACHE_DURATION b /\
  min_profit_threshold b' = min_profit_threshold b /\
  flash_loan_fee b' = flash_loan_fee b /\
  stats b' = stats b.
Proof.
  unfold _get_prices. destruct (cached_prices w b (cache_key t0 t1));
    cbn; repeat split; reflexivity.
Qed.

End AggregatorFacts.

(** C6, as the code has it: on a re-fetch in which exactly one venue
    fails and every other venue returns a non-zero price, the snapshot
    holds exactly the other venues with their prices, the failed venue
    has no entry at all, and the snapshot has one entry fewer than there
    are venues. [_get_prices] is a total function: no failure of a venue
    escapes [_get_dex_price]. *)
Theorem venue_isolation (w : World) (b : Bot) (t0 t1 : Address) (v : string) :
  NoDup (dex_interfaces b) ->
  cached_prices w b (cache_key t0 t1) = None ->
  v ∈ dex_interfaces b ->
  _get_dex_price w v t0 t1 = None ->
  (forall d, d ∈ dex_interfaces b -> d <> v ->
             exists p, _get_dex_price w d t0 t1 = Some p /\ ~ (p == 0)%Q) ->
  let snap := snapshot (_get_prices w b t0 t1) in
  snap !! v = None /\
  (forall d, d ∈ dex_interfaces b -> d <> v ->
             snap !! d = _get_dex_price w d t0 t1) /\
  dom snap = list_to_set (dex_interfaces b) ∖ {[v]} /\
  size snap = (length (dex_interfaces b) - 1)%nat.
Proof.
  intros Hnd Hmiss Hv Hfail Hothers snap.
  destruct (get_prices_miss w b t0 t1 Hmiss) as (_ & _ & _ & Hlook).
  fold snap in Hlook.
  assert (Hv' : snap !! v = None).
  { rewrite Hlook. case_decide; [|reflexivity].
    unfold recorded. by rewrite Hfail. }
  assert (Hd : forall d, d ∈ dex_interfaces b -> d <> v ->
                         snap !! d = _get_dex_price w d t0 t1).
  { intros d Hin Hne. rewrite Hlook, decide_True by exact Hin.
    unfold recorded. destruct (Hothers d Hin Hne) as (p & -> & Hp).
    apply truthy_nonzero in Hp. by rewrite Hp. }
  assert (Hdom : dom snap = list_to_set (dex_interfaces b) ∖ {[v]}).
  { apply set_eq. intros d.
    rewrite elem_of_dom, elem_of_difference, elem_of_list_to_set,
      elem_of_singleton.
    split.
    - intros [p Hp]. split.
      + rewrite Hlook in Hp. case_decide; [assumption|discriminate].
      + intros ->. congruence.
    - intros [Hin Hne]. rewrite (Hd d Hin Hne).
      destruct (Hothers d Hin Hne) as (p & -> & _). by exists p. }
  repeat split; try assumption.
  rewrite <- size_dom, Hdom, size_difference, size_singleton.
  - by rewrite size_list_to_set.
  - by apply singleton_subseteq_l, elem_of_list_to_set.
Qed.

Lemma venue_isolation_witness :
  let snap := snapshot (_get_prices (calm 0 0 uniswap_down) two_venues WETH DAI) in
  snap !! "uniswap" = None /\
  (forall d, d ∈ dex_interfaces two_venues -> d <> "uniswap" ->
             snap !! d = _get_dex_price (calm 0 0 uniswap_down) d WETH DAI) /\
  dom snap = list_to_set (dex_interfaces two_venues) ∖ {["uniswap"]} /\
  size snap = (length (dex_interfaces two_venues) - 1)%nat.
Proof.
  apply (venue_isolation (calm 0 0 uniswap_down) two_venues WETH DAI "uniswap").
  - apply (bool_decide_unpack (NoDup (dex_interfaces two_venues))).
    vm_compute. reflexivity.
  - vm_compute. reflexivity.
  - apply elem_of_cons. by left.
  - vm_compute. reflexivity.
  - cbn. intros d Hin Hne.
    apply elem_of_cons in Hin as [->|Hin]; [congruence|].
    apply list_elem_of_singleton in Hin as ->.
    eexists. split; [vm_compute; reflexivity|].
    intros H. vm_compute in H. discriminate H.
Defined.

(** C6 as stated fails when a venue that did not fail quotes zero: with
    two venues, one raising and one quoting zero, exactly one venue has
    failed, yet the snapshot is empty rather than of size one. *)
Lemma zero_quote_breaks_isolation :
  _get_dex_price (calm 0 0 uniswap_down_dust) "uniswap" WETH DAI = None /\
  (exists p, _get_dex_price (calm 0 0 uniswap_down_dust) "sushiswap" WETH DAI = Some p) /\
  length (dex_interfaces two_venues) = 2%nat /\
  size (snapshot (_get_prices (calm 0 0 uniswap_down_dust) two_venues WETH DAI))
    = 0%nat.
Proof.
  repeat split; try (vm_compute; reflexivity).
  eexists. vm_compute. reflexivity.
Qed.

(** ** Positive prices *)

(** A quote that was computed is a ratio of two unsigned words. *)
Lemma get_dex_price_nonneg (w : World) (d : string) (t0 t1 : Address) (p : Q) :
  _get_dex_price w d t0 t1 = Some p -> (0 <= p)%Q.
Proof.
  unfold _get_dex_price, _get_curve_price, _get_balancer_price.
  destruct (String.eqb d "curve"); [discriminate|].
  destruct (String.eqb d "balancer"); [discriminate|].
  destruct (getAmountsOut w d (toWei_ether 1 1) [t0; t1]) as [amounts|];
    [|discriminate].
  destruct amounts as [|a0 [|a1 rest]]; try discriminate.
  cbn [bind catch]. unfold Py.div.
  destruct (Qeq_bool (Decimal (Z.of_N a0)) 0); [discriminate|].
  cbn [bind catch]. intros [= <-].
  unfold Qdiv, Decimal. apply Qmult_le_0_compat.
  - unfold Qle. cbn. lia.
  - apply Qinv_le_0_compat. unfold Qle. cbn. lia.
Qed.

Lemma recorded_positive (w : World) (t0 t1 : Address) (d : string) (p : Q) :
  recorded w t0 t1 d = Some p -> (0 < p)%Q.
Proof.
  unfold recorded.
  destruct (_get_dex_price w d t0 t1) as [q|] eqn:Hq; [|discriminate].
  destruct (truthy q) eqn:Ht; [|discriminate].
  intros [= <-]. apply get_dex_price_nonneg in Hq.
  apply truthy_nonzero in Ht.
  apply Qle_lt_or_eq in Hq. destruct Hq as [Hlt|Heq]; [exact Hlt|].
  exfalso. apply Ht. symmetry. exact Heq.
Qed.

Lemma get_prices_positive (w : World) (b : Bot) (t0 t1 : Address) :
  positive_cache b ->
  positive_cache (bot_after (_get_prices w b t0 t1)) /\
  forall d p, snapshot (_get_prices w b t0 t1) !! d = Some p -> (0 < p)%Q.
Proof.
  intros Hpos.
  destruct (cached_prices w b (cache_key t0 t1)) as [c|] eqn:Hc.
  - assert (Hin : price_cache b !! cache_key t0 t1 = Some c).
    { unfold cached_prices in Hc.
      destruct (price_cache b !! cache_key t0 t1); [|discriminate].
      destruct (ltb _ _); congruence. }
    unfold _get_prices. rewrite Hc. cbn. split; [exact Hpos|].
    intros d p. apply (Hpos _ _ _ _ Hin).
  - destruct (get_prices_miss w b t0 t1 Hc) as (_ & Hcache & _ & Hlook).
    assert (Hsnap : forall d p,
               snapshot (_get_prices w b t0 t1) !! d = Some p -> (0 < p)%Q).
    { intros d p. rewrite Hlook. case_decide; [|discriminate].
      apply recorded_positive. }
    split; [|exact Hsnap].
    intros key snap d p. rewrite Hcache.
    destruct (decide (cache_key t0 t1 = key)) as [<-|Hne].
    + rewrite lookup_insert_eq. intros [= <-]. apply Hsnap.
    + rewrite lookup_insert_ne by exact Hne. apply Hpos.
Qed.

Lemma validate_cache (w : World) (b : Bot) (opp : ArbitrageOpportunity) :
  snd (_validate_opportunity w b opp) = b \/
  snd (_validate_opportunity w b opp)
    = bot_after (_get_prices w b (token0 opp) (token1 opp)).
Proof.
  unfold _validate_opportunity, validate_body.
  destruct (leb _ _); [by left|].
  destruct (eth_gas_price w); [|by left].
  cbn [bind catch].
  destruct (leb _ _); [by left|].
  destruct (negb _); by right.
Qed.

Lemma execute_cache (w : World) (b : Bot) (opp : ArbitrageOpportunity) :
  price_cache (_execute_arbitrage w b opp) = price_cache b.
Proof.
  unfold _execute_arbitrage.
  destruct (execute_body w b opp) as [s|]; [destruct (accepted s)|];
    reflexivity.
Qed.

Lemma reachable_positive (b : Bot) : reachable b -> positive_cache b.
Proof.
  induction 1 as [dexes account contract _
                 |w b t0 t1 _ IH
                 |w b opp _ IH
                 |w b opp _ IH].
  - intros key snap d p. cbn. rewrite lookup_empty. discriminate.
  - apply get_prices_positive. exact IH.
  - destruct (validate_cache w b opp) as [-> | ->]; [exact IH|].
    apply get_prices_positive. exact IH.
  - intros key snap d p. rewrite execute_cache. apply IH.
Qed.

(** C9: in every state the bot can reach, every price of the snapshot
    [_get_prices] returns is strictly positive; and whenever the venues
    are queried, a venue whose quote is exactly zero gets no entry, just
    like a venue whose fetch failed. *)
Theorem snapshot_prices_positive (b : Bot) :
  reachable b ->
  forall (w : World) (t0 t1 : Address),
    (forall d p, snapshot (_get_prices w b t0 t1) !! d = Some p -> (0 < p)%Q) /\
    (forall d,
        cached_prices w b (cache_key t0 t1) = None ->
        (_get_dex_price w d t0 t1 = None \/
         exists p, _get_dex_price w d t0 t1 = Some p /\ (p == 0)%Q) ->
        snapshot (_get_prices w b t0 t1) !! d = None).
Proof.
  intros Hr w t0 t1. split.
  - apply get_prices_positive, reachable_positive, Hr.
  - intros d Hmiss Hq.
    destruct (get_prices_miss w b t0 t1 Hmiss) as (_ & _ & _ & ->).
    case_decide; [|reflexivity]. unfold recorded.
    destruct Hq as [-> | (p & -> & Hp)]; [reflexivity|].
    destruct (truthy p) eqn:Ht; [|reflexivity].
    apply truthy_nonzero in Ht. contradiction.
Qed.

Lemma two_venues_reachable : reachable two_venues.
Proof.
  apply reach_init.
  apply (bool_decide_unpack (NoDup ["uniswap"; "sushiswap"])).
  vm_compute. reflexivity.
Defined.

Lemma snapshot_prices_positive_witness :
  reachable two_venues /\
  forall (w : World) (t0 t1 : Address),
    (forall d p, snapshot (_get_prices w two_venues t0 t1) !! d = Some p ->
                 (0 < p)%Q) /\
    (forall d,
        cached_prices w two_venues (cache_key t0 t1) = None ->
        (_get_dex_price w d t0 t1 = None \/
         exists p, _get_dex_price w d t0 t1 = Some p /\ (p == 0)%Q) ->
        snapshot (_get_prices w two_venues t0 t1) !! d = None).
Proof.
  split.
  - exact two_venues_reachable.
  - exact (snapshot_prices_positive two_venues two_venues_reachable).
Defined.

(** The quote of zero of [uniswap_down_dust] leaves no entry. *)
Example zero_quote_filtered :
  exists p,
    _get_dex_price (calm 0 0 uniswap_down_dust) "sushiswap" WETH DAI = Some p /\
    (p == 0)%Q /\
    snapshot (_get_prices (calm 0 0 uniswap_down_dust) two_venues WETH DAI)
      !! "sushiswap" = None.
Proof.
  eexists. repeat split; vm_compute; reflexivity.
Qed.

(** ** Cache freshness *)

(** After a call that fetched, a second call for the same pair less than
    the cache duration later returns the same snapshot and queries no
    venue. *)
Lemma second_call_within_ttl (w1 w2 : World) (b : Bot) (t0 t1 : Address) :
  cached_prices w1 b (cache_key t0 t1) = None ->
  (clock w2 - clock w1 < CACHE_DURATION b)%Q ->
  let f1 := _get_prices w1 b t0 t1 in
  _get_prices w2 (bot_after f1) t0 t1 =
    {| snapshot := snapshot f1; bot_after := bot_after f1; venue_calls := [] |}.
Proof.
  intros Hmiss Ht f1.
  destruct (get_prices_miss w1 b t0 t1 Hmiss) as (_ & _ & Hstamp & _).
  destruct (get_prices_frame w1 b t0 t1) as (_ & Hdur & _).
  apply get_prices_hit.
  - apply get_prices_cached.
  - fold f1 in Hstamp, Hdur. rewrite Hstamp, Hdur. exact Ht.
Qed.

(** A call made when the shared time stamp is at least the cache duration
    old queries every venue and overwrites the pair's entry. *)
Lemma call_after_expiry (w : World) (b : Bot) (t0 t1 : Address) :
  (CACHE_DURATION b <= clock w - last_cache_update b)%Q ->
  let f := _get_prices w b t0 t1 in
  venue_calls f = dex_interfaces b /\
  price_cache (bot_after f) = <[cache_key t0 t1 := snapshot f]> (price_cache b) /\
  last_cache_update (bot_after f) = clock w.
Proof.
  intros Hexp f.
  assert (Hmiss : cached_prices w b (cache_key t0 t1) = None).
  { apply cached_prices_None. by right. }
  destruct (get_prices_miss w b t0 t1 Hmiss) as (H1 & H2 & H3 & _).
  auto.
Qed.

(** The time stamp is shared by all pairs: once any other pair has been
    fetched, an entry of this pair is served for another cache duration,
    however old it is. *)
Lemma other_pair_refreshes_stamp (w1 w2 : World) (b : Bot)
    (t0 t1 u0 u1 : Address) (old : gmap string Q) :
  cache_key u0 u1 <> cache_key t0 t1 ->
  price_cache b !! cache_key t0 t1 = Some old ->
  cached_prices w1 b (cache_key u0 u1) = None ->
  (clock w2 - clock w1 < CACHE_DURATION b)%Q ->
  let b1 := bot_after (_get_prices w1 b u0 u1) in
  _get_prices w2 b1 t0 t1 =
    {| snapshot := old; bot_after := b1; venue_calls := [] |}.
Proof.
  intros Hne Hold Hmiss Ht b1.
  destruct (get_prices_miss w1 b u0 u1 Hmiss) as (_ & Hcache & Hstamp & _).
  destruct (get_prices_frame w1 b u0 u1) as (_ & Hdur & _).
  fold b1 in Hcache, Hstamp, Hdur.
  apply get_prices_hit.
  - rewrite Hcache, lookup_insert_ne by exact Hne. exact Hold.
  - rewrite Hstamp, Hdur. exact Ht.
Qed.

(** C4 on three calls: WETH-DAI at time 0, WETH-USDC at time 4, WETH-DAI
    again at time 6 when the venues quote twice as much. The third call
    comes six seconds after the WETH-DAI snapshot was taken, yet it
    queries no venue and returns that snapshot; a fetch at that moment
    would have returned other prices. *)
Theorem stale_pair_served_from_cache :
  let f1 := _get_prices (calm 0 0 spread) two_venues WETH DAI in
  let f2 := _get_prices (calm 4 0 spread) (bot_after f1) WETH USDC in
  let f3 := _get_prices (calm 6 0 repriced) (bot_after f2) WETH DAI in
  venue_calls f1 = ["uniswap"; "sushiswap"] /\
  venue_calls f2 = ["uniswap"; "sushiswap"] /\
  (CACHE_DURATION two_venues <= clock (calm 6 0 repriced) - clock (calm 0 0 spread))%Q /\
  venue_calls f3 = [] /\
  snapshot f3 = snapshot f1 /\
  snapshot f1 !! "uniswap" = Some (2000000000000000000 # 1000000000000000000) /\
  _get_dex_price (calm 6 0 repriced) "uniswap" WETH DAI
    = Some (4000000000000000000 # 1000000000000000000).
Proof.
  cbv zeta. repeat split; try (vm_compute; reflexivity).
  vm_compute. discriminate.
Qed.

(** ** Trade-Size Optimizer *)

Section OptimizerFacts.

Variable profit_at : Z -> Q.

(** One iteration either keeps the best pair, because the midpoint does
    no better, or replaces it by the midpoint, which does strictly
    better. *)
Lemma iteration_best (s : Search) :
  let s' := iteration profit_at s in
  (best_amount s' = best_amount s /\ best_profit s' = best_profit s /\
   (profit_at (mid_amount s) <= best_profit s)%Q) \/
  (best_amount s' = Some (mid_amount s) /\
   best_profit s' = profit_at (mid_amount s) /\
   (best_profit s < profit_at (mid_amount s))%Q).
Proof.
  unfold iteration.
  destruct (ltb (best_profit s) (profit_at (mid_amount s))) eqn:E.
  - right. apply ltb_lt in E. destruct (ltb _ _); cbn; auto.
  - left. apply ltb_ge in E. destruct (ltb _ _); cbn; auto.
Qed.

(** The bounds stay ordered and only move inwards. *)
Lemma iteration_bounds (s : Search) :
  min_amount s <= max_amount s ->
  let s' := iteration profit_at s in
  min_amount s <= mid_amount s <= max_amount s /\
  min_amount s <= min_amount s' /\ max_amount s' <= max_amount s /\
  min_amount s' <= max_amount s'.
Proof.
  intros Hle. unfold iteration, mid_amount.
  assert (Hm : min_amount s <= (min_amount s + max_amount s) / 2 <= max_amount s).
  { split.
    - apply Z.div_le_lower_bound; lia.
    - apply Z.div_le_upper_bound; lia. }
  destruct (ltb (profit_at _ ) (profit_at _)); cbn; lia.
Qed.

Lemma midpoints_length (n : nat) (s : Search) :
  length (midpoints profit_at n s) = n.
Proof.
  revert s. induction n as [|n IH]; intros s; cbn; [reflexivity|].
  by rewrite IH.
Qed.

Lemma midpoints_bounds (n : nat) (s : Search) (m : Z) :
  min_amount s <= max_amount s ->
  m ∈ midpoints profit_at n s ->
  min_amount s <= m <= max_amount s.
Proof.
  revert s. induction n as [|n IH]; intros s Hle Hin; cbn in Hin.
  - by apply elem_of_nil in Hin.
  - destruct (iteration_bounds s Hle) as (Hmid & Hlo & Hhi & Hle').
    apply elem_of_cons in Hin as [-> | Hin]; [exact Hmid|].
    specialize (IH _ Hle' Hin). lia.
Qed.

(** The running maximum over [n] iterations. *)
Lemma iterate_best (n : nat) (s : Search) :
  let s' := iterate profit_at n s in
  (forall m, m ∈ midpoints profit_at n s -> (profit_at m <= best_profit s')%Q) /\
  (best_profit s <= best_profit s')%Q /\
  ((best_amount s' = best_amount s /\ best_profit s' = best_profit s) \/
   (exists a, best_amount s' = Some a /\ a ∈ midpoints profit_at n s /\
              best_profit s' = profit_at a /\
              (best_profit s < best_profit s')%Q)).
Proof.
  revert s. induction n as [|n IH]; intros s; cbn.
  - split; [|split].
    + intros m Hin. by apply elem_of_nil in Hin.
    + apply Qle_refl.
    + by left.
  - destruct (IH (iteration profit_at s)) as (Hall & Hmono & Hbest).
    clear IH.
    assert (Hstep : (best_profit s <= best_profit (iteration profit_at s))%Q /\
                    (profit_at (mid_amount s)
                     <= best_profit (iteration profit_at s))%Q).
    { destruct (iteration_best s) as [(_ & -> & H) | (_ & -> & H)].
      - split; [apply Qle_refl | exact H].
      - split; [apply Qlt_le_weak, H | apply Qle_refl]. }
    destruct Hstep as (Hs1 & Hs2).
    split; [|split].
    + intros m Hin. apply elem_of_cons in Hin as [-> | Hin].
      * eapply Qle_trans; eassumption.
      * by apply Hall.
    + eapply Qle_trans; eassumption.
    + destruct Hbest as [(Ha & Hp) | (a & Ha & Hin & Hp & Hlt)].
      * destruct (iteration_best s) as [(Ha' & Hp' & _) | (Ha' & Hp' & Hlt')].
        -- left. split; congruence.
        -- right. exists (mid_amount s).
           split; [congruence|]. split; [apply elem_of_cons; by left|].
           split; [congruence|]. rewrite Hp, Hp'. exact Hlt'.
      * right. exists a. split; [exact Ha|].
        split; [apply elem_of_cons; by right|]. split; [exact Hp|].
        eapply Qle_lt_trans; eassumption.
Qed.

(** What [find_optimal] returns, in terms of the twenty midpoints. *)
Lemma find_optimal_spec :
  let ms := midpoints profit_at 20 search_start in
  match find_optimal profit_at with
  | Some a => a ∈ ms /\ (0 < profit_at a)%Q /\
              forall m, m ∈ ms -> (profit_at m <= profit_at a)%Q
  | None => forall m, m ∈ ms -> (profit_at m <= 0)%Q
  end.
Proof.
  intros ms. unfold find_optimal.
  destruct (iterate_best 20 search_start) as (Hall & _ & Hbest).
  fold ms in Hall, Hbest.
  destruct Hbest as [(Ha & Hp) | (a & Ha & Hin & Hp & Hlt)].
  - rewrite Ha. intros m Hin. specialize (Hall m Hin).
    rewrite Hp in Hall. exact Hall.
  - rewrite Ha. split; [exact Hin|]. split.
    + rewrite <- Hp. exact Hlt.
    + intros m Hm. rewrite <- Hp. by apply Hall.
Qed.

End OptimizerFacts.

Section OptimizerOrder.

Variable profit_at : Z -> Q.

(** The best amount is the first midpoint that reaches the maximum. *)
Lemma iterate_first (n : nat) (s : Search) :
  let s' := iterate profit_at n s in
  (best_amount s' = best_amount s /\ best_profit s' = best_profit s /\
   forall m, m ∈ midpoints profit_at n s -> (profit_at m <= best_profit s)%Q) \/
  (exists l1 a l2,
     midpoints profit_at n s = l1 ++ a :: l2 /\
     best_amount s' = Some a /\ best_profit s' = profit_at a /\
     (best_profit s < profit_at a)%Q /\
     (forall m, m ∈ l1 -> (profit_at m < profit_at a)%Q) /\
     (forall m, m ∈ l2 -> (profit_at m <= profit_at a)%Q)).
Proof.
  revert s. induction n as [|n IH]; intros s; cbn.
  - left. repeat split. intros m Hm. by apply elem_of_nil in Hm.
  - destruct (iteration_best profit_at s)
      as [(Ha & Hp & Hle) | (Ha & Hp & Hlt)];
      destruct (IH (iteration profit_at s))
        as [(Ha' & Hp' & Hall) | (l1 & a & l2 & Hms & Ha' & Hp' & Hlt' & H1 & H2)].
    + left. split; [congruence|]. split; [congruence|].
      intros m Hm. apply elem_of_cons in Hm as [-> | Hm]; [exact Hle|].
      rewrite <- Hp. by apply Hall.
    + right. exists (mid_amount s :: l1), a, l2.
      rewrite Hp in Hlt'.
      split; [by rewrite Hms|]. repeat split; try assumption.
      intros m Hm. apply elem_of_cons in Hm as [-> | Hm]; [|by apply H1].
      eapply Qle_lt_trans; eassumption.
    + right. exists [], (mid_amount s), (midpoints profit_at n (iteration profit_at s)).
      split; [reflexivity|]. split; [congruence|]. split; [congruence|].
      split; [exact Hlt|]. split.
      * intros m Hm. by apply elem_of_nil in Hm.
      * intros m Hm. rewrite <- Hp. by apply Hall.
    + right. exists (mid_amount s :: l1), a, l2.
      rewrite Hp in Hlt'.
      split; [by rewrite Hms|]. split; [exact Ha'|]. split; [exact Hp'|].
      split; [eapply Qlt_trans; eassumption|]. split; [|exact H2].
      intros m Hm. apply elem_of_cons in Hm as [-> | Hm]; [exact Hlt'|].
      by apply H1.
Qed.

(** The midpoints of the loop are the probes of the bisection the
    specification describes, with the decrement of 0.1 ether. *)
Lemma midpoints_bisection (n : nat) (s : Search) :
  midpoints profit_at n s =
  bisection profit_at (toWei_ether 1 10) n (min_amount s) (max_amount s).
Proof.
  revert s. induction n as [|n IH]; intros s; cbn [midpoints bisection];
    [reflexivity|].
  rewrite IH. unfold iteration. fold (mid_amount s).
  destruct (ltb (profit_at (mid_amount s - toWei_ether 1 10))
              (profit_at (mid_amount s))); reflexivity.
Qed.

End OptimizerOrder.

(** C5: the amounts at which [_find_optimal_amount] simulates the trade
    are the probes of twenty bisection iterations over the range from 0.1
    to 100 ether, with the narrowing rule of the specification and the
    decrement of 0.1 ether; there are exactly twenty and all lie within
    the range. When it returns an amount, the simulated profit of that
    amount is strictly positive, no probe has a larger one, and it is the
    first probe to reach that maximum, whichever probe comes last; it
    returns [None] exactly when no probe has a strictly positive
    simulated profit. There are quotes for which the amount returned is
    not the final bisection point. *)
Theorem optimizer_running_maximum (w : World) (b : Bot) (t0 t1 : Address)
    (s t : string) (p_s p_t : Q) :
  let probes := fun (w : World) (b : Bot) (t0 t1 : Address) (s t : string) =>
    bisection (fun a => _simulate_trade_profit w b t0 t1 a s t)
      (toWei_ether 1 10) 20 (toWei_ether 1 10) (toWei_ether 100 1) in
  let profit := fun a => _simulate_trade_profit w b t0 t1 a s t in
  let ms := probes w b t0 t1 s t in
  length ms = 20%nat /\
  (forall m, m ∈ ms -> toWei_ether 1 10 <= m <= toWei_ether 100 1) /\
  (forall a, _find_optimal_amount w b t0 t1 s t p_s p_t = Some a ->
             (0 < profit a)%Q /\
             (forall m, m ∈ ms -> (profit m <= profit a)%Q) /\
             exists l1 l2,
               ms = l1 ++ a :: l2 /\
               forall m, m ∈ l1 -> (profit m < profit a)%Q) /\
  (_find_optimal_amount w b t0 t1 s t p_s p_t = None <->
   forall m, m ∈ ms -> (profit m <= 0)%Q) /\
  (exists (w' : World) (a final : Z),
     _find_optimal_amount w' two_venues WETH DAI "uniswap" "sushiswap" p_s p_t
       = Some a /\
     last (probes w' two_venues WETH DAI "uniswap" "sushiswap") = Some final /\
     a <> final).
Proof.
  intros probes profit ms.
  assert (Hms : ms = midpoints profit 20 search_start).
  { symmetry. apply (midpoints_bisection profit 20 search_start). }
  pose proof (find_optimal_spec profit) as Hspec. cbv zeta in Hspec.
  pose proof (iterate_first profit 20 search_start) as Hfirst.
  cbv zeta in Hfirst.
  change (_find_optimal_amount w b t0 t1 s t p_s p_t)
    with (find_optimal profit).
  unfold find_optimal in *.
  rewrite <- Hms in Hspec, Hfirst.
  split; [rewrite Hms; apply midpoints_length|].
  split.
  { intros m Hin. rewrite Hms in Hin.
    apply (midpoints_bounds profit 20 search_start m); [|exact Hin].
    vm_compute. discriminate. }
  clear Hms. split; [|split].
  - intros a Ha. rewrite Ha in Hspec.
    destruct Hspec as (_ & Hpos & Hmax).
    split; [exact Hpos|]. split; [exact Hmax|].
    destruct Hfirst as [(Hn & _) | (l1 & a' & l2 & Hl & Ha' & _ & _ & H1 & _)].
    + rewrite Ha in Hn. discriminate Hn.
    + rewrite Ha in Ha'. injection Ha' as <-.
      exists l1, l2. split; [exact Hl | exact H1].
  - destruct (best_amount (iterate profit 20 search_start)) as [a|].
    + split; [discriminate|].
      intros Hall. destruct Hspec as (Hin & Hpos & _).
      exfalso. specialize (Hall a Hin).
      exact (Qlt_not_le _ _ Hpos Hall).
    + split; auto.
  - exists (calm 0 0 cliff), 50050000000000000000, 50050095272064208984.
    split; [vm_compute; reflexivity|].
    split; [vm_compute; reflexivity|]. discriminate.
Qed.

(** The amount returned is the best midpoint, here the first one, not
    the midpoint of the last iteration. *)
Example best_is_not_last :
  _find_optimal_amount (calm 0 0 cliff) two_venues WETH DAI
    "uniswap" "sushiswap" 1 2 = Some 50050000000000000000 /\
  last (midpoints
          (fun a => _simulate_trade_profit (calm 0 0 cliff) two_venues
                      WETH DAI a "uniswap" "sushiswap")
          20 search_start) = Some 50050095272064208984.
Proof.
  split; vm_compute; reflexivity.
Qed.

(** With no venue answering, every simulated profit is at most zero and
    no amount is returned. *)
Example nothing_profitable :
  _find_optimal_amount (calm 0 0 (fun _ _ _ => Raised)) two_venues WETH DAI
    "uniswap" "sushiswap" 1 2 = None.
Proof.
  vm_compute. reflexivity.
Qed.

(** ** Validation Guard *)

Lemma round_context_zero (x : Q) : Qnum x = 0 -> round_context x = 0%Q.
Proof.
  intros H. unfold round_context. rewrite H. reflexivity.
Qed.

Lemma no_deviation (x : Q) :
  ~ (x == 0)%Q ->
  exists d,
    Py.div_ctx (Qabs (Py.sub_ctx x x)) x = Returned d /\
    leb d MAX_PRICE_DEVIATION = true.
Proof.
  intros Hx. exists 0%Q.
  assert (Hs : Py.sub_ctx x x = 0%Q).
  { apply round_context_zero. destruct x as [n d]. cbn. lia. }
  rewrite Hs. split; [|reflexivity].
  unfold Py.div_ctx. destruct (Qeq_bool x 0) eqn:E.
  - apply Qeq_bool_iff in E. contradiction.
  - reflexivity.
Qed.

(** The prices [_validate_opportunity] hands to [_verify_prices] are the
    cache entry [_verify_prices] compares them with: both deviations are
    zero, and the check passes as soon as both venues have a price. *)
Lemma price_check_against_itself (w : World) (b : Bot)
    (opp : ArbitrageOpportunity) :
  positive_cache b ->
  let f := _get_prices w b (token0 opp) (token1 opp) in
  _verify_prices (bot_after f) (snapshot f) opp = true <->
  is_Some (snapshot f !! source_dex opp) /\
  is_Some (snapshot f !! target_dex opp).
Proof.
  intros Hpos f.
  pose proof (get_prices_cached w b (token0 opp) (token1 opp)) as Hc.
  destruct (get_prices_positive w b (token0 opp) (token1 opp) Hpos)
    as (_ & Hp).
  fold f in Hc, Hp.
  unfold _verify_prices, verify_body, getitem. rewrite Hc.
  destruct (snapshot f !! source_dex opp) as [ps|] eqn:Hs; cbn [bind catch].
  2: { split; [discriminate|]. intros [[? H] _]. discriminate H. }
  destruct (snapshot f !! target_dex opp) as [pt|] eqn:Ht; cbn [bind catch].
  2: { split; [discriminate|]. intros [_ [? H]]. discriminate H. }
  rewrite Hs. cbn [bind catch].
  assert (Hps : ~ (ps == 0)%Q).
  { intros E. specialize (Hp _ _ Hs). rewrite E in Hp.
    exact (Qlt_irrefl _ Hp). }
  assert (Hpt : ~ (pt == 0)%Q).
  { intros E. specialize (Hp _ _ Ht). rewrite E in Hp.
    exact (Qlt_irrefl _ Hp). }
  destruct (no_deviation ps Hps) as (ds & Hds & Hls).
  destruct (no_deviation pt Hpt) as (dt & Hdt & Hlt).
  rewrite Hds. cbn [bind catch].
  rewrite Hdt. cbn [bind catch]. rewrite Hls, Hlt.
  split; [|reflexivity]. intros _. split; eexists; reflexivity.
Qed.

(** C3 at a discovery at time 0 and a validation at time 10: the cache
    has expired, both venues now quote twice the price recorded at
    discovery, and the guard still accepts the opportunity. *)
Theorem validation_accepts_moved_prices :
  let found := _get_prices (calm 0 50000000000 spread) two_venues WETH DAI in
  let later := calm 10 50000000000 repriced in
  exists opp,
    _analyze_opportunity (calm 0 50000000000 spread) (bot_after found)
      WETH DAI "uniswap" "sushiswap" (snapshot found) = Some opp /\
    (exists p, snapshot found !! "uniswap" = Some p /\ (p == 2)%Q) /\
    (exists p, _get_dex_price later "uniswap" WETH DAI = Some p /\ (p == 4)%Q) /\
    venue_calls (_get_prices later (bot_after found) WETH DAI)
      = ["uniswap"; "sushiswap"] /\
    fst (_validate_opportunity later (bot_after found) opp) = true.
Proof.
  cbv zeta. eexists. split; [vm_compute; reflexivity|].
  split; [eexists; split; vm_compute; reflexivity|].
  split; [eexists; split; vm_compute; reflexivity|].
  split; vm_compute; reflexivity.
Qed.

Lemma div_by_zero (x p : Q) : (p == 0)%Q -> Py.div_ctx x p = Raised.
Proof.
  intros E. unfold Py.div_ctx. apply Qeq_bool_iff in E. by rewrite E.
Qed.

(** Run the [try] block of [_verify_prices] one lookup at a time, using
    what is known about each lookup and splitting on the others. *)
Ltac verify_step :=
  cbn [bind];
  match goal with
  | H : ?m !! ?k = _ |- context [?m !! ?k] => rewrite H
  | E : (?p == 0)%Q |- context [Py.div_ctx ?x ?p] =>
      rewrite (div_by_zero x p E)
  | |- context [match ?m !! ?k with _ => _ end] => destruct (m !! k) eqn:?
  | |- context [Py.div_ctx ?x ?y] => destruct (Py.div_ctx x y) eqn:?
  end.

Lemma verify_error_rejects (b : Bot) (prices : gmap string Q)
    (opp : ArbitrageOpportunity) :
  verify_error b prices opp -> _verify_prices b prices opp = false.
Proof.
  intros H. unfold _verify_prices.
  assert (Hr : verify_body b prices opp = Raised); [|by rewrite Hr].
  destruct H as [H|H|H|c Hc H|c Hc H|p Hp E|p Hp E|H]; [..|exact H];
    unfold verify_body, getitem; repeat verify_step;
    reflexivity || congruence.
Qed.

(** C7: whatever goes wrong inside the guard, be it the gas price that
    cannot be read, a venue missing from the snapshot or from the cache,
    a division by a zero price, or any exception reaching either
    handler, [_validate_opportunity] returns [False]. *)
Theorem validation_error_rejects (w : World) (b : Bot)
    (opp : ArbitrageOpportunity) :
  validation_error w b opp -> fst (_validate_opportunity w b opp) = false.
Proof.
  intros H. unfold _validate_opportunity.
  destruct H as [H|H|H].
  - unfold validate_body. rewrite H.
    by destruct (leb (expected_profit opp) (min_profit_threshold b)).
  - by rewrite H.
  - apply verify_error_rejects in H.
    unfold validate_body. rewrite H.
    destruct (leb (expected_profit opp) (min_profit_threshold b));
      [reflexivity|].
    destruct (eth_gas_price w); [|reflexivity].
    cbn [bind catch]. by destruct (leb _ _).
Qed.

Lemma validation_error_rejects_witness :
  validation_error (calm 10 50000000000 uniswap_down) two_venues
    sample_opportunity /\
  fst (_validate_opportunity (calm 10 50000000000 uniswap_down) two_venues
         sample_opportunity) = false.
Proof.
  assert (H : validation_error (calm 10 50000000000 uniswap_down) two_venues
                sample_opportunity).
  { apply verification_error, current_source_missing.
    vm_compute. reflexivity. }
  split; [exact H|].
  exact (validation_error_rejects _ _ _ H).
Defined.

(** With every read succeeding and both venues quoting, the guard of
    the same opportunity passes: the rejections above are not vacuous. *)
Example validation_can_pass :
  fst (_validate_opportunity (calm 10 50000000000 spread) two_venues
         sample_opportunity) = true.
Proof.
  vm_compute. reflexivity.
Qed.

(** ** Execution Submitter *)

Lemma contains_key (k : string) (d : list (string * Py.value)) :
  existsb (fun kv => String.eqb (fst kv) k) d =
    match assoc k d with
    | Some _ => true
    | None => false
    end.
Proof.
  induction d as [|[k' v] d IH]; cbn; [reflexivity|].
  destruct (String.eqb k' k); [reflexivity | exact IH].
Qed.

(** The relay's answer counts as acceptance exactly when it is an object
    with a ["result"] member other than [null]. *)
Lemma relay_accepted_true (result : Py.value) :
  relay_accepted result = Returned true <->
  exists d v, result = VDict d /\ assoc "result" d = Some v /\ v <> VNone.
Proof.
  unfold relay_accepted. split.
  - destruct result as [| | |s|l|d]; cbn; try discriminate.
    + destruct (String.index 0 "result" s); cbn; discriminate.
    + destruct (existsb _ l); cbn; discriminate.
    + rewrite contains_key.
      destruct (assoc "result" d) as [v|] eqn:Hv; cbn; [|discriminate].
      intros [= Hn].
      exists d, v. repeat split; try assumption.
      intros ->. discriminate Hn.
  - intros (d & v & -> & Hv & Hn). cbn. rewrite contains_key, Hv. cbn.
    destruct v; cbn; congruence.
Qed.

(** C8, as the code has it: once the block number [n] is read, exactly
    one [eth_sendBundle] request is posted; its bundle carries the raw
    transaction, targets block [n + 1] in hexadecimal, and has
    [minTimestamp = 0] and [maxTimestamp = int(now) + 120]. The call
    reports success exactly when the relay's answer is an object whose
    ["result"] member is present and not [null]; a transport error or
    any other answer gives [False]. *)
Theorem bundle_submission (w : World) (raw_tx : string) (n : Z) :
  eth_block_number w = Returned n ->
  let sub := _submit_to_flashbots w raw_tx in
  let request := {| jsonrpc := "2.0";
                    id := 1;
                    method := "eth_sendBundle";
                    params := [ {| txs := [raw_tx];
                                   blockNumber := HexString.of_Z (n + 1);
                                   minTimestamp := 0;
                                   maxTimestamp := Py.int (clock w) + 120 |} ] |} in
  posted sub = [request] /\
  (accepted sub = true <->
   exists d v, relay w request = Returned (VDict d) /\
               assoc "result" d = Some v /\ v <> VNone) /\
  (relay w request = Raised -> accepted sub = false).
Proof.
  intros Hn sub request. subst sub. unfold _submit_to_flashbots.
  rewrite Hn. cbn [posted accepted].
  change (bundle_request w raw_tx n) with request.
  split; [reflexivity|].
  destruct (relay w request) as [result|] eqn:Hr; cbn [bind catch].
  - split; [|discriminate].
    destruct (relay_accepted result) as [[|]|] eqn:Ha; cbn [catch].
    + apply relay_accepted_true in Ha.
      destruct Ha as (d & v & -> & Hv & Hne).
      split; [|reflexivity]. intros _. by exists d, v.
    + split; [discriminate|].
      intros (d & v & [= ->] & Hv & Hne).
      assert (Ht : relay_accepted (VDict d) = Returned true).
      { apply relay_accepted_true. by exists d, v. }
      congruence.
    + split; [discriminate|].
      intros (d & v & [= ->] & Hv & Hne).
      assert (Ht : relay_accepted (VDict d) = Returned true).
      { apply relay_accepted_true. by exists d, v. }
      congruence.
  - split; [|reflexivity].
    split; [discriminate|]. intros (d & v & H & _). discriminate H.
Qed.

Lemma bundle_submission_witness :
  let w := calm 1700000000 50000000000 spread in
  let sub := _submit_to_flashbots w "0x02f8b1" in
  let request := {| jsonrpc := "2.0";
                    id := 1;
                    method := "eth_sendBundle";
                    params := [ {| txs := ["0x02f8b1"];
                                   blockNumber := HexString.of_Z (19000000 + 1);
                                   minTimestamp := 0;
                                   maxTimestamp := Py.int (clock w) + 120 |} ] |} in
  posted sub = [request] /\
  (accepted sub = true <->
   exists d v, relay w request = Returned (VDict d) /\
               assoc "result" d = Some v /\ v <> VNone) /\
  (relay w request = Raised -> accepted sub = false).
Proof.
  apply (bundle_submission (calm 1700000000 50000000000 spread) "0x02f8b1"
           19000000).
  reflexivity.
Defined.

(** C8 as stated fails on the lower end of the window: at time
    1700000000 the bundle posted has [minTimestamp = 0], not the current
    time; its upper end is 1700000120 and its block is 19000001. *)
Lemma bundle_window_starts_at_zero :
  let w := calm 1700000000 50000000000 spread in
  Py.int (clock w) = 1700000000 /\
  map (fun r => map minTimestamp (params r))
      (posted (_submit_to_flashbots w "0x02f8b1")) = [[0]] /\
  map (fun r => map maxTimestamp (params r))
      (posted (_submit_to_flashbots w "0x02f8b1")) = [[1700000120]] /\
  map (fun r => map blockNumber (params r))
      (posted (_submit_to_flashbots w "0x02f8b1")) = [["0x121eac1"%string]].
Proof.
  repeat split; vm_compute; reflexivity.
Qed.

(** When the block number cannot be read nothing is posted and the call
    reports failure. *)
Lemma no_block_number_no_bundle (w : World) (raw_tx : string) :
  eth_block_number w = Raised ->
  _submit_to_flashbots w raw_tx = {| accepted := false; posted := [] |}.
Proof.
  intros H. unfold _submit_to_flashbots. by rewrite H.
Qed.

(** Answers that are not acceptance. *)
Example relay_rejections :
  catch (relay_accepted (VDict [("jsonrpc", VStr "2.0"); ("result", VNone)])) false = false /\
  catch (relay_accepted (VDict [("error", VStr "bundle too old")])) false = false /\
  catch (relay_accepted (VList [VStr "result"])) false = false /\
  catch (relay_accepted (VStr "result")) false = false /\
  catch (relay_accepted VNone) false = false.
Proof.
  repeat split; reflexivity.
Qed.

(** C10, as the code has it: when the relay accepts, [trades_executed]
    grows by one, [failed_trades] is unchanged and [total_profit] becomes
    the decimal sum of its previous value and the opportunity's
    [expected_profit], which is their exact sum rounded to 28 significant
    digits and so lies within half a unit of the 28th digit of it; when
    the relay does not accept, or anything raises while the transaction
    is prepared, signed or submitted, [failed_trades] grows by one and
    [trades_executed] and [total_profit] are unchanged. *)
Theorem execution_statistics (w : World) (b : Bot) (opp : ArbitrageOpportunity) :
  let before := stats b in
  let after := stats (_execute_arbitrage w b opp) in
  let exact_sum := (total_profit before + expected_profit opp)%Q in
  let success :=
    trades_executed after = trades_executed before + 1 /\
    total_profit after = round_context exact_sum /\
    (Qabs (total_profit after - exact_sum) <= Qabs exact_sum * half_ulp)%Q /\
    failed_trades after = failed_trades before in
  let failure :=
    failed_trades after = failed_trades before + 1 /\
    trades_executed after = trades_executed before /\
    total_profit after = total_profit before in
  match execute_body w b opp with
  | Returned submission => if accepted submission then success else failure
  | Raised => failure
  end.
Proof.
  cbv zeta. unfold _execute_arbitrage.
  destruct (execute_body w b opp) as [sub|]; [destruct (accepted sub)|];
    cbn; repeat split; try reflexivity.
  apply round_context_error.
Qed.

(** C10 as stated fails on the second of two accepted executions of an
    opportunity whose expected profit has 28 significant digits: the
    exact sum has 29, the total is rounded to
    133333333333333333333.3333333 and has not grown by exactly the
    expected profit. *)
Lemma total_profit_is_rounded :
  let w := calm 0 50000000000 spread in
  let once := _execute_arbitrage w two_venues long_profit in
  let twice := _execute_arbitrage w once long_profit in
  trades_executed (stats twice) = 2 /\
  (total_profit (stats once) == 66666666666666666666.66666667)%Q /\
  (total_profit (stats twice) == 133333333333333333333.3333333)%Q /\
  ~ (total_profit (stats twice)
     == total_profit (stats once) + expected_profit long_profit)%Q.
Proof.
  cbv zeta. split; [vm_compute; reflexivity|].
  split; [vm_compute; reflexivity|].
  split; [vm_compute; reflexivity|].
  intros H. vm_compute in H. discriminate H.
Qed.

(** The three outcomes on the counters of a fresh bot. *)
Example statistics_of_three_runs :
  let w := calm 0 50000000000 spread in
  let counters := fun s => (trades_executed s, Qred (total_profit s), failed_trades s) in
  counters (stats (_execute_arbitrage w two_venues sample_opportunity))
    = (1, 100000000000000000000 # 1, 0) /\
  counters (stats (_execute_arbitrage (refusing w) two_venues sample_opportunity))
    = (0, 0 # 1, 1) /\
  counters (stats (_execute_arbitrage (unsigned w) two_venues sample_opportunity))
    = (0, 0 # 1, 1).
Proof.
  repeat split; vm_compute; reflexivity.
Qed.

(** * Further properties *)

(** ** What no method changes *)

(** The venues and the three constants set by [__init__] stay as they
    are in every state the bot reaches. *)
Lemma reachable_config (b : Bot) :
  reachable b ->
  NoDup (dex_interfaces b) /\
  CACHE_DURATION b = 5%Q /\
  min_profit_threshold b = (1 # 100)%Q /\
  flash_loan_fee b = (9 # 10000)%Q.
Proof.
  induction 1 as [dexes account contract Hnd
                 |w b t0 t1 _ IH
                 |w b opp _ IH
                 |w b opp _ IH].
  - cbn. auto.
  - destruct (get_prices_frame w b t0 t1) as (-> & -> & -> & -> & _).
    exact IH.
  - destruct (validate_cache w b opp) as [-> | ->]; [exact IH|].
    destruct (get_prices_frame w b (token0 opp) (token1 opp))
      as (-> & -> & -> & -> & _).
    exact IH.
  - unfold _execute_arbitrage.
    destruct (execute_body w b opp) as [s|]; [destruct (accepted s)|];
      exact IH.
Qed.

(** ** Price Aggregator, continued *)

(** X1: a call of [_get_prices] for one pair leaves the cache entry of
    every other pair as it was, whether it fetched or not. *)
Theorem get_prices_other_pairs (w : World) (b : Bot) (t0 t1 : Address)
    (key : string) :
  key <> cache_key t0 t1 ->
  price_cache (bot_after (_get_prices w b t0 t1)) !! key = price_cache b !! key.
Proof.
  intros Hne. unfold _get_prices.
  destruct (cached_prices w b (cache_key t0 t1)); cbn; [reflexivity|].
  by apply lookup_insert_ne.
Qed.

Lemma get_prices_other_pairs_witness :
  let f1 := _get_prices (calm 0 0 spread) two_venues WETH DAI in
  price_cache (bot_after (_get_prices (calm 4 0 repriced) (bot_after f1) WETH USDC))
    !! cache_key WETH DAI
  = price_cache (bot_after f1) !! cache_key WETH DAI.
Proof.
  cbv zeta.
  apply (get_prices_other_pairs (calm 4 0 repriced)
           (bot_after (_get_prices (calm 0 0 spread) two_venues WETH DAI))
           WETH USDC (cache_key WETH DAI)).
  vm_compute. discriminate.
Defined.

(** Nothing is recorded for the venues named curve and balancer. *)
Lemma recorded_curve_balancer (w : World) (t0 t1 : Address) (d : string) :
  is_Some (recorded w t0 t1 d) -> d <> "curve" /\ d <> "balancer".
Proof.
  intros [p Hp]. split; intros ->; vm_compute in Hp; discriminate Hp.
Qed.

Lemma get_prices_configured (w : World) (b : Bot) (t0 t1 : Address) :
  configured_cache b ->
  configured_cache (bot_after (_get_prices w b t0 t1)) /\
  forall d, is_Some (snapshot (_get_prices w b t0 t1) !! d) ->
            d ∈ dex_interfaces b /\ d <> "curve" /\ d <> "balancer".
Proof.
  intros Hc.
  destruct (get_prices_frame w b t0 t1) as (Hdex & _).
  destruct (cached_prices w b (cache_key t0 t1)) as [c|] eqn:Hcp.
  - assert (Hin : price_cache b !! cache_key t0 t1 = Some c).
    { unfold cached_prices in Hcp.
      destruct (price_cache b !! cache_key t0 t1); [|discriminate].
      destruct (ltb _ _); congruence. }
    unfold _get_prices. rewrite Hcp. cbn. split; [exact Hc|].
    intros d. apply (Hc _ _ _ Hin).
  - destruct (get_prices_miss w b t0 t1 Hcp) as (_ & Hcache & _ & Hlook).
    assert (Hsnap : forall d,
               is_Some (snapshot (_get_prices w b t0 t1) !! d) ->
               d ∈ dex_interfaces b /\ d <> "curve" /\ d <> "balancer").
    { intros d. rewrite Hlook. case_decide as Hd.
      - intros Hr. split; [exact Hd|].
        exact (recorded_curve_balancer w t0 t1 d Hr).
      - intros [? H]. discriminate H. }
    split; [|exact Hsnap].
    intros key snap d. rewrite Hcache, Hdex.
    destruct (decide (cache_key t0 t1 = key)) as [<-|Hne].
    + rewrite lookup_insert_eq. intros [= <-]. apply Hsnap.
    + rewrite lookup_insert_ne by exact Hne. apply Hc.
Qed.

Lemma reachable_configured (b : Bot) : reachable b -> configured_cache b.
Proof.
  induction 1 as [dexes account contract _
                 |w b t0 t1 _ IH
                 |w b opp _ IH
                 |w b opp _ IH].
  - intros key snap d. cbn. rewrite lookup_empty. discriminate.
  - apply get_prices_configured. exact IH.
  - destruct (validate_cache w b opp) as [-> | ->]; [exact IH|].
    apply get_prices_configured. exact IH.
  - intros key snap d. rewrite execute_cache.
    unfold _execute_arbitrage.
    destruct (execute_body w b opp) as [s|]; [destruct (accepted s)|];
      apply IH.
Qed.

(** X2: in every state the bot reaches, a snapshot returned by
    [_get_prices] has prices only for configured venues, and never for a
    venue named curve or balancer, whose price paths always fail. *)
Theorem snapshot_venues_configured (b : Bot) :
  reachable b ->
  forall (w : World) (t0 t1 : Address) (d : string),
    is_Some (snapshot (_get_prices w b t0 t1) !! d) ->
    d ∈ dex_interfaces b /\ d <> "curve" /\ d <> "balancer".
Proof.
  intros Hr w t0 t1.
  apply get_prices_configured, reachable_configured, Hr.
Qed.

Lemma snapshot_venues_configured_witness :
  reachable two_venues /\
  forall (w : World) (t0 t1 : Address) (d : string),
    is_Some (snapshot (_get_prices w two_venues t0 t1) !! d) ->
    d ∈ dex_interfaces two_venues /\ d <> "curve" /\ d <> "balancer".
Proof.
  split.
  - exact two_venues_reachable.
  - exact (snapshot_venues_configured two_venues two_venues_reachable).
Defined.

(** X3: in every state the bot reaches, asking again for the same pair
    at the same clock reading returns the snapshot just returned, queries
    no venue and changes nothing. *)
Theorem get_prices_idempotent (b : Bot) :
  reachable b ->
  forall (w : World) (t0 t1 : Address),
    let f := _get_prices w b t0 t1 in
    _get_prices w (bot_after f) t0 t1 =
      {| snapshot := snapshot f; bot_after := bot_after f; venue_calls := [] |}.
Proof.
  intros Hr w t0 t1 f.
  destruct (reachable_config b Hr) as (_ & Hdur & _).
  destruct (get_prices_frame w b t0 t1) as (_ & Hdur' & _).
  fold f in Hdur'.
  destruct (cached_prices w b (cache_key t0 t1)) as [c|] eqn:Hcp.
  - assert (Hf : f = {| snapshot := c; bot_after := b; venue_calls := [] |}).
    { unfold f, _get_prices. by rewrite Hcp. }
    rewrite Hf. cbn. unfold _get_prices. by rewrite Hcp.
  - destruct (get_prices_miss w b t0 t1 Hcp) as (_ & _ & Hstamp & _).
    fold f in Hstamp.
    apply get_prices_hit.
    + apply get_prices_cached.
    + rewrite Hstamp, Hdur', Hdur. lra.
Qed.

Lemma get_prices_idempotent_witness :
  reachable two_venues /\
  forall (w : World) (t0 t1 : Address),
    let f := _get_prices w two_venues t0 t1 in
    _get_prices w (bot_after f) t0 t1 =
      {| snapshot := snapshot f; bot_after := bot_after f; venue_calls := [] |}.
Proof.
  split.
  - exact two_venues_reachable.
  - exact (get_prices_idempotent two_venues two_venues_reachable).
Defined.

(** X4: in every state the bot reaches, once a call has fetched a pair,
    a second call for that pair less than five seconds later returns the
    identical snapshot, queries no venue and leaves the bot as it is. *)
Theorem fetched_snapshot_reused (b : Bot) (w1 w2 : World) (t0 t1 : Address) :
  reachable b ->
  cached_prices w1 b (cache_key t0 t1) = None ->
  (clock w2 - clock w1 < 5)%Q ->
  let f1 := _get_prices w1 b t0 t1 in
  _get_prices w2 (bot_after f1) t0 t1 =
    {| snapshot := snapshot f1; bot_after := bot_after f1; venue_calls := [] |}.
Proof.
  intros Hr Hmiss Ht.
  destruct (reachable_config b Hr) as (_ & Hdur & _).
  apply second_call_within_ttl; [exact Hmiss|].
  rewrite Hdur. exact Ht.
Qed.

Lemma fetched_snapshot_reused_witness :
  let f1 := _get_prices (calm 0 0 spread) two_venues WETH DAI in
  _get_prices (calm 4 0 repriced) (bot_after f1) WETH DAI =
    {| snapshot := snapshot f1; bot_after := bot_after f1; venue_calls := [] |}.
Proof.
  apply (fetched_snapshot_reused two_venues (calm 0 0 spread)
           (calm 4 0 repriced) WETH DAI).
  - exact two_venues_reachable.
  - vm_compute. reflexivity.
  - vm_compute. reflexivity.
Defined.

(** X5: in every state the bot reaches, a call made five seconds or more
    after the last fetch of any pair queries every configured venue once,
    in configuration order, stores the snapshot it returns under the
    pair's key and sets the time stamp to its own clock reading. *)
Theorem expired_stamp_refetches (b : Bot) (w : World) (t0 t1 : Address) :
  reachable b ->
  (5 <= clock w - last_cache_update b)%Q ->
  let f := _get_prices w b t0 t1 in
  venue_calls f = dex_interfaces b /\
  price_cache (bot_after f) = <[cache_key t0 t1 := snapshot f]> (price_cache b) /\
  last_cache_update (bot_after f) = clock w.
Proof.
  intros Hr Ht.
  destruct (reachable_config b Hr) as (_ & Hdur & _).
  apply call_after_expiry. rewrite Hdur. exact Ht.
Qed.

Lemma expired_stamp_refetches_witness :
  let b := bot_after (_get_prices (calm 0 0 spread) two_venues WETH DAI) in
  let f := _get_prices (calm 5 0 repriced) b WETH DAI in
  venue_calls f = dex_interfaces b /\
  price_cache (bot_after f) = <[cache_key WETH DAI := snapshot f]> (price_cache b) /\
  last_cache_update (bot_after f) = clock (calm 5 0 repriced).
Proof.
  apply (expired_stamp_refetches
           (bot_after (_get_prices (calm 0 0 spread) two_venues WETH DAI))
           (calm 5 0 repriced) WETH DAI).
  - apply reach_get_prices. exact two_venues_reachable.
  - vm_compute. discriminate.
Defined.

(** X6: the time stamp is one for all pairs. In every state the bot
    reaches, if a pair has a cache entry and then another pair is
    fetched, a call for the first pair less than five seconds after that
    fetch returns the old entry and queries no venue, whatever the age of
    the entry. *)
Theorem entry_outlives_its_fetch (b : Bot) (w1 w2 : World)
    (t0 t1 u0 u1 : Address) (old : gmap string Q) :
  reachable b ->
  cache_key u0 u1 <> cache_key t0 t1 ->
  price_cache b !! cache_key t0 t1 = Some old ->
  cached_prices w1 b (cache_key u0 u1) = None ->
  (clock w2 - clock w1 < 5)%Q ->
  let b1 := bot_after (_get_prices w1 b u0 u1) in
  _get_prices w2 b1 t0 t1 =
    {| snapshot := old; bot_after := b1; venue_calls := [] |}.
Proof.
  intros Hr Hne Hold Hmiss Ht.
  destruct (reachable_config b Hr) as (_ & Hdur & _).
  apply other_pair_refreshes_stamp; try assumption.
  rewrite Hdur. exact Ht.
Qed.

Lemma entry_outlives_its_fetch_witness :
  let b := bot_after (_get_prices (calm 0 0 spread) two_venues WETH DAI) in
  let b1 := bot_after (_get_prices (calm 100 0 spread) b WETH USDC) in
  _get_prices (calm 104 0 repriced) b1 WETH DAI =
    {| snapshot := spread_snapshot; bot_after := b1; venue_calls := [] |}.
Proof.
  apply (entry_outlives_its_fetch
           (bot_after (_get_prices (calm 0 0 spread) two_venues WETH DAI))
           (calm 100 0 spread) (calm 104 0 repriced)
           WETH DAI WETH USDC spread_snapshot).
  - apply reach_get_prices. exact two_venues_reachable.
  - vm_compute. discriminate.
  - vm_compute. reflexivity.
  - vm_compute. reflexivity.
  - vm_compute. reflexivity.
Defined.

(** ** Opportunity Analyzer, continued *)

Lemma flat_map_nil {A B} (f : A -> list B) (l : list A) :
  (forall x, x ∈ l -> f x = []) -> flat_map f l = [].
Proof.
  induction l as [|a l IH]; intros H; cbn; [reflexivity|].
  rewrite (H a) by (apply elem_of_cons; by left).
  apply IH. intros x Hx. apply H, elem_of_cons. by right.
Qed.

(** Membership in the result of the two loops. *)
Lemma elem_of_pair_opportunities (w : World) (b : Bot) (t0 t1 : Address)
    (prices : gmap string Q) (opp : ArbitrageOpportunity) :
  opp ∈ pair_opportunities w b t0 t1 prices <->
  exists s t, s ∈ dex_interfaces b /\ t ∈ dex_interfaces b /\ s <> t /\
              _analyze_opportunity w b t0 t1 s t prices = Some opp.
Proof.
  unfold pair_opportunities.
  rewrite list_elem_of_In, in_flat_map. split.
  - intros (s & Hs & Hin). apply in_flat_map in Hin.
    destruct Hin as (t & Ht & Hin).
    destruct (String.eqb s t) eqn:E; [destruct Hin|].
    apply String.eqb_neq in E.
    destruct (_analyze_opportunity w b t0 t1 s t prices) as [o|] eqn:Ho;
      [|destruct Hin].
    destruct Hin as [<-|[]].
    exists s, t. rewrite !list_elem_of_In. auto.
  - intros (s & t & Hs & Ht & Hne & Ho).
    exists s. rewrite <- list_elem_of_In. split; [exact Hs|].
    apply in_flat_map. exists t. rewrite <- list_elem_of_In.
    split; [exact Ht|].
    apply String.eqb_neq in Hne. rewrite Hne, Ho. by left.
Qed.

(** The amount the optimizer returns lies between 0.1 and 100 ether. *)
Lemma find_optimal_amount_bounds (w : World) (b : Bot) (t0 t1 : Address)
    (s t : string) (p_s p_t : Q) (a : Z) :
  _find_optimal_amount w b t0 t1 s t p_s p_t = Some a ->
  10 ^ 17 <= a <= 10 ^ 20 /\
  (0 < _simulate_trade_profit w b t0 t1 a s t)%Q.
Proof.
  unfold _find_optimal_amount. intros Ha.
  pose proof (find_optimal_spec
                (fun amount => _simulate_trade_profit w b t0 t1 amount s t))
    as Hspec.
  cbv zeta in Hspec. rewrite Ha in Hspec.
  destruct Hspec as (Hin & Hpos & _). split; [|exact Hpos].
  apply midpoints_bounds in Hin; [exact Hin|].
  vm_compute. discriminate.
Qed.

(** X7: every opportunity [_check_pair_opportunities] collects goes from
    one configured venue to a different configured venue, both priced in
    the snapshot; it carries the pair's tokens, the path source then
    target, a gas estimate of 360000, an amount between 0.1 and 100
    ether, and an expected profit strictly above the threshold. *)
Theorem pair_opportunities_wellformed (w : World) (b : Bot) (t0 t1 : Address)
    (prices : gmap string Q) (opp : ArbitrageOpportunity) :
  opp ∈ pair_opportunities w b t0 t1 prices ->
  source_dex opp <> target_dex opp /\
  source_dex opp ∈ dex_interfaces b /\
  target_dex opp ∈ dex_interfaces b /\
  is_Some (prices !! source_dex opp) /\
  is_Some (prices !! target_dex opp) /\
  token0 opp = t0 /\ token1 opp = t1 /\
  execution_path opp = [source_dex opp; target_dex opp] /\
  gas_estimate opp = 360000 /\
  10 ^ 17 <= amount_in opp <= 10 ^ 20 /\
  (min_profit_threshold b < expected_profit opp)%Q.
Proof.
  intros Hin. apply elem_of_pair_opportunities in Hin.
  destruct Hin as (s & t & Hs & Ht & Hne & Ho).
  apply analyze_Some in Ho.
  destruct Ho as (p_s & p_t & a & gp & Hps & Hpt & Ha & _ & _ & Hlt & ->).
  cbn. apply find_optimal_amount_bounds in Ha. destruct Ha as (Ha & _).
  apply ltb_lt in Hlt.
  repeat split; try assumption; try reflexivity; try (by eexists); lia.
Qed.

Lemma pair_opportunities_wellformed_witness :
  exists opp,
    opp ∈ pair_opportunities (calm 0 0 spread) two_venues WETH DAI spread_prices /\
    source_dex opp <> target_dex opp /\
    source_dex opp ∈ dex_interfaces two_venues /\
    target_dex opp ∈ dex_interfaces two_venues /\
    is_Some (spread_prices !! source_dex opp) /\
    is_Some (spread_prices !! target_dex opp) /\
    token0 opp = WETH /\ token1 opp = DAI /\
    execution_path opp = [source_dex opp; target_dex opp] /\
    gas_estimate opp = 360000 /\
    10 ^ 17 <= amount_in opp <= 10 ^ 20 /\
    (min_profit_threshold two_venues < expected_profit opp)%Q.
Proof.
  assert (H : exists opp,
             opp ∈ pair_opportunities (calm 0 0 spread) two_venues WETH DAI
                     spread_prices).
  { eexists. apply list_elem_of_In. vm_compute. left. reflexivity. }
  destruct H as [opp H]. exists opp. split; [exact H|].
  exact (pair_opportunities_wellformed _ _ _ _ _ _ H).
Defined.

(** X8: with fewer than two priced venues in the snapshot there is no
    opportunity at all. *)
Theorem one_price_no_opportunity (w : World) (b : Bot) (t0 t1 : Address)
    (prices : gmap string Q) :
  (size prices <= 1)%nat ->
  pair_opportunities w b t0 t1 prices = [].
Proof.
  intros Hsize.
  destruct (pair_opportunities w b t0 t1 prices) as [|opp rest] eqn:E;
    [reflexivity|].
  assert (Hin : opp ∈ pair_opportunities w b t0 t1 prices).
  { rewrite E. apply elem_of_cons. by left. }
  apply elem_of_pair_opportunities in Hin.
  destruct Hin as (s & t & _ & _ & Hne & Ho).
  apply analyze_Some in Ho.
  destruct Ho as (p_s & p_t & _ & _ & Hps & Hpt & _).
  exfalso.
  assert (Hd : delete s prices !! t = Some p_t).
  { rewrite lookup_delete_ne by exact Hne. exact Hpt. }
  assert (H1 : size (delete s prices) <> 0%nat).
  { apply map_size_ne_0_lookup. by exists t, p_t. }
  assert (H2 : prices = <[s := p_s]> (delete s prices)).
  { rewrite insert_delete_id; [reflexivity | exact Hps]. }
  rewrite H2, map_size_insert_None in Hsize by apply lookup_delete_eq.
  lia.
Qed.

Lemma one_price_no_opportunity_witness :
  pair_opportunities (calm 0 0 uniswap_down) two_venues WETH DAI
    (snapshot (_get_prices (calm 0 0 uniswap_down) two_venues WETH DAI)) = [].
Proof.
  apply one_price_no_opportunity. vm_compute. lia.
Defined.

(** X9: [_analyze_opportunity] returns [None], and raises nothing, when
    the source or the target venue has no price in the snapshot or when
    the gas price cannot be read. *)
Theorem analysis_failures (w : World) (b : Bot) (t0 t1 : Address)
    (s t : string) (prices : gmap string Q) :
  prices !! s = None \/ prices !! t = None \/ eth_gas_price w = Raised ->
  _analyze_opportunity w b t0 t1 s t prices = None.
Proof.
  intros H.
  destruct (_analyze_opportunity w b t0 t1 s t prices) as [opp|] eqn:E;
    [|reflexivity].
  apply analyze_Some in E.
  destruct E as (p_s & p_t & a & gp & Hps & Hpt & _ & _ & Hg & _).
  destruct H as [H|[H|H]]; congruence.
Qed.

Lemma analysis_failures_witness :
  _analyze_opportunity (calm 0 0 spread) two_venues WETH DAI
    "uniswap" "pancakeswap" spread_prices = None.
Proof.
  apply analysis_failures. right. left. vm_compute. reflexivity.
Defined.

(** The optimizer reads the world only through the venues' quotes. *)
Lemma find_optimal_amount_same_quotes (w w' : World) (b : Bot)
    (t0 t1 : Address) (s t : string) (p_s p_t : Q) :
  getAmountsOut w' = getAmountsOut w ->
  _find_optimal_amount w' b t0 t1 s t p_s p_t
  = _find_optimal_amount w b t0 t1 s t p_s p_t.
Proof.
  intros Hq.
  unfold _find_optimal_amount, _simulate_trade_profit, _get_dex_output.
  rewrite Hq. reflexivity.
Qed.

Lemma Decimal_le (x y : Z) : x <= y -> (Decimal x <= Decimal y)%Q.
Proof.
  intros H. unfold Decimal, Qle. cbn. lia.
Qed.

Lemma Decimal_lt (x y : Z) : x < y -> (Decimal x < Decimal y)%Q.
Proof.
  intros H. unfold Decimal, Qlt. cbn. lia.
Qed.

(** X10: if an opportunity is found at some gas price, then with the same
    venue quotes and a gas price that is no higher an opportunity is
    found as well, for the same amount and with an expected profit that
    is no lower. *)
Theorem cheaper_gas_keeps_opportunity (w w' : World) (b : Bot)
    (t0 t1 : Address) (s t : string) (prices : gmap string Q)
    (opp : ArbitrageOpportunity) (gp gp' : Z) :
  getAmountsOut w' = getAmountsOut w ->
  eth_gas_price w = Returned gp ->
  eth_gas_price w' = Returned gp' ->
  gp' <= gp ->
  _analyze_opportunity w b t0 t1 s t prices = Some opp ->
  exists opp',
    _analyze_opportunity w' b t0 t1 s t prices = Some opp' /\
    amount_in opp' = amount_in opp /\
    (expected_profit opp <= expected_profit opp')%Q.
Proof.
  intros Hq Hg Hg' Hle Ho. apply analyze_Some in Ho.
  destruct Ho as (p_s & p_t & a & gp0 & Hps & Hpt & Ha & Hnz & Hg0 & Hlt & ->).
  assert (gp0 = gp) as -> by congruence.
  assert (Hnet : (net_profit b a p_s p_t 360000 gp
                  <= net_profit b a p_s p_t 360000 gp')%Q).
  { unfold net_profit.
    assert (Hd : (Decimal (360000 * gp') <= Decimal (360000 * gp))%Q)
      by (apply Decimal_le; lia).
    lra. }
  assert (Hlt' : ltb (min_profit_threshold b)
                   (net_profit b a p_s p_t 360000 gp') = true).
  { apply ltb_lt. apply ltb_lt in Hlt.
    eapply Qlt_le_trans; eassumption. }
  exists {| token0 := t0; token1 := t1; source_dex := s; target_dex := t;
            amount_in := a;
            expected_profit := net_profit b a p_s p_t 360000 gp';
            execution_path := [s; t];
            gas_estimate := 360000 |}.
  split; [|split; [reflexivity | exact Hnet]].
  unfold _analyze_opportunity, analyze_body, getitem, _estimate_gas_cost.
  rewrite Hps, Hpt. cbn [bind catch].
  rewrite (find_optimal_amount_same_quotes w w' b t0 t1 s t p_s p_t Hq), Ha.
  apply Z.eqb_neq in Hnz. rewrite Hnz, Hg'. cbn [bind catch].
  rewrite Hlt'. reflexivity.
Qed.

Lemma cheaper_gas_keeps_opportunity_witness :
  exists opp opp',
    _analyze_opportunity (calm 0 50000000000 spread) two_venues WETH DAI
      "uniswap" "sushiswap" spread_prices = Some opp /\
    _analyze_opportunity (calm 0 20000000000 spread) two_venues WETH DAI
      "uniswap" "sushiswap" spread_prices = Some opp' /\
    amount_in opp' = amount_in opp /\
    (expected_profit opp <= expected_profit opp')%Q.
Proof.
  assert (H : exists opp,
             _analyze_opportunity (calm 0 50000000000 spread) two_venues
               WETH DAI "uniswap" "sushiswap" spread_prices = Some opp).
  { eexists. vm_compute. reflexivity. }
  destruct H as [opp H].
  destruct (cheaper_gas_keeps_opportunity
              (calm 0 50000000000 spread) (calm 0 20000000000 spread)
              two_venues WETH DAI "uniswap" "sushiswap" spread_prices opp
              50000000000 20000000000)
    as (opp' & H' & Ha & Hp);
    [reflexivity | reflexivity | reflexivity | lia | exact H |].
  exists opp, opp'. auto.
Defined.

Lemma dead_venue_output (w : World) (b : Bot) (t : string)
    (token_in token_out : Address) (amount : Z) :
  (forall a path, getAmountsOut w t a path = Raised) ->
  _get_dex_output w b t token_in token_out amount = 0.
Proof.
  intros H. unfold _get_dex_output.
  destruct (bool_decide _); [|reflexivity].
  by rewrite H.
Qed.

(** X11: in every state the bot reaches, no opportunity is produced
    toward a target venue whose quote call always raises, whatever the
    snapshot says: the simulated round trip loses the whole amount and
    the optimizer returns nothing. *)
Theorem dead_target_no_opportunity (b : Bot) (w : World) (t0 t1 : Address)
    (s t : string) (prices : gmap string Q) :
  reachable b ->
  (forall a path, getAmountsOut w t a path = Raised) ->
  _analyze_opportunity w b t0 t1 s t prices = None.
Proof.
  intros Hr Hdead.
  destruct (reachable_config b Hr) as (_ & _ & _ & Hfee).
  destruct (_analyze_opportunity w b t0 t1 s t prices) as [opp|] eqn:E;
    [|reflexivity].
  exfalso. apply analyze_Some in E.
  destruct E as (p_s & p_t & a & gp & _ & _ & Ha & _).
  apply find_optimal_amount_bounds in Ha. destruct Ha as (Hb & Hpos).
  unfold _simulate_trade_profit in Hpos.
  rewrite (dead_venue_output w b t t1 t0 _ Hdead), Hfee in Hpos.
  assert (Hn : (Decimal (0 - a) <= Decimal 0)%Q) by (apply Decimal_le; lia).
  assert (Hp : (Decimal 0 <= Decimal a)%Q) by (apply Decimal_le; lia).
  assert (Hz : (Decimal 0 == 0)%Q) by reflexivity.
  assert (Hm : (0 <= Decimal a * (9 # 10000))%Q).
  { apply Qmult_le_0_compat; [lra | unfold Qle; cbn; lia]. }
  lra.
Qed.

Lemma dead_target_no_opportunity_witness :
  _analyze_opportunity (calm 0 0 sushiswap_silent) two_venues WETH DAI
    "uniswap" "sushiswap" spread_prices = None.
Proof.
  apply (dead_target_no_opportunity two_venues (calm 0 0 sushiswap_silent)
           WETH DAI "uniswap" "sushiswap" spread_prices).
  - exact two_venues_reachable.
  - intros a path. reflexivity.
Defined.

(** An opportunity needs a target price above the source price. *)
Lemma profitable_direction (b : Bot) (w : World) (t0 t1 : Address)
    (s t : string) (prices : gmap string Q) (opp : ArbitrageOpportunity)
    (gp : Z) :
  reachable b ->
  eth_gas_price w = Returned gp ->
  0 <= gp ->
  _analyze_opportunity w b t0 t1 s t prices = Some opp ->
  exists p_s p_t,
    prices !! s = Some p_s /\ prices !! t = Some p_t /\ (p_s < p_t)%Q.
Proof.
  intros Hr Hg Hgp Ho.
  destruct (reachable_config b Hr) as (_ & _ & Hthr & Hfee).
  apply analyze_Some in Ho.
  destruct Ho as (p_s & p_t & a & gp0 & Hps & Hpt & Ha & _ & Hg0 & Hlt & _).
  assert (gp0 = gp) as -> by congruence.
  exists p_s, p_t. repeat split; try assumption.
  apply find_optimal_amount_bounds in Ha. destruct Ha as (Hb & _).
  apply ltb_lt in Hlt. rewrite Hthr in Hlt.
  unfold net_profit, _calculate_profit in Hlt. rewrite Hfee in Hlt.
  assert (HA : (0 < Decimal a)%Q).
  { apply (Decimal_lt 0 a). lia. }
  assert (HG : (0 <= Decimal (360000 * gp))%Q).
  { apply (Decimal_le 0 (360000 * gp)). lia. }
  apply Qnot_le_lt. intros Hle.
  assert (Hprod : ((p_t - p_s) * Decimal a <= 0)%Q).
  { assert (H0 : (0 <= (p_s - p_t) * Decimal a)%Q).
    { apply Qmult_le_0_compat; lra. }
    lra. }
  assert (Hfeepos : (0 <= Decimal a * (9 # 10000))%Q).
  { apply Qmult_le_0_compat; [lra | unfold Qle; cbn; lia]. }
  lra.
Qed.

(** X12: in every state the bot reaches, with a gas price that is not
    negative, an opportunity from one venue to another exists only if the
    target's price in the snapshot is strictly above the source's; the
    same snapshot therefore never yields an opportunity in the opposite
    direction as well. *)
Theorem never_both_directions (b : Bot) (w : World) (t0 t1 : Address)
    (s t : string) (prices : gmap string Q) (opp : ArbitrageOpportunity)
    (gp : Z) :
  reachable b ->
  eth_gas_price w = Returned gp ->
  0 <= gp ->
  _analyze_opportunity w b t0 t1 s t prices = Some opp ->
  (exists p_s p_t,
     prices !! s = Some p_s /\ prices !! t = Some p_t /\ (p_s < p_t)%Q) /\
  _analyze_opportunity w b t0 t1 t s prices = None.
Proof.
  intros Hr Hg Hgp Ho.
  pose proof (profitable_direction b w t0 t1 s t prices opp gp Hr Hg Hgp Ho)
    as Hdir.
  split; [exact Hdir|].
  destruct (_analyze_opportunity w b t0 t1 t s prices) as [opp'|] eqn:E;
    [|reflexivity].
  exfalso.
  destruct Hdir as (p_s & p_t & Hps & Hpt & Hlt).
  destruct (profitable_direction b w t0 t1 t s prices opp' gp Hr Hg Hgp E)
    as (q_t & q_s & Hqt & Hqs & Hlt').
  assert (q_t = p_t) as -> by congruence.
  assert (q_s = p_s) as -> by congruence.
  exact (Qlt_irrefl _ (Qlt_trans _ _ _ Hlt Hlt')).
Qed.

Lemma never_both_directions_witness :
  exists opp,
    _analyze_opportunity (calm 0 50000000000 spread) two_venues WETH DAI
      "uniswap" "sushiswap" spread_prices = Some opp /\
    (exists p_s p_t,
       spread_prices !! "uniswap" = Some p_s /\
       spread_prices !! "sushiswap" = Some p_t /\ (p_s < p_t)%Q) /\
    _analyze_opportunity (calm 0 50000000000 spread) two_venues WETH DAI
      "sushiswap" "uniswap" spread_prices = None.
Proof.
  assert (H : exists opp,
             _analyze_opportunity (calm 0 50000000000 spread) two_venues
               WETH DAI "uniswap" "sushiswap" spread_prices = Some opp).
  { eexists. vm_compute. reflexivity. }
  destruct H as [opp H]. exists opp. split; [exact H|].
  apply (never_both_directions two_venues (calm 0 50000000000 spread)
           WETH DAI "uniswap" "sushiswap" spread_prices opp 50000000000).
  - exact two_venues_reachable.
  - reflexivity.
  - lia.
  - exact H.
Defined.

(** ** Trade-Size Optimizer, continued *)

Section OptimizerBounds.

Variable profit_at : Z -> Q.

Lemma iteration_width (s : Search) :
  min_amount s <= max_amount s ->
  max_amount (iteration profit_at s) - min_amount (iteration profit_at s)
  <= (max_amount s - min_amount s + 1) / 2.
Proof.
  intros Hle. unfold iteration, mid_amount.
  destruct (ltb (profit_at _) (profit_at _)); cbn;
    Z.div_mod_to_equations; lia.
Qed.

Lemma halvings_mono (n : nat) (x y : Z) :
  x <= y -> halvings n x <= halvings n y.
Proof.
  revert x y. induction n as [|n IH]; intros x y Hle; cbn; [exact Hle|].
  apply IH. apply Z.div_le_mono; lia.
Qed.

Lemma iterate_width (n : nat) (s : Search) :
  min_amount s <= max_amount s ->
  let s' := iterate profit_at n s in
  min_amount s <= min_amount s' /\
  min_amount s' <= max_amount s' /\
  max_amount s' <= max_amount s /\
  max_amount s' - min_amount s' <= halvings n (max_amount s - min_amount s).
Proof.
  revert s. induction n as [|n IH]; intros s Hle; cbn.
  - lia.
  - destruct (iteration_bounds profit_at s Hle) as (_ & Hlo & Hhi & Hle').
    pose proof (iteration_width s Hle) as Hw.
    destruct (IH _ Hle') as (H1 & H2 & H3 & H4).
    repeat split; try lia.
    eapply Z.le_trans; [exact H4|].
    apply halvings_mono. exact Hw.
Qed.

(** When the profit grows with the amount, every iteration moves the
    lower bound up to the midpoint. *)
Hypothesis increasing :
  forall x y, 0 <= x -> x < y -> (profit_at x < profit_at y)%Q.

Lemma iteration_up (s : Search) :
  10 ^ 17 <= min_amount s <= max_amount s ->
  min_amount (iteration profit_at s) = mid_amount s /\
  max_amount (iteration profit_at s) = max_amount s.
Proof.
  intros Hb. unfold iteration.
  assert (Hm : 10 ^ 17 <= mid_amount s).
  { unfold mid_amount. apply Z.div_le_lower_bound; lia. }
  assert (Hlt : ltb (profit_at (mid_amount s - toWei_ether 1 10))
                  (profit_at (mid_amount s)) = true).
  { apply ltb_lt. apply increasing.
    - change (toWei_ether 1 10) with (10 ^ 17). lia.
    - change (toWei_ether 1 10) with (10 ^ 17). lia. }
  rewrite Hlt. cbn. auto.
Qed.

End OptimizerBounds.

(** Two growing profits visit the same midpoints. *)
Lemma midpoints_up (f g : Z -> Q) (n : nat) (s s' : Search) :
  (forall x y, 0 <= x -> x < y -> (f x < f y)%Q) ->
  (forall x y, 0 <= x -> x < y -> (g x < g y)%Q) ->
  10 ^ 17 <= min_amount s <= max_amount s ->
  min_amount s' = min_amount s ->
  max_amount s' = max_amount s ->
  midpoints f n s = midpoints g n s'.
Proof.
  intros Hf Hg. revert s s'.
  induction n as [|n IH]; intros s s' Hb Hmin Hmax; cbn; [reflexivity|].
  assert (Hmid : mid_amount s' = mid_amount s).
  { unfold mid_amount. by rewrite Hmin, Hmax. }
  assert (Hb' : 10 ^ 17 <= min_amount s' <= max_amount s') by lia.
  destruct (iteration_up f Hf s Hb) as (H1 & H2).
  destruct (iteration_up g Hg s' Hb') as (H1' & H2').
  rewrite Hmid. f_equal. apply IH.
  - rewrite H1, H2. unfold mid_amount.
    split; [apply Z.div_le_lower_bound | apply Z.div_le_upper_bound]; lia.
  - congruence.
  - congruence.
Qed.

(** X13: whatever the venues answer, the twenty iterations of
    [_find_optimal_amount] keep the search bounds ordered and inside
    0.1 to 100 ether, and leave them at most 95272064208985 wei apart. *)
Theorem search_interval_narrows (w : World) (b : Bot) (t0 t1 : Address)
    (s t : string) :
  let final :=
    iterate (fun a => _simulate_trade_profit w b t0 t1 a s t) 20 search_start in
  10 ^ 17 <= min_amount final /\
  min_amount final <= max_amount final /\
  max_amount final <= 10 ^ 20 /\
  max_amount final - min_amount final <= 95272064208985.
Proof.
  intros final.
  assert (Hle : min_amount search_start <= max_amount search_start)
    by (vm_compute; discriminate).
  destruct (iterate_width
              (fun a => _simulate_trade_profit w b t0 t1 a s t)
              20 search_start Hle) as (H1 & H2 & H3 & H4).
  fold final in H1, H2, H3, H4.
  change (min_amount search_start) with (10 ^ 17) in *.
  change (max_amount search_start) with (10 ^ 20) in *.
  change (halvings 20 (10 ^ 20 - 10 ^ 17)) with 95272064208985 in H4.
  auto.
Qed.

(** X14: the amount [_find_optimal_amount] returns is the first of the
    twenty midpoints that reaches the largest simulated profit: every
    midpoint tried before it has a strictly smaller profit, every one
    tried after it a profit that is no larger. *)
Theorem optimizer_first_maximum (w : World) (b : Bot) (t0 t1 : Address)
    (s t : string) (p_s p_t : Q) (a : Z) :
  let profit := fun x => _simulate_trade_profit w b t0 t1 x s t in
  _find_optimal_amount w b t0 t1 s t p_s p_t = Some a ->
  exists before after,
    midpoints profit 20 search_start = before ++ a :: after /\
    (forall m, m ∈ before -> (profit m < profit a)%Q) /\
    (forall m, m ∈ after -> (profit m <= profit a)%Q).
Proof.
  intros profit Ha.
  change (_find_optimal_amount w b t0 t1 s t p_s p_t)
    with (best_amount (iterate profit 20 search_start)) in Ha.
  destruct (iterate_first profit 20 search_start)
    as [(Hb & _) | (l1 & a' & l2 & Hms & Hb & _ & _ & H1 & H2)].
  - rewrite Hb in Ha. discriminate Ha.
  - rewrite Hb in Ha. injection Ha as <-.
    exists l1, l2. auto.
Qed.

Lemma optimizer_first_maximum_witness :
  let profit := fun x => _simulate_trade_profit (calm 0 0 cliff) two_venues
                           WETH DAI x "uniswap" "sushiswap" in
  exists before after,
    midpoints profit 20 search_start
      = before ++ 50050000000000000000 :: after /\
    (forall m, m ∈ before -> (profit m < profit 50050000000000000000%Z)%Q) /\
    (forall m, m ∈ after -> (profit m <= profit 50050000000000000000%Z)%Q).
Proof.
  apply (optimizer_first_maximum (calm 0 0 cliff) two_venues WETH DAI
           "uniswap" "sushiswap" 1 2 50050000000000000000).
  vm_compute. reflexivity.
Defined.

(** X15: when the simulated profit grows strictly with the amount, the
    search climbs to the upper bound: [_find_optimal_amount] returns its
    last midpoint, 99999904727935791015 wei, if the profit there is
    positive, and nothing otherwise. *)
Theorem growing_profit_picks_last (w : World) (b : Bot) (t0 t1 : Address)
    (s t : string) (p_s p_t : Q) :
  let profit := fun x => _simulate_trade_profit w b t0 t1 x s t in
  (forall x y, 0 <= x -> x < y -> (profit x < profit y)%Q) ->
  _find_optimal_amount w b t0 t1 s t p_s p_t =
    if ltb 0 (profit 99999904727935791015)
    then Some 99999904727935791015
    else None.
Proof.
  intros profit Hinc.
  assert (Hms : midpoints profit 20 search_start
                = midpoints Decimal 20 search_start).
  { apply midpoints_up; try reflexivity.
    - exact Hinc.
    - intros x y _ Hxy. by apply Decimal_lt.
    - vm_compute. split; discriminate. }
  assert (Hlist : midpoints Decimal 20 search_start
                  = [50050000000000000000; 75025000000000000000;
                     87512500000000000000; 93756250000000000000;
                     96878125000000000000; 98439062500000000000;
                     99219531250000000000; 99609765625000000000;
                     99804882812500000000; 99902441406250000000;
                     99951220703125000000; 99975610351562500000;
                     99987805175781250000; 99993902587890625000;
                     99996951293945312500; 99998475646972656250;
                     99999237823486328125; 99999618911743164062;
                     99999809455871582031; 99999904727935791015])
    by (vm_compute; reflexivity).
  rewrite Hlist in Hms.
  assert (Hall : forall m, m ∈ midpoints profit 20 search_start ->
                           0 <= m <= 99999904727935791015).
  { intros m Hm. rewrite Hms in Hm.
    repeat (apply elem_of_cons in Hm as [-> | Hm]; [lia|]).
    apply elem_of_nil in Hm. destruct Hm. }
  assert (Hlast : 99999904727935791015 ∈ midpoints profit 20 search_start).
  { rewrite Hms. do 19 (apply elem_of_cons; right).
    apply elem_of_cons. left. reflexivity. }
  clear Hms Hlist.
  pose proof (find_optimal_spec profit) as Hspec. cbv zeta in Hspec.
  change (_find_optimal_amount w b t0 t1 s t p_s p_t)
    with (find_optimal profit).
  destruct (find_optimal profit) as [a|].
  - destruct Hspec as (Hin & Hpos & Hmax).
    specialize (Hmax _ Hlast). specialize (Hall _ Hin).
    assert (a = 99999904727935791015) as ->.
    { destruct (Z.eq_dec a 99999904727935791015) as [E|E]; [exact E|].
      exfalso.
      assert (Hlt : (profit a < profit 99999904727935791015%Z)%Q)
        by (apply Hinc; lia).
      exact (Qlt_not_le _ _ Hlt Hmax). }
    apply ltb_lt in Hpos. rewrite Hpos. reflexivity.
  - specialize (Hspec _ Hlast). apply ltb_ge in Hspec.
    rewrite Hspec. reflexivity.
Qed.

(** The round trip of [spread] returns 0.9991 of the amount. *)
Lemma spread_profit (x : Z) :
  0 <= x ->
  _simulate_trade_profit (calm 0 0 spread) two_venues WETH DAI x
    "uniswap" "sushiswap"
  = (Decimal (2 * x - x) - Decimal x * (9 # 10000))%Q.
Proof.
  intros Hx.
  unfold _simulate_trade_profit, _get_dex_output.
  cbn -[Z.mul Z.to_N Z.of_N Z.sub Decimal Qminus Qmult].
  assert (Hu : bool_decide ("uniswap" ∈ ["uniswap"; "sushiswap"]) = true)
    by (vm_compute; reflexivity).
  assert (Hs : bool_decide ("sushiswap" ∈ ["uniswap"; "sushiswap"]) = true)
    by (vm_compute; reflexivity).
  rewrite Hu, Hs. cbn [catch].
  rewrite !Z2N.id by lia.
  reflexivity.
Qed.

Lemma growing_profit_picks_last_witness :
  _find_optimal_amount (calm 0 0 spread) two_venues WETH DAI
    "uniswap" "sushiswap" 2 4 =
    if ltb 0 (_simulate_trade_profit (calm 0 0 spread) two_venues WETH DAI
                99999904727935791015 "uniswap" "sushiswap")
    then Some 99999904727935791015
    else None.
Proof.
  apply (growing_profit_picks_last (calm 0 0 spread) two_venues WETH DAI
           "uniswap" "sushiswap" 2 4).
  intros x y Hx Hxy.
  rewrite !spread_profit by lia.
  assert (H1 : (Decimal (2 * x - x) < Decimal (2 * y - y))%Q)
    by (apply Decimal_lt; lia).
  assert (H2 : (Decimal x < Decimal y)%Q) by (apply Decimal_lt; lia).
  assert (H3 : (Decimal (2 * x - x) == Decimal x)%Q)
    by (unfold Decimal, Qeq; cbn; lia).
  assert (H4 : (Decimal (2 * y - y) == Decimal y)%Q)
    by (unfold Decimal, Qeq; cbn; lia).
  lra.
Defined.

(** ** Validation Guard, continued *)

(** X16: in every state the bot reaches, [_validate_opportunity] accepts
    exactly when the expected profit is strictly above the threshold, the
    gas price can be read, the gas estimate times the gas price is
    strictly below the expected profit, and both venues of the
    opportunity have a price in the snapshot [_get_prices] returns. The
    size of any price move plays no part. *)
Theorem validation_accepts_iff (b : Bot) (w : World)
    (opp : ArbitrageOpportunity) :
  reachable b ->
  let current := snapshot (_get_prices w b (token0 opp) (token1 opp)) in
  fst (_validate_opportunity w b opp) = true <->
  (min_profit_threshold b < expected_profit opp)%Q /\
  (exists gp, eth_gas_price w = Returned gp /\
              (Decimal (gas_estimate opp * gp) < expected_profit opp)%Q) /\
  is_Some (current !! source_dex opp) /\
  is_Some (current !! target_dex opp).
Proof.
  intros Hr current.
  pose proof (price_check_against_itself w b opp (reachable_positive b Hr))
    as Hcheck.
  cbv zeta in Hcheck. fold current in Hcheck.
  unfold _validate_opportunity, validate_body.
  destruct (leb (expected_profit opp) (min_profit_threshold b)) eqn:E1.
  { apply leb_le in E1. cbn. split; [discriminate|].
    intros (H & _). exfalso. exact (Qlt_not_le _ _ H E1). }
  assert (H1 : (min_profit_threshold b < expected_profit opp)%Q).
  { apply Qnot_le_lt. intros H. apply leb_le in H. congruence. }
  destruct (eth_gas_price w) as [gp|]; cbn [bind catch].
  2: { cbn. split; [discriminate|]. intros (_ & (gp & H & _) & _).
       discriminate H. }
  destruct (leb (expected_profit opp) (Decimal (gas_estimate opp * gp))) eqn:E2.
  { apply leb_le in E2. cbn. split; [discriminate|].
    intros (_ & (gp' & [= <-] & H) & _).
    exfalso. exact (Qlt_not_le _ _ H E2). }
  assert (H2 : (Decimal (gas_estimate opp * gp) < expected_profit opp)%Q).
  { apply Qnot_le_lt. intros H. apply leb_le in H. congruence. }
  fold current.
  destruct (_verify_prices _ current opp) eqn:E3; cbn.
  - split; [|reflexivity]. intros _.
    split; [exact H1|]. split; [by exists gp|].
    apply Hcheck. reflexivity.
  - split; [discriminate|]. intros (_ & _ & H).
    apply Hcheck in H. discriminate H.
Qed.

Lemma validation_accepts_iff_witness :
  let current := snapshot (_get_prices (calm 10 50000000000 spread) two_venues
                             (token0 sample_opportunity)
                             (token1 sample_opportunity)) in
  fst (_validate_opportunity (calm 10 50000000000 spread) two_venues
         sample_opportunity) = true <->
  (min_profit_threshold two_venues < expected_profit sample_opportunity)%Q /\
  (exists gp, eth_gas_price (calm 10 50000000000 spread) = Returned gp /\
              (Decimal (gas_estimate sample_opportunity * gp)
               < expected_profit sample_opportunity)%Q) /\
  is_Some (current !! source_dex sample_opportunity) /\
  is_Some (current !! target_dex sample_opportunity).
Proof.
  apply (validation_accepts_iff two_venues (calm 10 50000000000 spread)
           sample_opportunity).
  exact two_venues_reachable.
Defined.







(** The bound is inclusive and relative to the current price: from a
    cached 101 a current 100 is accepted (one hundredth of 100), from a
    cached 100 a current 99 is rejected although it moved by one
    hundredth of the cached price. *)
Example tolerance_boundary :
  _verify_prices stale_cache drifted_prices sample_opportunity = true /\
  _verify_prices
    (set_cache two_venues
       (<[cache_key WETH DAI :=
            <["uniswap" := 100%Q]> (<["sushiswap" := 200%Q]> ∅)]> ∅) 0)
    (<["uniswap" := 99%Q]> (<["sushiswap" := 200%Q]> ∅))
    sample_opportunity = false.
Proof.
  split; vm_compute; reflexivity.
Qed.

(** The two roundings show at the boundary: a current price of
    3.000000000000000000000000099 against a cached
    3.0300000000000000000000001 differs by more than one hundredth of
    itself, yet the computed deviation is exactly 0.01 and the check
    accepts. *)
Example tolerance_is_rounded :
  let sp := 3.000000000000000000000000099%Q in
  let cs := 3.0300000000000000000000001%Q in
  (sp * (1 # 100) < Qabs (sp - cs))%Q /\
  (exists d, div_ctx (Qabs (sub_ctx sp cs)) sp = Returned d /\
             (d == 1 # 100)%Q) /\
  _verify_prices
    (set_cache two_venues
       (<[cache_key WETH DAI :=
            <["uniswap" := cs]> (<["sushiswap" := 200%Q]> ∅)]> ∅) 0)
    (<["uniswap" := sp]> (<["sushiswap" := 200%Q]> ∅))
    sample_opportunity = true.
Proof.
  cbv zeta. split; [vm_compute; reflexivity|].
  split; [|vm_compute; reflexivity].
  eexists. split; [vm_compute; reflexivity|]. vm_compute. reflexivity.
Qed.

(** X18: [_validate_opportunity] never changes the statistics, and when
    it rejects because the expected profit is not above the threshold,
    because the gas price cannot be read, or because the gas cost is not
    below the expected profit, it has queried no venue and leaves the bot
    exactly as it was. In every other case the venues it queries are
    those of its one call of [_get_prices]. *)
Theorem validation_early_rejection (w : World) (b : Bot)
    (opp : ArbitrageOpportunity) :
  let early :=
    (expected_profit opp <= min_profit_threshold b)%Q \/
    eth_gas_price w = Raised \/
    (exists gp, eth_gas_price w = Returned gp /\
                (expected_profit opp <= Decimal (gas_estimate opp * gp))%Q) in
  fst (_validate_opportunity_calls w b opp) = _validate_opportunity w b opp /\
  stats (snd (_validate_opportunity w b opp)) = stats b /\
  (early -> _validate_opportunity_calls w b opp = (false, b, [])) /\
  (~ early ->
   snd (_validate_opportunity_calls w b opp) =
   venue_calls (_get_prices w b (token0 opp) (token1 opp))).
Proof.
  intros early. split; [|split; [|split]].
  - unfold _validate_opportunity_calls, _validate_opportunity,
      validate_body_calls, validate_body.
    destruct (leb (expected_profit opp) (min_profit_threshold b));
      [reflexivity|].
    destruct (eth_gas_price w) as [gp|]; cbn [bind catch]; [|reflexivity].
    destruct (leb (expected_profit opp) (Decimal (gas_estimate opp * gp)));
      [reflexivity|].
    cbv zeta. destruct (negb _); reflexivity.
  - destruct (validate_cache w b opp) as [-> | ->]; [reflexivity|].
    by destruct (get_prices_frame w b (token0 opp) (token1 opp))
      as (_ & _ & _ & _ & ->).
  - unfold _validate_opportunity_calls, validate_body_calls.
    intros [H | [H | (gp & Hg & H)]].
    + apply leb_le in H. by rewrite H.
    + rewrite H.
      destruct (leb (expected_profit opp) (min_profit_threshold b));
        reflexivity.
    + rewrite Hg. apply leb_le in H. cbn [bind catch]. rewrite H.
      destruct (leb (expected_profit opp) (min_profit_threshold b));
        reflexivity.
  - intros Hn. unfold _validate_opportunity_calls, validate_body_calls.
    destruct (leb (expected_profit opp) (min_profit_threshold b)) eqn:E1.
    { exfalso. apply Hn. left. apply leb_le. exact E1. }
    destruct (eth_gas_price w) as [gp|] eqn:Hg; cbn [bind catch].
    2: { exfalso. apply Hn. right. left. reflexivity. }
    destruct (leb (expected_profit opp) (Decimal (gas_estimate opp * gp)))
      eqn:E2.
    { exfalso. apply Hn. right. right. exists gp.
      split; [reflexivity | apply leb_le; exact E2]. }
    cbv zeta. destruct (negb _); reflexivity.
Qed.

(** An opportunity that passes both early tests has both venues
    queried; a rejection on the gas cost queries none. *)
Example validation_queries :
  _validate_opportunity_calls (calm 10 50000000000 spread) two_venues
    long_profit = (true, bot_after (_get_prices (calm 10 50000000000 spread)
                                      two_venues WETH DAI),
                   ["uniswap"; "sushiswap"]) /\
  _validate_opportunity_calls (calm 10 500000000000000 spread) two_venues
    long_profit = (false, two_venues, []).
Proof.
  split; vm_compute; reflexivity.
Qed.

(** ** Execution Submitter, continued *)

(** [int] of a decimal that is not negative is its floor. *)
Lemma int_floor (q : Q) :
  (0 <= q)%Q ->
  (inject_Z (Py.int q) <= q)%Q /\ (q < inject_Z (Py.int q + 1))%Q.
Proof.
  intros Hq.
  assert (E : Py.int q = Qfloor q).
  { unfold Py.int. destruct q as [n d]. cbn.
    apply Z.quot_div_nonneg; [|lia].
    unfold Qle in Hq. cbn in Hq. lia. }
  rewrite E. split; [apply Qfloor_le | apply Qlt_floor].
Qed.

(** X19: when [_prepare_flashbots_bundle] returns a transaction, it goes
    from the bot's account to the arbitrage contract with the nonce read
    from the node, the opportunity's gas estimate as gas limit and the
    node's gas price as both fee fields; its data encodes the
    opportunity's tokens, amount and venues together with a minimum
    profit that, for an expected profit that is not negative, is the
    expected profit rounded down to a whole number. *)
Theorem prepared_transaction (w : World) (b : Bot)
    (opp : ArbitrageOpportunity) (tx : TxParams) :
  _prepare_flashbots_bundle w b opp = Returned tx ->
  exists nonce gp args,
    eth_get_transaction_count w = Returned nonce /\
    eth_gas_price w = Returned gp /\
    encodeABI w args = Returned (tx_data tx) /\
    tx_from tx = account_address b /\ tx_to tx = contract_address b /\
    tx_nonce tx = nonce /\ tx_gas tx = gas_estimate opp /\
    tx_maxFeePerGas tx = gp /\ tx_maxPriorityFeePerGas tx = gp /\
    arg_token0 args = token0 opp /\ arg_token1 args = token1 opp /\
    arg_amount_in args = amount_in opp /\
    arg_source_dex args = source_dex opp /\
    arg_target_dex args = target_dex opp /\
    ((0 <= expected_profit opp)%Q ->
     (inject_Z (arg_min_profit args) <= expected_profit opp)%Q /\
     (expected_profit opp < inject_Z (arg_min_profit args + 1))%Q).
Proof.
  unfold _prepare_flashbots_bundle.
  destruct (eth_get_transaction_count w) as [nonce|]; [|discriminate].
  destruct (eth_gas_price w) as [gp|]; [|discriminate].
  cbn [bind].
  destruct (encodeABI w _) as [data|] eqn:Hd; [|discriminate].
  cbn [bind]. intros [= <-].
  eexists nonce, gp, _. cbn.
  split; [reflexivity|]. split; [reflexivity|]. split; [exact Hd|].
  cbn. repeat split; try reflexivity; apply int_floor; assumption.
Qed.

Lemma prepared_transaction_witness :
  exists tx,
    _prepare_flashbots_bundle (calm 0 50000000000 spread) two_venues
      sample_opportunity = Returned tx /\
    exists nonce gp args,
      eth_get_transaction_count (calm 0 50000000000 spread) = Returned nonce /\
      eth_gas_price (calm 0 50000000000 spread) = Returned gp /\
      encodeABI (calm 0 50000000000 spread) args = Returned (tx_data tx) /\
      tx_from tx = account_address two_venues /\
      tx_to tx = contract_address two_venues /\
      tx_nonce tx = nonce /\ tx_gas tx = gas_estimate sample_opportunity /\
      tx_maxFeePerGas tx = gp /\ tx_maxPriorityFeePerGas tx = gp /\
      arg_token0 args = token0 sample_opportunity /\
      arg_token1 args = token1 sample_opportunity /\
      arg_amount_in args = amount_in sample_opportunity /\
      arg_source_dex args = source_dex sample_opportunity /\
      arg_target_dex args = target_dex sample_opportunity /\
      ((0 <= expected_profit sample_opportunity)%Q ->
       (inject_Z (arg_min_profit args) <= expected_profit sample_opportunity)%Q /\
       (expected_profit sample_opportunity < inject_Z (arg_min_profit args + 1))%Q).
Proof.
  eexists. split.
  - vm_compute. reflexivity.
  - apply (prepared_transaction (calm 0 50000000000 spread) two_venues
             sample_opportunity).
    vm_compute. reflexivity.
Defined.

(** X20: one execution posts at most one request to the relay and never
    retries; when it counts as a success, the transaction was prepared
    and signed, the block number was read, and exactly one request went
    out, carrying that signed transaction alone for the next block. *)
Theorem execution_posts_once (w : World) (b : Bot)
    (opp : ArbitrageOpportunity) (submission : Submission) :
  execute_body w b opp = Returned submission ->
  (length (posted submission) <= 1)%nat /\
  (accepted submission = true ->
   exists tx raw n,
     _prepare_flashbots_bundle w b opp = Returned tx /\
     sign_transaction w tx = Returned raw /\
     eth_block_number w = Returned n /\
     posted submission = [bundle_request w raw n] /\
     flat_map txs (params (bundle_request w raw n)) = [raw]).
Proof.
  unfold execute_body.
  destruct (_prepare_flashbots_bundle w b opp) as [tx|]; [|discriminate].
  cbn [bind].
  destruct (sign_transaction w tx) as [raw|] eqn:Hs; [|discriminate].
  cbn [bind]. intros [= <-]. unfold _submit_to_flashbots.
  destruct (eth_block_number w) as [n|]; cbn.
  - split; [lia|]. intros _. exists tx, raw, n. auto.
  - split; [lia|]. discriminate.
Qed.

Lemma execution_posts_once_witness :
  exists submission,
    execute_body (calm 0 50000000000 spread) two_venues sample_opportunity
      = Returned submission /\
    (length (posted submission) <= 1)%nat /\
    (accepted submission = true ->
     exists tx raw n,
       _prepare_flashbots_bundle (calm 0 50000000000 spread) two_venues
         sample_opportunity = Returned tx /\
       sign_transaction (calm 0 50000000000 spread) tx = Returned raw /\
       eth_block_number (calm 0 50000000000 spread) = Returned n /\
       posted submission = [bundle_request (calm 0 50000000000 spread) raw n] /\
       flat_map txs (params (bundle_request (calm 0 50000000000 spread) raw n))
         = [raw]).
Proof.
  eexists. split.
  - vm_compute. reflexivity.
  - apply (execution_posts_once (calm 0 50000000000 spread) two_venues
             sample_opportunity).
    vm_compute. reflexivity.
Defined.

(** One execution touches nothing but the statistics. *)
Lemma execute_frame (w : World) (b : Bot) (opp : ArbitrageOpportunity) :
  let b' := _execute_arbitrage w b opp in
  price_cache b' = price_cache b /\
  last_cache_update b' = last_cache_update b /\
  dex_interfaces b' = dex_interfaces b /\
  opportunities_found (stats b') = opportunities_found (stats b) /\
  trades_executed (stats b') + failed_trades (stats b')
    = trades_executed (stats b) + failed_trades (stats b) + 1 /\
  trades_executed (stats b) <= trades_executed (stats b') /\
  failed_trades (stats b) <= failed_trades (stats b').
Proof.
  unfold _execute_arbitrage.
  destruct (execute_body w b opp) as [s|]; [destruct (accepted s)|];
    cbn; repeat split; lia.
Qed.

(** X21: after any series of executions, the number of trades executed
    plus the number of failed trades has grown by exactly the number of
    executions, neither counter has gone down, and the price cache, its
    time stamp and the count of opportunities found are as before. *)
Theorem executions_are_all_counted
    (jobs : list (World * ArbitrageOpportunity)) (b : Bot) :
  let b' := run_executions jobs b in
  trades_executed (stats b') + failed_trades (stats b')
    = trades_executed (stats b) + failed_trades (stats b)
      + Z.of_nat (length jobs) /\
  trades_executed (stats b) <= trades_executed (stats b') /\
  failed_trades (stats b) <= failed_trades (stats b') /\
  opportunities_found (stats b') = opportunities_found (stats b) /\
  price_cache b' = price_cache b /\
  last_cache_update b' = last_cache_update b.
Proof.
  revert b. induction jobs as [|[w opp] jobs IH]; intros b; cbn [run_executions].
  - cbn. repeat split; lia.
  - destruct (execute_frame w b opp) as (H1 & H2 & _ & H4 & H5 & H6 & H7).
    destruct (IH (_execute_arbitrage w b opp)) as (I1 & I2 & I3 & I4 & I5 & I6).
    cbv zeta. rewrite I1, I4, I5, I6.
    change (length ((w, opp) :: jobs)) with (S (length jobs)).
    repeat split; try congruence; lia.
Qed.

(** Three executions on a fresh bot: one accepted, one refused by the
    relay, one that cannot be signed. *)
Example three_executions_counted :
  let w := calm 0 50000000000 spread in
  let b' := run_executions [(w, sample_opportunity);
                            (refusing w, sample_opportunity);
                            (unsigned w, sample_opportunity)] two_venues in
  trades_executed (stats b') = 1 /\ failed_trades (stats b') = 2.
Proof.
  split; vm_compute; reflexivity.
Qed.

Lemma reachable_counters (b : Bot) :
  reachable b ->
  opportunities_found (stats b) = 0 /\
  0 <= trades_executed (stats b) /\
  0 <= failed_trades (stats b).
Proof.
  induction 1 as [dexes account contract _
                 |w b t0 t1 _ IH
                 |w b opp _ IH
                 |w b opp _ IH].
  - cbn. lia.
  - by destruct (get_prices_frame w b t0 t1) as (_ & _ & _ & _ & ->).
  - destruct (validate_cache w b opp) as [-> | ->]; [exact IH|].
    by destruct (get_prices_frame w b (token0 opp) (token1 opp))
      as (_ & _ & _ & _ & ->).
  - destruct (execute_frame w b opp) as (_ & _ & _ & H4 & H5 & H6 & H7).
    cbv zeta in *. rewrite H4. lia.
Qed.

(** X22: in every state the bot reaches, [opportunities_found] is still
    zero, since no method ever writes it, the other two counters are not
    negative, and the venues and the three constants of [__init__] (cache
    duration 5, threshold 0.01, flash-loan fee 0.0009) are unchanged. *)
Theorem reachable_bookkeeping (b : Bot) :
  reachable b ->
  opportunities_found (stats b) = 0 /\
  0 <= trades_executed (stats b) /\
  0 <= failed_trades (stats b) /\
  NoDup (dex_interfaces b) /\
  CACHE_DURATION b = 5%Q /\
  min_profit_threshold b = (1 # 100)%Q /\
  flash_loan_fee b = (9 # 10000)%Q.
Proof.
  intros Hr.
  destruct (reachable_counters b Hr) as (H1 & H2 & H3).
  destruct (reachable_config b Hr) as (H4 & H5 & H6 & H7).
  auto 10.
Qed.

Lemma reachable_bookkeeping_witness :
  let b := _execute_arbitrage (calm 0 50000000000 spread)
             (bot_after (_get_prices (calm 0 0 spread) two_venues WETH DAI))
             sample_opportunity in
  opportunities_found (stats b) = 0 /\
  0 <= trades_executed (stats b) /\
  0 <= failed_trades (stats b) /\
  NoDup (dex_interfaces b) /\
  CACHE_DURATION b = 5%Q /\
  min_profit_threshold b = (1 # 100)%Q /\
  flash_loan_fee b = (9 # 10000)%Q.
Proof.
  apply (reachable_bookkeeping
           (_execute_arbitrage (calm 0 50000000000 spread)
              (bot_after (_get_prices (calm 0 0 spread) two_venues WETH DAI))
              sample_opportunity)).
  apply reach_execute, reach_get_prices. exact two_venues_reachable.
Defined.

(** ** Start-up *)

Section StartupFacts.

Variable env : Env.

Lemma load_interfaces_sublist (dexes : list (string * Py.value)) :
  map fst (load_interfaces env dexes) `sublist_of` map fst dexes.
Proof.
  induction dexes as [|[name cfg] dexes IH]; cbn; [constructor|].
  destruct (load_interface env cfg); cbn.
  - by apply sublist_skip.
  - by apply sublist_cons.
Qed.

Lemma elem_of_load_interfaces (dexes : list (string * Py.value))
    (name : string) (contract : Contract) :
  (name, contract) ∈ load_interfaces env dexes <->
  exists cfg, (name, cfg) ∈ dexes /\ load_interface env cfg = Returned contract.
Proof.
  induction dexes as [|[n cfg] dexes IH]; cbn.
  - split.
    + intros H. by apply elem_of_nil in H.
    + intros (cfg & H & _). by apply elem_of_nil in H.
  - destruct (load_interface env cfg) as [c|] eqn:Hl.
    + rewrite elem_of_cons, IH. split.
      * intros [[= -> ->] | (cfg' & Hin & Hc)].
        -- exists cfg. split; [apply elem_of_cons; by left | exact Hl].
        -- exists cfg'. split; [apply elem_of_cons; by right | exact Hc].
      * intros (cfg' & Hin & Hc).
        apply elem_of_cons in Hin as [[= -> ->] | Hin].
        -- left. congruence.
        -- right. by exists cfg'.
    + rewrite IH. split.
      * intros (cfg' & Hin & Hc).
        exists cfg'. split; [apply elem_of_cons; by right | exact Hc].
      * intros (cfg' & Hin & Hc).
        apply elem_of_cons in Hin as [[= -> ->] | Hin]; [congruence|].
        by exists cfg'.
Qed.

Lemma comprehension_Returned {A B} (f : A -> outcome B) (l : list A)
    (ys : list B) :
  comprehension f l = Returned ys <->
  Forall2 (fun x y => f x = Returned y) l ys.
Proof.
  revert ys. induction l as [|x l IH]; intros ys; cbn.
  - split.
    + intros [= <-]. constructor.
    + intros H. apply Forall2_nil_inv_l in H. by subst.
  - destruct (f x) as [y|] eqn:Hx; cbn.
    + destruct (comprehension f l) as [ys'|] eqn:Hl; cbn.
      * split.
        -- intros [= <-]. constructor; [exact Hx | by apply IH].
        -- intros H. apply Forall2_cons_inv_l in H.
           destruct H as (y' & ys'' & Hy & Hys & ->).
           apply IH in Hys. congruence.
      * split; [discriminate|].
        intros H. apply Forall2_cons_inv_l in H.
        destruct H as (y' & ys'' & Hy & Hys & ->).
        apply IH in Hys. discriminate Hys.
    + split; [discriminate|].
      intros H. apply Forall2_cons_inv_l in H.
      destruct H as (y' & ys'' & Hy & _). congruence.
Qed.

End StartupFacts.

(** X23: when the configuration has a ["dexes"] object,
    [_initialize_dex_interfaces] does not raise; it keeps exactly the
    venues whose ABI file, router address and contract all load, under
    their configured names and in configuration order, and skips the
    others. *)
Theorem venues_that_load (env : Env) (config : Py.value)
    (dexes : list (string * Py.value)) :
  Py.subscript config "dexes" = Returned (VDict dexes) ->
  NoDup (map fst dexes) ->
  exists loaded,
    _initialize_dex_interfaces env config = Returned loaded /\
    NoDup (map fst loaded) /\
    map fst loaded `sublist_of` map fst dexes /\
    forall name contract,
      (name, contract) ∈ loaded <->
      exists cfg, (name, cfg) ∈ dexes /\
                  load_interface env cfg = Returned contract.
Proof.
  intros Hd Hnd. exists (load_interfaces env dexes).
  unfold _initialize_dex_interfaces. rewrite Hd. cbn.
  split; [reflexivity|].
  pose proof (load_interfaces_sublist env dexes) as Hsub.
  split; [eapply sublist_NoDup; eassumption|].
  split; [exact Hsub|].
  apply elem_of_load_interfaces.
Qed.

Lemma venues_that_load_witness :
  exists loaded,
    _initialize_dex_interfaces office sample_config = Returned loaded /\
    NoDup (map fst loaded) /\
    map fst loaded `sublist_of` map fst sample_dexes /\
    forall name contract,
      (name, contract) ∈ loaded <->
      exists cfg, (name, cfg) ∈ sample_dexes /\
                  load_interface office cfg = Returned contract.
Proof.
  apply (venues_that_load office sample_config sample_dexes).
  - vm_compute. reflexivity.
  - apply (bool_decide_unpack (NoDup (map fst sample_dexes))).
    vm_compute. reflexivity.
Defined.

(** The venue whose ABI file is missing is skipped, the other two are
    kept in order. *)
Example one_venue_skipped :
  (fun loaded => match loaded with
                 | Returned l => Some (map fst l)
                 | Raised => None
                 end) (_initialize_dex_interfaces office sample_config)
  = Some ["uniswap"; "sushiswap"].
Proof.
  vm_compute. reflexivity.
Qed.

(** X24: [_load_token_pairs] is all or nothing. For a ["token_pairs"]
    list it returns a list exactly when every entry has a ["token0"] and
    a ["token1"] that both convert to checksum addresses, and then the
    result has one pair per entry, in the same order; a single bad entry
    makes the whole call raise. *)
Theorem token_pairs_all_or_nothing (env : Env) (config : Py.value)
    (entries : list Py.value) (pairs : list (Address * Address)) :
  Py.subscript config "token_pairs" = Returned (VList entries) ->
  (_load_token_pairs env config = Returned pairs <->
   Forall2 (fun entry pair => load_pair env entry = Returned pair)
           entries pairs) /\
  (_load_token_pairs env config = Returned pairs ->
   length pairs = length entries) /\
  ((exists entry, entry ∈ entries /\ load_pair env entry = Raised) ->
   _load_token_pairs env config = Raised).
Proof.
  intros Hp. unfold _load_token_pairs. rewrite Hp. cbn.
  split; [apply comprehension_Returned|]. split.
  - intros H. apply comprehension_Returned in H.
    symmetry. eapply Forall2_length. exact H.
  - intros (entry & Hin & Hr).
    destruct (comprehension (load_pair env) entries) as [ys|] eqn:E;
      [|reflexivity].
    exfalso. apply comprehension_Returned in E.
    apply list_elem_of_lookup in Hin. destruct Hin as (i & Hi).
    destruct (Forall2_lookup_l _ _ _ _ _ E Hi) as (y & _ & Hy).
    congruence.
Qed.

Lemma token_pairs_all_or_nothing_witness :
  (_load_token_pairs office sample_config = Returned [(WETH, DAI); (WETH, USDC)] <->
   Forall2 (fun entry pair => load_pair office entry = Returned pair)
           sample_pairs [(WETH, DAI); (WETH, USDC)]) /\
  (_load_token_pairs office sample_config = Returned [(WETH, DAI); (WETH, USDC)] ->
   length [(WETH, DAI); (WETH, USDC)] = length sample_pairs) /\
  ((exists entry, entry ∈ sample_pairs /\ load_pair office entry = Raised) ->
   _load_token_pairs office sample_config = Raised).
Proof.
  apply (token_pairs_all_or_nothing office sample_config sample_pairs).
  vm_compute. reflexivity.
Defined.

(** X25: when [__init__] returns, the arbitrage contract has loaded and
    the bot it leaves is the initial state for the venues that loaded:
    empty price cache, time stamp zero, all counters zero, gas ceiling of
    100 gwei; with distinct venue names in the configuration it is a
    state from which every property of reachable states holds. *)
Theorem init_state (env : Env) (config : Py.value) (engine : Engine)
    (dexes : list (string * Py.value)) :
  __init__ env config = Returned engine ->
  Py.subscript config "dexes" = Returned (VDict dexes) ->
  NoDup (map fst dexes) ->
  reachable (engine_bot engine) /\
  dex_interfaces (engine_bot engine) = map fst (load_interfaces env dexes) /\
  interfaces engine = load_interfaces env dexes /\
  price_cache (engine_bot engine) = ∅ /\
  last_cache_update (engine_bot engine) = 0%Q /\
  stats (engine_bot engine)
    = {| opportunities_found := 0; trades_executed := 0;
         total_profit := 0; failed_trades := 0 |} /\
  max_gas_price engine = 100000000000 /\
  contract_address (engine_bot engine) = address (arbitrage_contract engine) /\
  exists raw, Py.subscript config "arbitrage_contract_address" = Returned raw /\
              _load_contract env raw "AdvancedMultiDexArbitrage.json"
                = Returned (arbitrage_contract engine).
Proof.
  intros Hi Hd Hnd. unfold __init__ in Hi.
  destruct (Py.subscript config "node_url") as [url|]; [|discriminate].
  cbn [bind] in Hi.
  destruct (http_provider env url); [|discriminate]. cbn [bind] in Hi.
  destruct (Py.subscript config "arbitrage_contract_address") as [raw|];
    [|discriminate].
  cbn [bind] in Hi.
  destruct (_load_contract env raw _) as [contract|] eqn:Hc; [|discriminate].
  cbn [bind] in Hi.
  unfold _initialize_dex_interfaces in Hi. rewrite Hd in Hi. cbn [bind items] in Hi.
  destruct (_load_token_pairs env config) as [pairs|]; [|discriminate].
  cbn [bind] in Hi.
  destruct (Py.subscript config "flashbots_endpoint") as [endpoint|];
    [|discriminate].
  cbn [bind] in Hi.
  destruct (Py.subscript config "private_key") as [key|]; [|discriminate].
  cbn [bind] in Hi.
  destruct (account_from_key env key) as [account|]; [|discriminate].
  cbn [bind] in Hi. injection Hi as <-. cbn.
  split.
  { apply reach_init.
    eapply sublist_NoDup; [exact Hnd | apply load_interfaces_sublist]. }
  repeat split. by exists raw.
Qed.

Lemma init_state_witness :
  exists engine,
    __init__ office sample_config = Returned engine /\
    reachable (engine_bot engine) /\
    dex_interfaces (engine_bot engine)
      = map fst (load_interfaces office sample_dexes) /\
    interfaces engine = load_interfaces office sample_dexes /\
    price_cache (engine_bot engine) = ∅ /\
    last_cache_update (engine_bot engine) = 0%Q /\
    stats (engine_bot engine)
      = {| opportunities_found := 0; trades_executed := 0;
           total_profit := 0; failed_trades := 0 |} /\
    max_gas_price engine = 100000000000 /\
    contract_address (engine_bot engine) = address (arbitrage_contract engine) /\
    exists raw, Py.subscript sample_config "arbitrage_contract_address"
                  = Returned raw /\
                _load_contract office raw "AdvancedMultiDexArbitrage.json"
                  = Returned (arbitrage_contract engine).
Proof.
  eexists. split.
  - vm_compute. reflexivity.
  - apply (init_state office sample_config _ sample_dexes).
    + vm_compute. reflexivity.
    + vm_compute. reflexivity.
    + apply (bool_decide_unpack (NoDup (map fst sample_dexes))).
      vm_compute. reflexivity.
Defined.

(** A venue that does not load is skipped, but a missing ABI file of the
    arbitrage contract, or a bad token pair, stops [__init__]. *)
Example startup_failures :
  __init__ no_contract_abi sample_config = Raised /\
  __init__ office bad_pair_config = Raised.
Proof.
  split; vm_compute; reflexivity.
Qed.

(** ** Configuration file *)

Lemma filter_nil_iff {A} (p : A -> bool) (l : list A) :
  List.filter p l = [] <-> forall x, x ∈ l -> p x = false.
Proof.
  induction l as [|a l IH]; cbn.
  - split; [|reflexivity]. intros _ x Hx. by apply elem_of_nil in Hx.
  - destruct (p a) eqn:Ha.
    + split; [discriminate|]. intros H.
      specialize (H a (list_elem_of_here a l)). congruence.
    + rewrite IH. split.
      * intros H x Hx. apply elem_of_cons in Hx as [-> | Hx]; auto.
      * intros H x Hx. apply H, elem_of_cons. by right.
Qed.

(** On a JSON object the comprehension keeps the fields without entry,
    in the order given. *)
Lemma missing_fields_dict (fields : list string) (d : list (string * Py.value)) :
  Config.missing_fields fields (VDict d)
  = Returned (List.filter (Config.absent d) fields).
Proof.
  induction fields as [|f fields IH]; [reflexivity|].
  cbn [Config.missing_fields List.filter]. rewrite IH.
  cbn [Py.contains bind]. rewrite contains_key.
  assert (Ha : Config.absent d f
               = match Py.assoc f d with Some _ => false | None => true end)
    by reflexivity.
  rewrite Ha. destruct (Py.assoc f d); reflexivity.
Qed.

Lemma config_valid_iff (d : list (string * Py.value)) :
  Config.validate_config (VDict d) = Config.Valid <->
  forall field, field ∈ Config.required_fields -> is_Some (Py.assoc field d).
Proof.
  unfold Config.validate_config. rewrite missing_fields_dict.
  destruct (List.filter (Config.absent d) Config.required_fields)
    as [|m ms] eqn:E.
  - split; [|reflexivity]. intros _ field Hin.
    pose proof (proj1 (filter_nil_iff _ _) E field Hin) as Ha.
    unfold Config.absent in Ha.
    destruct (Py.assoc field d) as [v|]; [by exists v | discriminate].
  - split; [discriminate|]. intros H. exfalso.
    assert (Hnil : List.filter (Config.absent d) Config.required_fields = []).
    { apply filter_nil_iff. intros field Hin.
      destruct (H field Hin) as [v Hv]. unfold Config.absent. by rewrite Hv. }
    congruence.
Qed.

(** X26: [validate_config] accepts a JSON object exactly when each of
    the ten required fields has an entry; what the entries hold and which
    other entries there are does not matter. A file that is a number,
    a boolean or [null] makes the check itself raise [TypeError]. *)
Theorem validate_config_accepts (d : list (string * Py.value)) :
  (Config.validate_config (VDict d) = Config.Valid <->
   forall field, field ∈ Config.required_fields -> is_Some (Py.assoc field d)) /\
  (forall q : Q, Config.validate_config (VNum q) = Config.TypeError) /\
  (forall flag : bool, Config.validate_config (VBool flag) = Config.TypeError) /\
  Config.validate_config VNone = Config.TypeError.
Proof.
  split; [apply config_valid_iff|].
  repeat split; reflexivity.
Qed.

(** X27: when a JSON object lacks a required field, [validate_config]
    raises [ValueError] with the message
    ["Missing required configuration fields: "] followed by the missing
    fields, and only those, separated by [", "] in the order of the
    required list. *)
Theorem validate_config_message (d : list (string * Py.value)) :
  (exists field, field ∈ Config.required_fields /\ Py.assoc field d = None) ->
  let missing := List.filter (Config.absent d) Config.required_fields in
  Config.validate_config (VDict d)
  = Config.ValueError ("Missing required configuration fields: "
                       +:+ String.concat ", " missing) /\
  forall field,
    field ∈ missing <->
    field ∈ Config.required_fields /\ Py.assoc field d = None.
Proof.
  intros (f0 & Hin & Hnone) missing.
  assert (Hm : forall field,
             field ∈ missing <->
             field ∈ Config.required_fields /\ Py.assoc field d = None).
  { intros field. unfold missing.
    rewrite !list_elem_of_In, filter_In. unfold Config.absent.
    destruct (Py.assoc field d); split; intros [H1 H2]; split;
      congruence || assumption. }
  split; [|exact Hm].
  unfold Config.validate_config. rewrite missing_fields_dict. fold missing.
  destruct missing as [|m ms] eqn:E; [|reflexivity].
  exfalso.
  assert (H : f0 ∈ @nil string) by (apply Hm; auto).
  by apply elem_of_nil in H.
Qed.

Lemma validate_config_message_witness :
  let d := [("node_url", VStr "http://localhost:8545");
            ("dexes", VDict []); ("logging", VDict [])] in
  let missing := List.filter (Config.absent d) Config.required_fields in
  Config.validate_config (VDict d)
  = Config.ValueError ("Missing required configuration fields: "
                       +:+ String.concat ", " missing) /\
  forall field,
    field ∈ missing <->
    field ∈ Config.required_fields /\ Py.assoc field d = None.
Proof.
  apply (validate_config_message
           [("node_url", VStr "http://localhost:8545");
            ("dexes", VDict []); ("logging", VDict [])]).
  exists "private_key". split.
  - do 3 (apply elem_of_cons; right). apply elem_of_cons. by left.
  - reflexivity.
Defined.

(** The message for the object of the witness, for an empty object, and
    what happens to a file that is not an object: a number makes the
    membership test raise, while an array of the ten names passes. *)
Example validate_config_cases :
  Config.validate_config
    (VDict [("node_url", VStr "http://localhost:8545");
            ("dexes", VDict []); ("logging", VDict [])])
  = Config.ValueError
      "Missing required configuration fields: arbitrage_contract_address, flashbots_endpoint, private_key, token_pairs, gas_price_settings, profit_settings, monitoring_settings" /\
  Config.validate_config (VDict [])
  = Config.ValueError
      "Missing required configuration fields: node_url, arbitrage_contract_address, flashbots_endpoint, private_key, dexes, token_pairs, gas_price_settings, profit_settings, monitoring_settings, logging" /\
  Config.validate_config (VNum 7) = Config.TypeError /\
  Config.validate_config (VList (map VStr Config.required_fields))
  = Config.Valid /\
  Config.validate_config sample_config = Config.Valid.
Proof.
  repeat split; vm_compute; reflexivity.
Qed.

(** X28: once [validate_config] has accepted a JSON object,
    [_get_env_or_config] does not raise for any required field, whatever
    the environment: it returns the environment variable when that is set
    and not empty, and the entry of the file otherwise. *)
Theorem env_or_config_after_validation (d : list (string * Py.value))
    (environ : gmap string string) (env_key config_key : string) :
  Config.validate_config (VDict d) = Config.Valid ->
  config_key ∈ Config.required_fields ->
  exists v,
    Config._get_env_or_config environ (VDict d) env_key config_key = Returned v /\
    match environ !! env_key with
    | Some e => if String.eqb e "" then Py.assoc config_key d = Some v
                else v = VStr e
    | None => Py.assoc config_key d = Some v
    end.
Proof.
  intros Hv Hk.
  destruct (proj1 (config_valid_iff d) Hv config_key Hk) as [v Hd].
  unfold Config._get_env_or_config. cbn [Py.subscript]. rewrite Hd.
  destruct (environ !! env_key) as [e|].
  - destruct (String.eqb e ""); eexists; split; reflexivity.
  - eexists; split; reflexivity.
Qed.

Lemma env_or_config_after_validation_witness :
  exists v,
    Config._get_env_or_config (<["NODE_URL" := "http://10.0.0.1:8545"]> ∅)
      sample_config "NODE_URL" "node_url" = Returned v /\
    match (<["NODE_URL" := "http://10.0.0.1:8545"]> ∅ : gmap string string)
            !! "NODE_URL" with
    | Some e => if String.eqb e ""
                then Py.assoc "node_url" sample_fields = Some v
                else v = VStr e
    | None => Py.assoc "node_url" sample_fields = Some v
    end.
Proof.
  apply (env_or_config_after_validation sample_fields
           (<["NODE_URL" := "http://10.0.0.1:8545"]> ∅) "NODE_URL" "node_url").
  - vm_compute. reflexivity.
  - apply elem_of_cons. by left.
Defined.

(** An empty variable falls back to the file; without validation a
    missing entry raises. *)
Example env_or_config_cases :
  Config._get_env_or_config (<["PRIVATE_KEY" := ""]> ∅) sample_config
    "PRIVATE_KEY" "private_key" = Returned (VStr "0xkey") /\
  Config._get_env_or_config (<["PRIVATE_KEY" := "0xfeed"]> ∅) sample_config
    "PRIVATE_KEY" "private_key" = Returned (VStr "0xfeed") /\
  Config._get_env_or_config ∅ (VDict []) "PRIVATE_KEY" "private_key" = Raised.
Proof.
  repeat split; vm_compute; reflexivity.
Qed.
